(** * Event queries of the SIASIS API02 service (RDP03 / T_Eventos)

    A shallow embedding of
      - [core/databases/queries/RDP03/eventos/buscarEventosPorMes.ts]
        (the six query helpers and [verificarConflictoConEventos]), and
      - [src/routes/api/eventos/index.ts] (the GET handler of [EventosRouter]),
    together with the part of the ECMAScript [Date] object these files use.

    Conventions of the embedding.
      - A JavaScript number is [NaN] or an integer-valued double ([Z]);
        fractional and infinite numbers are outside the model.  An
        arithmetic result is rounded as a double rounds it ([doble]).
      - A [Date] object is its time value: [Some t] with [t] milliseconds
        since the epoch (UTC), or [None] for an Invalid Date.
      - The local time zone is the function [LocalTZA] of ECMA-262, the
        offset of local time at a given time value, and the clock a time
        value [currentTime]; both are part of the run-time environment
        [Env].  A zone may change its offset (daylight saving); what is
        proved about calendar fields says which zones it is proved for.
      - [async] functions are sequential computations over a [World] that
        holds the console, the trace of database operations issued so far
        and the state of the database connector. *)

From Stdlib Require Import ZArith Lia Bool List Ascii String DecimalString.
From Stdlib Require Import Sorting.Sorted Sorting.Permutation.
Import ListNotations.
Open Scope string_scope.
Open Scope Z_scope.

(* ================================================================= *)
(** ** JavaScript numbers *)

Inductive JSNumber : Type :=
| NaN
| Num (z : Z).

Definition isNaN (n : JSNumber) : bool :=
  match n with NaN => true | Num _ => false end.

(** [a < b] and [a > b]: every comparison with NaN is false. *)
Definition num_lt (a b : JSNumber) : bool :=
  match a, b with Num x, Num y => x <? y | _, _ => false end.
Definition num_gt (a b : JSNumber) : bool := num_lt b a.

(** The double nearest to the integer [z]: integers up to 2^53 in
    magnitude are doubles themselves; a larger one is rounded to the 53
    leading bits, a tie going to the even significand. *)
Definition doble (z : Z) : Z :=
  let a := Z.abs z in
  if a <=? 9007199254740992 then z
  else
    let u := 2 ^ (Z.log2 a - 52) in
    let q := a / u in
    let r := a mod u in
    let q' := if 2 * r <? u then q
              else if u <? 2 * r then q + 1
              else if Z.even q then q else q + 1 in
    Z.sgn z * (q' * u).

(** [a - b]: the difference of two doubles, rounded to a double. *)
Definition num_sub (a b : JSNumber) : JSNumber :=
  match a, b with Num x, Num y => Num (doble (x - y)) | _, _ => NaN end.

(** Truthiness of a number: [0] and [NaN] are falsy. *)
Definition num_truthy (n : JSNumber) : bool :=
  match n with NaN => false | Num z => negb (z =? 0) end.

(* ================================================================= *)
(** ** The Date object (ECMA-262, "Date Objects") *)

Module JSDate.

Definition msPerDay : Z := 86400000.
Definition msPerHour : Z := 3600000.
Definition msPerMinute : Z := 60000.
Definition msPerSecond : Z := 1000.

Definition Day (t : Z) : Z := t / msPerDay.

Definition isLeap (y : Z) : bool :=
  if negb (y mod 4 =? 0) then false
  else if negb (y mod 100 =? 0) then true
  else if negb (y mod 400 =? 0) then false
  else true.

Definition DaysInYear (y : Z) : Z := if isLeap y then 366 else 365.

Definition DayFromYear (y : Z) : Z :=
  365 * (y - 1970) + (y - 1969) / 4 - (y - 1901) / 100 + (y - 1601) / 400.

Definition TimeFromYear (y : Z) : Z := msPerDay * DayFromYear y.

(** The year whose first day is the latest one not after day [d]: an
    estimate from the mean year length, moved by one when it misses. *)
Definition yearFromDay (d : Z) : Z :=
  let y0 := 1970 + (400 * d) / 146097 in
  if d <? DayFromYear y0 then y0 - 1
  else if DayFromYear (y0 + 1) <=? d then y0 + 1
  else y0.

Definition YearFromTime (t : Z) : Z := yearFromDay (Day t).

Definition InLeapYear (t : Z) : Z :=
  if isLeap (YearFromTime t) then 1 else 0.

Definition DayWithinYear (t : Z) : Z := Day t - DayFromYear (YearFromTime t).

(** Month number 0..11 of the day [d] within a year, [leap] being 0 or 1. *)
Definition monthOfDayWithinYear (leap d : Z) : Z :=
  if d <? 31 then 0
  else if d <? 59 + leap then 1
  else if d <? 90 + leap then 2
  else if d <? 120 + leap then 3
  else if d <? 151 + leap then 4
  else if d <? 181 + leap then 5
  else if d <? 212 + leap then 6
  else if d <? 243 + leap then 7
  else if d <? 273 + leap then 8
  else if d <? 304 + leap then 9
  else if d <? 334 + leap then 10
  else 11.

Definition MonthFromTime (t : Z) : Z :=
  monthOfDayWithinYear (InLeapYear t) (DayWithinYear t).

(** Number of days of the year before month [mn] (0..11) starts. *)
Definition daysBeforeMonth (leap mn : Z) : Z :=
  match mn with
  | 0 => 0
  | 1 => 31
  | 2 => 59 + leap
  | 3 => 90 + leap
  | 4 => 120 + leap
  | 5 => 151 + leap
  | 6 => 181 + leap
  | 7 => 212 + leap
  | 8 => 243 + leap
  | 9 => 273 + leap
  | 10 => 304 + leap
  | _ => 334 + leap
  end.

Definition DateFromTime (t : Z) : Z :=
  DayWithinYear t - daysBeforeMonth (InLeapYear t) (MonthFromTime t) + 1.

Definition HourFromTime (t : Z) : Z := (t / msPerHour) mod 24.
Definition MinFromTime (t : Z) : Z := (t / msPerMinute) mod 60.
Definition SecFromTime (t : Z) : Z := (t / msPerSecond) mod 60.
Definition msFromTime (t : Z) : Z := t mod msPerSecond.

Definition MakeTime (hour min sec ms : Z) : Z :=
  hour * msPerHour + min * msPerMinute + sec * msPerSecond + ms.

(** [MakeDay]: months outside 0..11 carry into the year, and the day of
    the month is an offset from day 1, so day 0 is the last day of the
    month before. *)
Definition MakeDay (year month date : Z) : Z :=
  let ym := year + month / 12 in
  let mn := month mod 12 in
  DayFromYear ym + daysBeforeMonth (if isLeap ym then 1 else 0) mn + date - 1.

Definition MakeDate (day time : Z) : Z := day * msPerDay + time.

Definition maxTime : Z := 8640000000000000.

Definition TimeClip (time : Z) : option Z :=
  if Z.abs time >? maxTime then None else Some time.

(** The run-time environment of the process.  [LocalTZA t isUTC] is the
    offset of local time from UTC in milliseconds at the time value [t],
    which is a UTC time value when [isUTC] is true and a local one
    otherwise; a local time that a transition skips or repeats is read
    with the offset in force before the transition. *)
Record Env : Type := mkEnv {
  LocalTZA : Z -> bool -> Z;
  currentTime : Z    (* the clock: time value of "now" *)
}.

Definition LocalTime (env : Env) (t : Z) : Z := t + LocalTZA env t true.
Definition UTC (env : Env) (t : Z) : Z := t - LocalTZA env t false.

(** A Date object: its time value, [None] when it is an Invalid Date. *)
Definition Date : Type := option Z.

(** [new Date(year, month, date, hours, minutes, seconds, ms)].  A year
    from 0 to 99 stands for 1900 + year. *)
Definition construct (env : Env)
    (year month date hours minutes seconds ms : JSNumber) : Date :=
  match year, month, date, hours, minutes, seconds, ms with
  | Num y, Num m, Num dt, Num h, Num mi, Num s, Num milli =>
      let yr := if (0 <=? y) && (y <=? 99) then 1900 + y else y in
      let finalDate := MakeDate (MakeDay yr m dt) (MakeTime h mi s milli) in
      TimeClip (UTC env finalDate)
  | _, _, _, _, _, _, _ => None
  end.

(** [new Date(year, month, date)]: the time of day defaults to 0. *)
Definition construct3 (env : Env) (year month date : JSNumber) : Date :=
  construct env year month date (Num 0) (Num 0) (Num 0) (Num 0).

(** [new Date()]. *)
Definition now (env : Env) : Date := TimeClip (currentTime env).

(** [new Date(value)] for a Date [value]: a new Date with the time value
    of [value]. *)
Definition copy (d : Date) : Date := d.

(** [d.setHours(hour, min, sec, ms)], as the new value of [d]. *)
Definition setHours (env : Env) (d : Date) (hour min sec ms : Z) : Date :=
  match d with
  | None => None
  | Some tv =>
      let t := LocalTime env tv in
      let date := MakeDate (Day t) (MakeTime hour min sec ms) in
      TimeClip (UTC env date)
  end.

(** [d.getFullYear()]. *)
Definition getFullYear (env : Env) (d : Date) : JSNumber :=
  match d with
  | None => NaN
  | Some tv => Num (YearFromTime (LocalTime env tv))
  end.

(** Relational comparison of two Dates (through their time values). *)
Definition le (a b : Date) : bool :=
  match a, b with Some x, Some y => x <=? y | _, _ => false end.
Definition ge (a b : Date) : bool := le b a.

(** The local calendar fields of a time value. *)
Record Fields : Type := mkFields {
  f_year : Z; f_month : Z; f_date : Z;
  f_hours : Z; f_minutes : Z; f_seconds : Z; f_ms : Z
}.

Definition localFields (env : Env) (tv : Z) : Fields :=
  let t := LocalTime env tv in
  mkFields (YearFromTime t) (MonthFromTime t) (DateFromTime t)
           (HourFromTime t) (MinFromTime t) (SecFromTime t) (msFromTime t).

(** Days of month [mn] (0..11) in year [y]. *)
Definition DaysInMonth (y mn : Z) : Z :=
  match mn with
  | 1 => if isLeap y then 29 else 28
  | 3 | 5 | 8 | 10 => 30
  | _ => 31
  end.

End JSDate.

Definition Date : Type := JSDate.Date.

(* ================================================================= *)
(** ** Strings, identifiers and errors *)

(** Template-literal conversion of an integer: its decimal numeral. *)
Definition decimal (z : Z) : string := NilZero.string_of_int (Z.to_int z).

(** A non-empty string is truthy. *)
Definition str_truthy (s : string) : bool :=
  match s with EmptyString => false | String _ _ => true end.

(** A database [ObjectId]: 12 bytes, here the 96-bit number they spell. *)
Definition ObjectId : Type := N.

Definition hexDigit (n : N) : ascii :=
  match n with
  | 0 => "0" | 1 => "1" | 2 => "2" | 3 => "3" | 4 => "4" | 5 => "5"
  | 6 => "6" | 7 => "7" | 8 => "8" | 9 => "9" | 10 => "a" | 11 => "b"
  | 12 => "c" | 13 => "d" | 14 => "e" | _ => "f"
  end%N%char.

Fixpoint hexDigits (k : nat) (n : N) (acc : string) : string :=
  match k with
  | O => acc
  | S k' => hexDigits k' (n / 16)%N (String (hexDigit (n mod 16)%N) acc)
  end.

(** [ObjectId.prototype.toString()]: 24 lower-case hexadecimal digits. *)
Definition ObjectId_toString (o : ObjectId) : string := hexDigits 24 o "".

(** A thrown value. *)
Inductive JSError : Type :=
| TypeError (message : string)
| MongoError (message : string).

(** The identifier of an event: a string in the unified search, a number
    in the lookup by identifier. *)
Inductive IdEvento : Type :=
| IdTexto (s : string)
| IdNumero (n : Z).

(** [T_Eventos], the event record of the client library. *)
Record T_Eventos : Type := mkEvento {
  Id_Evento : IdEvento;
  Nombre : string;
  Fecha_Inicio : Date;
  Fecha_Conclusion : Date
}.

(** A document as the database holds and returns it (typed [any] in the
    unified search): the database key [_id] may be missing from it. *)
Module Raw.
Record t : Type := mk {
  _id : option ObjectId;
  Id_Evento : IdEvento;
  Nombre : string;
  Fecha_Inicio : Date;
  Fecha_Conclusion : Date
}.
End Raw.

(* ================================================================= *)
(** ** Database operations *)

Definition RDP03 : Type := string.

Inductive RolesSistema : Type :=
| Directivo
| Responsable.

(** [{ $gte: d }] and [{ $lte: d }]. *)
Inductive Condicion : Type :=
| gte (d : Date)
| lte (d : Date).

#[warnings="-register-all"]
Inductive Filter : Type :=
| F_vacio                                   (* {} *)
| F_or (clausulas : list Filter)            (* { $or: [...] } *)
| F_and (clausulas : list Filter)           (* { $and: [...] } *)
| F_fecha (campo : string) (c : Condicion)  (* { campo: { $gte/$lte: d } } *)
| F_igual (campo : string) (v : Z).         (* { campo: v } *)

Inductive Operation : Type :=
| countDocuments
| find
| findOne.

Record Options : Type := mkOptions {
  sort : option (string * Z);
  skip : option JSNumber;
  limit : option JSNumber;
  projection : list (string * Z)
}.

Record MongoOperation : Type := mkOp {
  operation : Operation;
  collection : string;
  filter : Filter;
  options : option Options
}.

(** The type argument of [executeMongoOperation<T>]. *)
Inductive ResultTy : Type :=
| TNumber         (* number *)
| TAnyArray       (* any[] *)
| TEventosArray   (* T_Eventos[] *)
| TEvento.        (* T_Eventos *)

Definition denote (T : ResultTy) : Type :=
  match T with
  | TNumber => Z
  | TAnyArray => list Raw.t
  | TEventosArray => list T_Eventos
  | TEvento => T_Eventos
  end.

(** One call of the connector, as recorded in the trace. *)
Record MongoCall : Type := mkCall {
  call_instancia : option RDP03;
  call_operacion : MongoOperation;
  call_rol : RolesSistema
}.

(* ================================================================= *)
(** ** Computations: console, trace of database calls, exceptions *)

Inductive Outcome (A : Type) : Type :=
| Returns (a : A)
| Throws (e : JSError).
Arguments Returns {A} a.
Arguments Throws {A} e.

(** An object written to the console: its keys, each with a string or
    [undefined]. *)
Definition Objeto : Type := list (string * option string).

(** A line of the console: the label and the value that was logged. *)
Inductive ConsoleEntry : Type :=
| console_log_entry (message : string) (datos : Objeto)
| console_error_entry (message : string) (e : JSError).

Record World (DB : Type) : Type := mkWorld {
  console : list ConsoleEntry;
  issued : list MongoCall;
  db : DB
}.
Arguments mkWorld {DB} _ _ _.
Arguments console {DB} _.
Arguments issued {DB} _.
Arguments db {DB} _.

Definition M (DB A : Type) : Type := World DB -> Outcome A * World DB.

Definition ret {DB A} (a : A) : M DB A := fun w => (Returns a, w).

Definition throw {DB A} (e : JSError) : M DB A := fun w => (Throws e, w).

Definition bind {DB A B} (m : M DB A) (k : A -> M DB B) : M DB B :=
  fun w =>
    match m w with
    | (Returns a, w') => k a w'
    | (Throws e, w') => (Throws e, w')
    end.

(** [try { body } catch (error) { handler }]. *)
Definition try_catch {DB A} (body : M DB A) (handler : JSError -> M DB A) : M DB A :=
  fun w =>
    match body w with
    | (Returns a, w') => (Returns a, w')
    | (Throws e, w') => handler e w'
    end.

Definition console_log {DB} (message : string) (datos : Objeto) : M DB unit :=
  fun w => (Returns tt,
            mkWorld (console w ++ [console_log_entry message datos])
                    (issued w) (db w)).

Definition console_error {DB} (message : string) (e : JSError) : M DB unit :=
  fun w => (Returns tt,
            mkWorld (console w ++ [console_error_entry message e]) (issued w) (db w)).

Declare Scope js_scope.
Delimit Scope js_scope with js.
Notation "x <- m ;; k" := (bind m (fun x => k))
  (at level 100, m at next level, right associativity) : js_scope.
Notation "m ;;; k" := (bind m (fun _ => k))
  (at level 100, right associativity) : js_scope.

(** [xs.map(f)] for a callback that may throw: stops at the first throw. *)
Fixpoint mapM {DB A B} (f : A -> M DB B) (xs : list A) : M DB (list B) :=
  match xs with
  | [] => ret []
  | x :: rest =>
      (y <- f x ;; ys <- mapM f rest ;; ret (y :: ys))%js
  end.

(** The database connector [executeMongoOperation] of
    [core/databases/connectors/mongodb]: it answers a call with a result
    (possibly [null]) or throws, and may change the state of the
    database side. *)
Definition Connector (DB : Type) : Type :=
  forall T : ResultTy,
    option RDP03 -> MongoOperation -> RolesSistema -> DB ->
    Outcome (option (denote T)) * DB.

(* ================================================================= *)
(** ** The query helpers ([buscarEventosPorMes.ts]) *)

(** [a || b] on an optional number: [b] when [a] is undefined, 0 or NaN. *)
Definition num_or (a : option JSNumber) (b : JSNumber) : JSNumber :=
  match a with
  | Some n => if num_truthy n then n else b
  | None => b
  end.

(** [total || 0], [count || 0]. *)
Definition count_or_0 (total : option Z) : Z :=
  match total with
  | Some n => if n =? 0 then 0 else n
  | None => 0
  end.

(** A parameter with a default value: the default stands for [undefined]. *)
Definition por_defecto (x : option JSNumber) (d : JSNumber) : JSNumber :=
  match x with
  | Some n => n
  | None => d
  end.

(** [eventos || []]. *)
Definition or_empty {A} (xs : option (list A)) : list A :=
  match xs with
  | Some l => l
  | None => []
  end.

(** The filter document built, with the same text, by the four searches
    and by the count: starts in range, or ends in range, or spans it. *)
Definition filtroTraslape (inicio fin : Date) : Filter :=
  F_or [
    F_and [ F_fecha "Fecha_Inicio" (gte inicio);
            F_fecha "Fecha_Inicio" (lte fin) ];
    F_and [ F_fecha "Fecha_Conclusion" (gte inicio);
            F_fecha "Fecha_Conclusion" (lte fin) ];
    F_and [ F_fecha "Fecha_Inicio" (lte inicio);
            F_fecha "Fecha_Conclusion" (gte fin) ]
  ].

Record BuscarEventosParams : Type := mkParams {
  mes : option JSNumber;
  año : option JSNumber;
  p_limit : JSNumber;
  p_offset : JSNumber
}.

Record ResultadoBusqueda : Type := mkResultado {
  eventos : list T_Eventos;
  total : Z
}.

Definition proyeccionConId : list (string * Z) :=
  [("_id", 1); ("Nombre", 1); ("Fecha_Inicio", 1); ("Fecha_Conclusion", 1)].

Definition proyeccionSinId : list (string * Z) :=
  [("Id_Evento", 1); ("Nombre", 1); ("Fecha_Inicio", 1);
   ("Fecha_Conclusion", 1); ("_id", 0)].

Section Queries.

Context {DB : Type}.
Variable connector : Connector DB.
Variable env : JSDate.Env.

(** A call of [executeMongoOperation<T>(instancia, operacion, rol)]; the
    call is recorded in the trace before the connector answers. *)
Definition executeMongoOperation (T : ResultTy) (instancia : option RDP03)
    (operacion : MongoOperation) (rol : RolesSistema) : M DB (option (denote T)) :=
  fun w =>
    let (r, db') := connector T instancia operacion rol (db w) in
    (r, mkWorld (console w)
                (issued w ++ [mkCall instancia operacion rol]) db').

(** [inicioMes] and [finMes] of the month searches and of the count. *)
Definition inicioMes (añoConsulta mes : JSNumber) : Date :=
  JSDate.construct3 env añoConsulta (num_sub mes (Num 1)) (Num 1).

Definition finMes (añoConsulta mes : JSNumber) : Date :=
  JSDate.setHours env (JSDate.construct3 env añoConsulta mes (Num 0)) 23 59 59 999.

(** [año || new Date().getFullYear()]. *)
Definition añoConsulta (año : option JSNumber) : JSNumber :=
  num_or año (JSDate.getFullYear env (JSDate.now env)).

(** [filtroComun] of [buscarEventos]. *)
Definition filtroComun (mes año : option JSNumber) : Filter :=
  match mes with
  | Some mes =>
      filtroTraslape (inicioMes (añoConsulta año) mes) (finMes (añoConsulta año) mes)
  | None => F_vacio
  end.

(** The callback of [eventosRaw.map]: [_id] becomes [Id_Evento];
    reading [toString] of a missing [_id] throws. *)
Definition transformar (evento : Raw.t) : M DB T_Eventos :=
  match Raw._id evento with
  | Some oid =>
      ret (mkEvento (IdTexto (ObjectId_toString oid)) (Raw.Nombre evento)
                    (Raw.Fecha_Inicio evento) (Raw.Fecha_Conclusion evento))
  | None =>
      throw (TypeError "Cannot read properties of undefined (reading 'toString')")
  end.

Definition buscarEventos (params : BuscarEventosParams)
    (instanciaEnUso : option RDP03) : M DB ResultadoBusqueda :=
  try_catch
    (let filtroComun := filtroComun (mes params) (año params) in
     total <- executeMongoOperation TNumber instanciaEnUso
                (mkOp countDocuments "T_Eventos" filtroComun None)
                Responsable ;;
     eventosRaw <- executeMongoOperation TAnyArray instanciaEnUso
                (mkOp find "T_Eventos" filtroComun
                   (Some (mkOptions (Some ("Fecha_Inicio", 1))
                                    (Some (p_offset params))
                                    (Some (p_limit params))
                                    proyeccionConId)))
                Responsable ;;
     eventos <- mapM transformar (or_empty eventosRaw) ;;
     ret (mkResultado eventos (count_or_0 total)))%js
    (fun error =>
       (console_error "Error buscando eventos:" error ;;; throw error)%js).

Definition buscarEventosPorMes (mes : JSNumber) (año : option JSNumber)
    (instanciaEnUso : option RDP03) (limit offset : option JSNumber)
    : M DB ResultadoBusqueda :=
  let limit := por_defecto limit (Num 100) in
  let offset := por_defecto offset (Num 0) in
  try_catch
    (let filtroComun :=
       filtroTraslape (inicioMes (añoConsulta año) mes)
                      (finMes (añoConsulta año) mes) in
     total <- executeMongoOperation TNumber instanciaEnUso
                (mkOp countDocuments "T_Eventos" filtroComun None)
                Responsable ;;
     eventos <- executeMongoOperation TEventosArray instanciaEnUso
                (mkOp find "T_Eventos" filtroComun
                   (Some (mkOptions (Some ("Fecha_Inicio", 1))
                                    (Some offset) (Some limit)
                                    proyeccionSinId)))
                Responsable ;;
     ret (mkResultado (or_empty eventos) (count_or_0 total)))%js
    (fun error =>
       (console_error "Error buscando eventos por mes:" error ;;; throw error)%js).

(** [inicioAño] and [finAño] of [buscarEventosPorAño]. *)
Definition inicioAño (año : JSNumber) : Date :=
  JSDate.construct3 env año (Num 0) (Num 1).

Definition finAño (año : JSNumber) : Date :=
  JSDate.construct env año (Num 11) (Num 31) (Num 23) (Num 59) (Num 59) (Num 999).

Definition buscarEventosPorAño (año : JSNumber) (instanciaEnUso : option RDP03)
    : M DB (list T_Eventos) :=
  try_catch
    (eventos <- executeMongoOperation TEventosArray instanciaEnUso
                (mkOp find "T_Eventos" (filtroTraslape (inicioAño año) (finAño año))
                   (Some (mkOptions (Some ("Fecha_Inicio", 1)) None None
                                    proyeccionSinId)))
                Directivo ;;
     ret (or_empty eventos))%js
    (fun error =>
       (console_error "Error buscando eventos por año:" error ;;; throw error)%js).

Definition buscarEventosPorRango (fechaInicio fechaFin : Date)
    (instanciaEnUso : option RDP03) : M DB (list T_Eventos) :=
  try_catch
    (eventos <- executeMongoOperation TEventosArray instanciaEnUso
                (mkOp find "T_Eventos" (filtroTraslape fechaInicio fechaFin)
                   (Some (mkOptions (Some ("Fecha_Inicio", 1)) None None
                                    proyeccionSinId)))
                Directivo ;;
     ret (or_empty eventos))%js
    (fun error =>
       (console_error "Error buscando eventos por rango:" error ;;; throw error)%js).

Definition buscarEventoPorId (idEvento : Z) (instanciaEnUso : option RDP03)
    : M DB (option T_Eventos) :=
  try_catch
    (evento <- executeMongoOperation TEvento instanciaEnUso
                (mkOp findOne "T_Eventos" (F_igual "Id_Evento" idEvento)
                   (Some (mkOptions None None None proyeccionSinId)))
                Responsable ;;
     ret evento)%js
    (fun error =>
       (console_error "Error buscando evento por ID:" error ;;; throw error)%js).

Definition contarEventosPorMes (mes : JSNumber) (año : option JSNumber)
    (instanciaEnUso : option RDP03) : M DB Z :=
  try_catch
    (count <- executeMongoOperation TNumber instanciaEnUso
                (mkOp countDocuments "T_Eventos"
                   (filtroTraslape (inicioMes (añoConsulta año) mes)
                                   (finMes (añoConsulta año) mes))
                   (Some (mkOptions None None None [])))
                Responsable ;;
     ret (count_or_0 count))%js
    (fun error =>
       (console_error "Error contando eventos por mes:" error ;;; throw error)%js).

End Queries.

(** The callback of [verificarConflictoConEventos]. *)
Definition hayTraslape (fechaInicio fechaFin : Date) (evento : T_Eventos) : bool :=
  let inicioEvento := JSDate.copy (Fecha_Inicio evento) in
  let finEvento := JSDate.copy (Fecha_Conclusion evento) in
  JSDate.le inicioEvento fechaFin && JSDate.ge finEvento fechaInicio.

(** [verificarConflictoConEventos]: the events of [eventos] that overlap
    the interval from [fechaInicio] to [fechaFin]. *)
Definition verificarConflictoConEventos (fechaInicio fechaFin : Date)
    (eventos : list T_Eventos) : list T_Eventos :=
  List.filter (hayTraslape fechaInicio fechaFin) eventos.

(** Arrays as objects: the array objects allocated so far, each at its
    reference.  [a.filter(cb)] reads the elements of [a] in order and
    returns a new array with those that [cb] accepts. *)
Module JSArray.

Definition Ref : Type := nat.
Definition Heap (A : Type) : Type := list (list A).

Definition filter {A} (cb : A -> bool) (a : Ref) (h : Heap A)
    : option (Ref * Heap A) :=
  match nth_error h a with
  | Some xs => Some (List.length h, (h ++ [List.filter cb xs])%list)
  | None => None
  end.

End JSArray.

(** [verificarConflictoConEventos] on the array object [eventos]. *)
Definition verificarConflictoConEventos_obj (fechaInicio fechaFin : Date)
    (eventos : JSArray.Ref) (h : JSArray.Heap T_Eventos)
    : option (JSArray.Ref * JSArray.Heap T_Eventos) :=
  JSArray.filter (hayTraslape fechaInicio fechaFin) eventos h.

(* ================================================================= *)
(** ** The endpoint ([routes/api/eventos/index.ts]) *)

Inductive ErrorTypes : Type :=
| INVALID_PARAMETERS     (* RequestErrorTypes.INVALID_PARAMETERS *)
| UNKNOWN_ERROR.         (* SystemErrorTypes.UNKNOWN_ERROR *)

(** The JSON body of a response. *)
Inductive Body : Type :=
| ErrorResponseAPIBase (success : bool) (message : string)
    (errorType : ErrorTypes) (details : option JSError)
| GetEventosSuccessResponse (success : bool) (message : string)
    (data : list T_Eventos) (total : Z).

Record Response : Type := mkResponse {
  status : Z;
  json : Body
}.

Definition body_success (b : Body) : bool :=
  match b with
  | ErrorResponseAPIBase s _ _ _ => s
  | GetEventosSuccessResponse s _ _ _ => s
  end.

Definition body_errorType (b : Body) : option ErrorTypes :=
  match b with
  | ErrorResponseAPIBase _ _ t _ => Some t
  | GetEventosSuccessResponse _ _ _ _ => None
  end.

(** [req.query]: each parameter is absent or a string. *)
Record Query : Type := mkQuery {
  Mes : option string;
  Año : option string;
  Limit : option string;
  Offset : option string
}.

Record Request : Type := mkRequest {
  query : Query;
  RDP03_INSTANCE : option RDP03
}.

Definition MAXIMA_CANTIDAD_EVENTOS : Z := 100.

(** [`${n}`] for a number. *)
Definition num_toString (n : JSNumber) : string :=
  match n with
  | NaN => "NaN"
  | Num z => decimal z
  end.

(** [año ? ` del año ${año}` : ""]. *)
Definition delAño (año : option JSNumber) : string :=
  match año with
  | Some a => if num_truthy a then " del año " ++ num_toString a else ""
  | None => ""
  end.

Section Endpoint.

Context {DB : Type}.
Variable connector : Connector DB.
Variable env : JSDate.Env.
(** The conversion [Number(s)] of a query string. *)
Variable Number : string -> JSNumber.

(** [P ? Number(P) : d]. *)
Definition parse (P : option string) (d : JSNumber) : JSNumber :=
  match P with
  | Some s => if str_truthy s then Number s else d
  | None => d
  end.

(** [P ? Number(P) : undefined]. *)
Definition parseOpt (P : option string) : option JSNumber :=
  match P with
  | Some s => if str_truthy s then Some (Number s) else None
  | None => None
  end.

Definition invalid (message : string) : Response :=
  mkResponse 400 (ErrorResponseAPIBase false message INVALID_PARAMETERS None).

(** [x !== undefined && (isNaN(x) || x < lo || x > hi)]. *)
Definition fueraDeRango (x : option JSNumber) (lo hi : Z) : bool :=
  match x with
  | Some n => isNaN n || num_lt n (Num lo) || num_gt n (Num hi)
  | None => false
  end.

Definition handler (req : Request) : M DB Response :=
  try_catch
    (let q := query req in
     let rdp03EnUso := RDP03_INSTANCE req in
     console_log "Parámetros recibidos:"
       [("Mes", Mes q); ("Año", Año q); ("Limit", Limit q); ("Offset", Offset q)] ;;;
     let limit := parse (Limit q) (Num MAXIMA_CANTIDAD_EVENTOS) in
     let offset := parse (Offset q) (Num 0) in
     let mes := parseOpt (Mes q) in
     let año := parseOpt (Año q) in
     if isNaN limit || num_lt limit (Num 1)
        || num_gt limit (Num MAXIMA_CANTIDAD_EVENTOS) then
       ret (invalid ("El límite debe ser un número entre 1 y "
                     ++ decimal MAXIMA_CANTIDAD_EVENTOS))
     else if isNaN offset || num_lt offset (Num 0) then
       ret (invalid "El offset debe ser un número mayor o igual a 0")
     else if fueraDeRango mes 1 12 then
       ret (invalid "El mes debe ser un número entre 1 y 12")
     else if fueraDeRango año 1900 2100 then
       ret (invalid "El año debe ser un número válido entre 1900 y 2100")
     else
       r <- buscarEventos connector env (mkParams mes año limit offset) rdp03EnUso ;;
       let eventos := eventos r in
       let total := total r in
       if (Z.of_nat (List.length eventos) =? 0) then
         let notFoundMessage :=
           match mes with
           | Some m => "No se encontraron eventos para el mes "
                       ++ num_toString m ++ delAño año
           | None => "No se encontraron eventos en el sistema"
           end in
         ret (mkResponse 404
                (GetEventosSuccessResponse true notFoundMessage [] 0))
       else
         let message :=
           match mes with
           | Some m => "Se encontraron " ++ decimal (Z.of_nat (List.length eventos))
                       ++ " evento(s) de " ++ decimal total
                       ++ " totales para el mes " ++ num_toString m ++ delAño año
           | None => "Se encontraron " ++ decimal (Z.of_nat (List.length eventos))
                     ++ " evento(s) de " ++ decimal total
                     ++ " totales (eventos más antiguos)"
           end in
         ret (mkResponse 200
                (GetEventosSuccessResponse true message eventos total)))%js
    (fun error =>
       (console_error "Error al buscar eventos:" error ;;;
        ret (mkResponse 500
               (ErrorResponseAPIBase false
                  "Error interno del servidor al buscar eventos"
                  UNKNOWN_ERROR (Some error))))%js).

End Endpoint.

(* ================================================================= *)
(** ** Filter documents *)

(** The date a filter clause on [campo] reads in a document. *)
Definition campoFecha (campo : string) (d : Raw.t) : Date :=
  if String.eqb campo "Fecha_Inicio" then Raw.Fecha_Inicio d
  else if String.eqb campo "Fecha_Conclusion" then Raw.Fecha_Conclusion d
  else None.

Definition cumple (c : Condicion) (v : Date) : bool :=
  match c with
  | gte d => JSDate.ge v d
  | lte d => JSDate.le v d
  end.

Definition idIgual (i : IdEvento) (v : Z) : bool :=
  match i with
  | IdNumero n => n =? v
  | IdTexto _ => false
  end.

(** Modelled from the spec: the meaning of a filter document on a stored
    document, which the database gives it.  The spec reads the filter of
    the searches as "event starts in range, OR event ends in range, OR
    event fully spans the range" and the absent filter as "all events
    match": [{}] holds of every document, [$or] of one that satisfies some
    clause, [$and] of one that satisfies every clause,
    [{ campo: { $gte: d } }] and [{ campo: { $lte: d } }] compare the date
    in [campo] with [d], inclusively, and [{ campo: v }] compares for
    equality. *)
Fixpoint matches (f : Filter) (d : Raw.t) : bool :=
  match f with
  | F_vacio => true
  | F_or clausulas => existsb (fun g => matches g d) clausulas
  | F_and clausulas => forallb (fun g => matches g d) clausulas
  | F_fecha campo c => cumple c (campoFecha campo d)
  | F_igual campo v => String.eqb campo "Id_Evento" && idIgual (Raw.Id_Evento d) v
  end.

(** A stored document read as a [T_Eventos], by the helpers that project
    [Id_Evento] and leave [_id] out. *)
Definition aEvento (d : Raw.t) : T_Eventos :=
  mkEvento (Raw.Id_Evento d) (Raw.Nombre d)
           (Raw.Fecha_Inicio d) (Raw.Fecha_Conclusion d).

(* ================================================================= *)
(** ** A reference database *)

(** The connector [executeMongoOperation]
    ([core/databases/connectors/mongodb]) and the database behind it are
    not part of the two files above.  The reference database is the
    collection itself, a list of documents; it never throws, is not
    changed by a read, and leaves the role check to its caller. *)
Module Referencia.

Definition Coleccion : Type := list Raw.t.

(** Order of two dates in a sort: a missing date comes first. *)
Definition fecha_leb (a b : Date) : bool :=
  match a, b with
  | None, _ => true
  | Some _, None => false
  | Some x, Some y => x <=? y
  end.

Definition antes (campo : string) (a b : Raw.t) : bool :=
  fecha_leb (campoFecha campo a) (campoFecha campo b).

Fixpoint insertar (campo : string) (x : Raw.t) (l : list Raw.t) : list Raw.t :=
  match l with
  | [] => [x]
  | y :: rest =>
      if antes campo x y then x :: l else y :: insertar campo x rest
  end.

(** Stable sort by a date field, ascending. *)
Fixpoint ordenar (campo : string) (l : list Raw.t) : list Raw.t :=
  match l with
  | [] => []
  | x :: rest => insertar campo x (ordenar campo rest)
  end.

Definition aplicarSort (s : option (string * Z)) (l : list Raw.t) : list Raw.t :=
  match s with
  | Some (campo, dir) => if 0 <? dir then ordenar campo l else rev (ordenar campo l)
  | None => l
  end.

Definition aplicarSkip {A} (s : option JSNumber) (l : list A) : list A :=
  match s with
  | Some (Num n) => skipn (Z.to_nat n) l
  | _ => l
  end.

Definition aplicarLimit {A} (s : option JSNumber) (l : list A) : list A :=
  match s with
  | Some (Num n) => firstn (Z.to_nat n) l
  | _ => l
  end.

Definition excluyeId (p : list (string * Z)) : bool :=
  existsb (fun kv => String.eqb (fst kv) "_id" && (snd kv =? 0)) p.

Definition proyectar (p : list (string * Z)) (d : Raw.t) : Raw.t :=
  if excluyeId p
  then Raw.mk None (Raw.Id_Evento d) (Raw.Nombre d)
              (Raw.Fecha_Inicio d) (Raw.Fecha_Conclusion d)
  else d.

Definition coincidentes (f : Filter) (c : Coleccion) : list Raw.t :=
  List.filter (matches f) c.

Definition ejecutarFind (op : MongoOperation) (c : Coleccion) : list Raw.t :=
  match options op with
  | Some o =>
      map (proyectar (projection o))
          (aplicarLimit (limit o)
             (aplicarSkip (skip o)
                (aplicarSort (sort o) (coincidentes (filter op) c))))
  | None => coincidentes (filter op) c
  end.

Definition ejecutar (T : ResultTy) (op : MongoOperation) (c : Coleccion)
    : option (denote T) :=
  match T return option (denote T) with
  | TNumber =>
      match operation op with
      | countDocuments => Some (Z.of_nat (List.length (coincidentes (filter op) c)))
      | _ => None
      end
  | TAnyArray =>
      match operation op with
      | find => Some (ejecutarFind op c)
      | _ => None
      end
  | TEventosArray =>
      match operation op with
      | find => Some (map aEvento (ejecutarFind op c))
      | _ => None
      end
  | TEvento =>
      match operation op with
      | findOne => option_map aEvento (List.hd_error (ejecutarFind op c))
      | _ => None
      end
  end.

(** Modelled from the spec: [executeMongoOperation], which the spec
    describes as "a count operation against the collection with that
    filter" and "a find operation with the same filter, a sort by
    start-time ascending, a skip/limit pagination window, and a field
    projection", returning typed results or throwing. *)
Definition connector : Connector Coleccion :=
  fun T _ op _ c => (Returns (ejecutar T op c), c).

End Referencia.

(* ================================================================= *)
(** ** Vocabulary of the statements *)

(** The year the Date constructor reads in a year argument. *)
Definition añoLeido (y : Z) : Z :=
  if (0 <=? y) && (y <=? 99) then 1900 + y else y.

(** The years whose every instant is a time value, in any time zone. *)
Definition representable (y : Z) : Prop := -271820 <= y <= 275759.

(** The integers that [Number.isSafeInteger] accepts: up to 2^53 - 1 in
    magnitude. *)
Definition enteroSeguro (z : Z) : Prop := Z.abs z <= 9007199254740991.

(** A zone that keeps the one offset [tza] from UTC at all times. *)
Definition zonaFija (env : JSDate.Env) (tza : Z) : Prop :=
  forall t isUTC, JSDate.LocalTZA env t isUTC = tza.

(** An environment for the examples: UTC-5, no daylight saving; the
    clock reads 2025-11-02T00:00:00Z. *)
Definition Lima : JSDate.Env :=
  JSDate.mkEnv (fun _ _ => -18000000) 1762041600000.

(** The zone of Lima with its daylight saving time of 1986: UTC-5, and
    UTC-4 from January 1, 1986, when the clocks went from 00:00 to 01:00
    (at 05:00 UTC, time value 504939600000), to April 1, 1986, when they
    went from 00:00 back to March 31, 23:00 (at 04:00 UTC, time value
    512712000000).  Of a local time, the skipped hour of January 1 is read
    at UTC-5 and the repeated hour of March 31 at UTC-4, the offsets in
    force before the transitions. *)
Definition LimaEn1986 : JSDate.Env :=
  JSDate.mkEnv
    (fun t isUTC =>
       if isUTC
       then if (504939600000 <=? t) && (t <? 512712000000)
            then -14400000 else -18000000
       else if (504925200000 <=? t) && (t <? 512697600000)
            then -14400000 else -18000000)
    1762041600000.

(** The two-clause overlap test of the spec: the event starts no later
    than the range ends and ends no earlier than the range starts. *)
Definition dosClausulas (rangeStart rangeEnd inicio conclusion : Z) : Prop :=
  inicio <= rangeEnd /\ conclusion >= rangeStart.

(** The event's interval and the range have an instant in common. *)
Definition intersecan (rangeStart rangeEnd inicio conclusion : Z) : Prop :=
  exists t, rangeStart <= t <= rangeEnd /\ inicio <= t <= conclusion.

(** Milliseconds from midnight to [h]:00. *)
Definition hora (h : Z) : Z := h * JSDate.msPerHour.

(** Sample events and documents for the examples. *)
Definition evento_entre (n inicio conclusion : Z) : T_Eventos :=
  mkEvento (IdNumero n) "evento" (Some inicio) (Some conclusion).

Definition documento_entre (n inicio conclusion : Z) : Raw.t :=
  Raw.mk (Some (Z.to_N n)) (IdNumero n) "evento" (Some inicio) (Some conclusion).

(** The two operations of the unified search, on a filter [F]. *)
Definition operacionContar (F : Filter) : MongoOperation :=
  mkOp countDocuments "T_Eventos" F None.

Definition operacionBuscar (F : Filter) (offset limit : JSNumber) : MongoOperation :=
  mkOp find "T_Eventos" F
    (Some (mkOptions (Some ("Fecha_Inicio", 1)) (Some offset) (Some limit)
                     [("_id", 1); ("Nombre", 1); ("Fecha_Inicio", 1);
                      ("Fecha_Conclusion", 1)])).

(** [ev] is the event the unified search makes of the document [raw]: its
    four fields are the string form of [_id] and the document's name and
    dates. *)
Definition esTransformado (raw : Raw.t) (ev : T_Eventos) : Prop :=
  exists oid,
    Raw._id raw = Some oid /\
    ev = mkEvento (IdTexto (ObjectId_toString oid)) (Raw.Nombre raw)
                  (Raw.Fecha_Inicio raw) (Raw.Fecha_Conclusion raw).

Definition tieneId (raw : Raw.t) : Prop := Raw._id raw <> None.

(** The world after [console.error(message, e)] with the database calls
    [calls] issued and the database left in state [d]. *)
Definition trasError {DB} (w : World DB) (message : string) (e : JSError)
    (calls : list MongoCall) (d : DB) : World DB :=
  mkWorld (console w ++ [console_error_entry message e]) (issued w ++ calls) d.

(** The ranges of the four query parameters. *)
Definition limiteValido (limit : JSNumber) : Prop :=
  exists z, limit = Num z /\ 1 <= z <= 100.

Definition offsetValido (offset : JSNumber) : Prop :=
  exists z, offset = Num z /\ 0 <= z.

Definition mesValido (mes : option JSNumber) : Prop :=
  forall n, mes = Some n -> exists z, n = Num z /\ 1 <= z <= 12.

Definition añoValido (año : option JSNumber) : Prop :=
  forall n, año = Some n -> exists z, n = Num z /\ 1900 <= z <= 2100.

(** The line the handler logs first: the label and the four query
    parameters as they came, before any conversion. *)
Definition parametrosRecibidos (req : Request) : ConsoleEntry :=
  console_log_entry "Parámetros recibidos:"
    [("Mes", Mes (query req)); ("Año", Año (query req));
     ("Limit", Limit (query req)); ("Offset", Offset (query req))].

(** The world once the handler has logged the parameters it received: no
    database operation has been issued. *)
Definition recibidos {DB} (req : Request) (w : World DB) : World DB :=
  mkWorld (console w ++ [parametrosRecibidos req]) (issued w) (db w).

(** Two runs of the handler from the world [w], for the requests [req1]
    and [req2], that end alike: the same response, the same database
    calls and the same database, and consoles that differ only in the line
    that logs the parameters as they were received. *)
Definition soloDifiereElRegistro {DB} (w : World DB) (req1 req2 : Request)
    (r1 r2 : Outcome Response * World DB) : Prop :=
  fst r1 = fst r2 /\
  issued (snd r1) = issued (snd r2) /\
  db (snd r1) = db (snd r2) /\
  exists resto,
    console (snd r1) = (console w ++ parametrosRecibidos req1 :: resto)%list /\
    console (snd r2) = (console w ++ parametrosRecibidos req2 :: resto)%list.

(** The 400 response of a validation failure. *)
Definition rechazo (message : string) : Response :=
  mkResponse 400 (ErrorResponseAPIBase false message INVALID_PARAMETERS None).

(** The value of a decimal digit. *)
Definition digito (c : ascii) : option Z :=
  let n := Z.of_nat (nat_of_ascii c) in
  if (48 <=? n) && (n <=? 57) then Some (n - 48) else None.

Fixpoint digitos (s : string) (acc : Z) : JSNumber :=
  match s with
  | EmptyString => Num acc
  | String c rest =>
      match digito c with
      | Some d => digitos rest (10 * acc + d)
      | None => NaN
      end
  end.

(** The conversion the examples use for [Number(s)].  It agrees with
    [Number] on the empty string and on the decimal numerals of integers,
    with or without a minus sign, which are the only strings the examples
    convert.  It answers [NaN] for every other string, also for those
    where [Number] answers a number (white space around the numeral, a
    plus sign, an exponent, a fraction, a hexadecimal numeral); the
    theorems take the conversion as a parameter and hold for every one. *)
Definition NumberDecimal (s : string) : JSNumber :=
  match s with
  | EmptyString => Num 0
  | String "-" (String c rest) =>
      match digitos (String c rest) 0 with
      | Num z => Num (- z)
      | NaN => NaN
      end
  | _ => digitos s 0
  end.

Definition peticion (Mes Año Limit Offset : option string) : Request :=
  mkRequest (mkQuery Mes Año Limit Offset) (Some "RDP03_INS1").

(** The operations of the other query helpers. *)
Definition operacionPorMes (F : Filter) (offset limit : JSNumber) : MongoOperation :=
  mkOp find "T_Eventos" F
    (Some (mkOptions (Some ("Fecha_Inicio", 1)) (Some offset) (Some limit)
                     proyeccionSinId)).

Definition operacionSinPaginar (F : Filter) : MongoOperation :=
  mkOp find "T_Eventos" F
    (Some (mkOptions (Some ("Fecha_Inicio", 1)) None None proyeccionSinId)).

Definition operacionPorId (idEvento : Z) : MongoOperation :=
  mkOp findOne "T_Eventos" (F_igual "Id_Evento" idEvento)
    (Some (mkOptions None None None proyeccionSinId)).

Definition operacionContarMes (F : Filter) : MongoOperation :=
  mkOp countDocuments "T_Eventos" F (Some (mkOptions None None None [])).

(** The world after the database calls [calls], the database left in
    state [d], nothing written to the console. *)
Definition trasLlamadas {DB} (w : World DB) (calls : list MongoCall) (d : DB)
    : World DB :=
  mkWorld (console w) (issued w ++ calls) d.

(** The filter of a month search. *)
Definition filtroDelMes (env : JSDate.Env) (mes : JSNumber) (año : option JSNumber)
    : Filter :=
  filtroTraslape (inicioMes env (añoConsulta env año) mes)
                 (finMes env (añoConsulta env año) mes).

(** The filter of the year search. *)
Definition filtroDelAño (env : JSDate.Env) (año : JSNumber) : Filter :=
  filtroTraslape (inicioAño env año) (finAño env año).

(** Connectors for the examples: one that is down, one that answers
    [null] to everything. *)
Definition connectorCaido : Connector unit :=
  fun _ _ _ _ d => (Throws (MongoError "connection refused"), d).

Definition connectorNulo : Connector unit :=
  fun _ _ _ _ d => (Returns None, d).

Definition mundoVacio {DB} (d : DB) : World DB := mkWorld [] [] d.

(** [a] does not start after [b]. *)
Definition noDespues (a b : Raw.t) : Prop :=
  Referencia.fecha_leb (Raw.Fecha_Inicio a) (Raw.Fecha_Inicio b) = true.

(** The number of records a [skip] leaves out: none when it is negative
    or not a number. *)
Definition registrosSaltados (offset : JSNumber) : nat :=
  match offset with
  | Num n => Z.to_nat n
  | NaN => 0%nat
  end.

(** The events that match [F], by start time ascending. *)
Definition enOrden (F : Filter) (c : Referencia.Coleccion) : list Raw.t :=
  Referencia.ordenar "Fecha_Inicio" (Referencia.coincidentes F c).

(** Thirty-five documents, stored latest start first: document [n] starts
    at [1000 * (36 - n)] and lasts 500 milliseconds. *)
Definition coleccion35 : Referencia.Coleccion :=
  map (fun n : nat =>
         documento_entre (Z.of_nat n) (1000 * (36 - Z.of_nat n))
                         (1000 * (36 - Z.of_nat n) + 500))
      (seq 1 35).

(** The call of the unified search's count and of its find, for the
    parameters the handler passes. *)
Definition llamadaContar (inst : option RDP03) (F : Filter) : MongoCall :=
  mkCall inst (operacionContar F) Responsable.

Definition llamadaBuscar (inst : option RDP03) (F : Filter)
    (offset limit : JSNumber) : MongoCall :=
  mkCall inst (operacionBuscar F offset limit) Responsable.

(** The three console entries of a request that fails with [e]. *)
Definition consolaDeFallo (req : Request) (e : JSError) : list ConsoleEntry :=
  [parametrosRecibidos req;
   console_error_entry "Error buscando eventos:" e;
   console_error_entry "Error al buscar eventos:" e].

(** A stored document whose [_id] did not come back. *)
Definition documento_sin_id (n inicio conclusion : Z) : Raw.t :=
  Raw.mk None (IdNumero n) "evento" (Some inicio) (Some conclusion).

(** A connector that answers the count with [n] and every find with the
    documents [raws], whatever the operation. *)
Definition connectorFijo (n : Z) (raws : list Raw.t) : Connector unit :=
  fun T _ _ _ d =>
    (Returns (match T return option (denote T) with
              | TNumber => Some n
              | TAnyArray => Some raws
              | TEventosArray => Some (map aEvento raws)
              | TEvento => option_map aEvento (List.hd_error raws)
              end), d).

(** A query parameter that is absent or the empty string. *)
Definition vacio (P : option string) : Prop := P = None \/ P = Some "".

(** The query parameter [P], the empty string taken away. *)
Definition sinVacio (P : option string) : option string :=
  match P with
  | Some EmptyString => None
  | _ => P
  end.

(** A call on the collection [T_Eventos] for the instance [inst], with the
    role [rol] and the operation [o]. *)
Definition llamadaCon (inst : option RDP03) (rol : RolesSistema) (o : Operation)
    (c : MongoCall) : Prop :=
  call_instancia c = inst /\ call_rol c = rol /\
  collection (call_operacion c) = "T_Eventos" /\
  operation (call_operacion c) = o.

(** A run that threw left one more entry on the console, the error it
    threw; a run that returned left the console as it was. *)
Definition consolaTras {DB A} (w : World DB) (r : Outcome A * World DB) : Prop :=
  match fst r with
  | Returns _ => console (snd r) = console w
  | Throws e =>
      exists message,
        console (snd r) = (console w ++ [console_error_entry message e])%list
  end.

(** A call, its projection left out. *)
Definition sinProyeccion (c : MongoCall) : MongoCall :=
  mkCall (call_instancia c)
         (mkOp (operation (call_operacion c)) (collection (call_operacion c))
               (filter (call_operacion c))
               (option_map (fun o => mkOptions (sort o) (skip o) (limit o) [])
                           (options (call_operacion c))))
         (call_rol c).

(** The event from [inicio] to [conclusion] has an instant in the local
    year [y], and in its month [mn] (0..11). *)
Definition tocaElAño (env : JSDate.Env) (y inicio conclusion : Z) : Prop :=
  exists t, inicio <= t <= conclusion /\
            JSDate.f_year (JSDate.localFields env t) = y.

Definition tocaElMes (env : JSDate.Env) (y mn inicio conclusion : Z) : Prop :=
  exists t, inicio <= t <= conclusion /\
            JSDate.f_year (JSDate.localFields env t) = y /\
            JSDate.f_month (JSDate.localFields env t) = mn.

(** The year of the clock, in local time. *)
Definition añoEnCurso (env : JSDate.Env) : Z :=
  JSDate.YearFromTime (JSDate.LocalTime env (JSDate.currentTime env)).

(** An event in Lima from January 31, 2024, 23:00 to February 1, 2024,
    01:00: it has instants in January and in February. *)
Definition eventoDeMedianoche : Raw.t :=
  documento_entre 1 1706760000000 1706767200000.

(* ================================================================= *)
(** * Properties *)

(** ** Calendar arithmetic *)

(** ** Numbers *)

(** Up to 2^53 in magnitude the arithmetic of doubles is exact. *)
Lemma doble_exacto (z : Z) : Z.abs z <= 9007199254740992 -> doble z = z.
Proof.
  intros H. unfold doble.
  destruct (Z.leb_spec (Z.abs z) 9007199254740992); [reflexivity | lia].
Qed.

(** Beyond 2^53 a subtraction rounds: 2^53 + 2 minus 1 is 2^53, and
    2^53 + 4 minus 1 is 2^53 + 4. *)
Example resta_de_dobles :
  num_sub (Num 9007199254740994) (Num 1) = Num 9007199254740992 /\
  num_sub (Num 9007199254740996) (Num 1) = Num 9007199254740996 /\
  num_sub (Num 13) (Num 1) = Num 12 /\
  num_sub NaN (Num 1) = NaN.
Proof. repeat split. Qed.

Module DateFacts.
Import JSDate.

Lemma div4_succ (y : Z) :
  (y + 1 - 1969) / 4 = (y - 1969) / 4 + (if y mod 4 =? 0 then 1 else 0).
Proof. destruct (Z.eqb_spec (y mod 4) 0); Z.to_euclidean_division_equations; lia. Qed.

Lemma div100_succ (y : Z) :
  (y + 1 - 1901) / 100 = (y - 1901) / 100 + (if y mod 100 =? 0 then 1 else 0).
Proof. destruct (Z.eqb_spec (y mod 100) 0); Z.to_euclidean_division_equations; lia. Qed.

Lemma div400_succ (y : Z) :
  (y + 1 - 1601) / 400 = (y - 1601) / 400 + (if y mod 400 =? 0 then 1 else 0).
Proof. destruct (Z.eqb_spec (y mod 400) 0); Z.to_euclidean_division_equations; lia. Qed.

Lemma mod_100_4 (y : Z) : y mod 100 = 0 -> y mod 4 = 0.
Proof. Z.to_euclidean_division_equations; lia. Qed.

Lemma mod_400_100 (y : Z) : y mod 400 = 0 -> y mod 100 = 0.
Proof. Z.to_euclidean_division_equations; lia. Qed.

(** A year is as long as the distance between its first day and the next
    year's. *)
Lemma DayFromYear_succ (y : Z) :
  DayFromYear (y + 1) = DayFromYear y + DaysInYear y.
Proof.
  unfold DayFromYear, DaysInYear, isLeap.
  rewrite div4_succ, div100_succ, div400_succ.
  pose proof (mod_100_4 y). pose proof (mod_400_100 y).
  destruct (Z.eqb_spec (y mod 4) 0), (Z.eqb_spec (y mod 100) 0),
           (Z.eqb_spec (y mod 400) 0); simpl negb; cbv iota; lia.
Qed.

Lemma DayFromYear_mono (a b : Z) : a <= b -> DayFromYear a <= DayFromYear b.
Proof. intros H. unfold DayFromYear. Z.to_euclidean_division_equations; lia. Qed.

(** [yearFromDay] meets the definition of [YearFromTime]: the largest
    year that starts at or before the day. *)
Lemma yearFromDay_spec (d : Z) :
  DayFromYear (yearFromDay d) <= d < DayFromYear (yearFromDay d + 1).
Proof.
  unfold yearFromDay.
  set (y0 := 1970 + 400 * d / 146097).
  assert (Hlo : DayFromYear (y0 - 1) <= d).
  { unfold DayFromYear, y0. Z.to_euclidean_division_equations; lia. }
  assert (Hhi : d < DayFromYear (y0 + 2)).
  { unfold DayFromYear, y0. Z.to_euclidean_division_equations; lia. }
  destruct (Z.ltb_spec d (DayFromYear y0)).
  - replace (y0 - 1 + 1) with y0 by lia. lia.
  - destruct (Z.leb_spec (DayFromYear (y0 + 1)) d).
    + replace (y0 + 1 + 1) with (y0 + 2) by lia. lia.
    + lia.
Qed.

Lemma yearFromDay_unique (y d : Z) :
  DayFromYear y <= d < DayFromYear (y + 1) -> yearFromDay d = y.
Proof.
  intros [Hlo Hhi].
  pose proof (yearFromDay_spec d) as [Slo Shi].
  destruct (Z.lt_trichotomy (yearFromDay d) y) as [Hlt | [Heq | Hgt]]; auto.
  - pose proof (DayFromYear_mono (yearFromDay d + 1) y ltac:(lia)). lia.
  - pose proof (DayFromYear_mono (y + 1) (yearFromDay d) ltac:(lia)). lia.
Qed.

Lemma YearFromTime_largest (t y : Z) :
  TimeFromYear y <= t -> y <= YearFromTime t.
Proof.
  unfold TimeFromYear, YearFromTime, Day, msPerDay. intros H.
  pose proof (yearFromDay_spec (t / 86400000)) as [_ Shi].
  destruct (Z_le_gt_dec y (yearFromDay (t / 86400000))) as [|Hgt]; auto.
  pose proof (DayFromYear_mono (yearFromDay (t / 86400000) + 1) y ltac:(lia)).
  exfalso. Z.to_euclidean_division_equations; lia.
Qed.

Lemma Day_MakeDate (day time : Z) :
  0 <= time < msPerDay -> Day (MakeDate day time) = day.
Proof.
  unfold Day, MakeDate, msPerDay. intros H.
  Z.to_euclidean_division_equations; lia.
Qed.

Lemma month_cases (mn : Z) :
  0 <= mn <= 11 ->
  mn = 0 \/ mn = 1 \/ mn = 2 \/ mn = 3 \/ mn = 4 \/ mn = 5 \/
  mn = 6 \/ mn = 7 \/ mn = 8 \/ mn = 9 \/ mn = 10 \/ mn = 11.
Proof. lia. Qed.

Lemma MakeDay_in_month (y mn dt : Z) :
  0 <= mn <= 11 ->
  MakeDay y mn dt
  = DayFromYear y + daysBeforeMonth (if isLeap y then 1 else 0) mn + dt - 1.
Proof.
  intros H. unfold MakeDay.
  rewrite (Z.div_small mn 12), (Z.mod_small mn 12) by lia.
  now rewrite Z.add_0_r.
Qed.

(** Day 0 of the month after is the last day of the month. *)
Lemma MakeDay_day0 (y m : Z) :
  1 <= m <= 12 ->
  MakeDay y m 0 = MakeDay y (m - 1) (DaysInMonth y (m - 1)).
Proof.
  intros H.
  rewrite (MakeDay_in_month y (m - 1)) by lia.
  destruct (Z.eq_dec m 12) as [-> | Hm].
  - unfold MakeDay. change (12 / 12) with 1. change (12 mod 12) with 0.
    rewrite DayFromYear_succ. unfold DaysInYear.
    change (12 - 1) with 11. unfold DaysInMonth, daysBeforeMonth.
    destruct (isLeap y), (isLeap (y + 1)); lia.
  - rewrite MakeDay_in_month by lia.
    assert (Hm' : 0 <= m - 1 <= 10) by lia.
    assert (C : m = 1 \/ m = 2 \/ m = 3 \/ m = 4 \/ m = 5 \/ m = 6 \/
                m = 7 \/ m = 8 \/ m = 9 \/ m = 10 \/ m = 11) by lia.
    repeat (destruct C as [C | C]; [subst m | ]); [.. | subst m];
      simpl; destruct (isLeap y); lia.
Qed.

(** The calendar fields of a time built from fields within their ranges
    are those fields. *)
Lemma fields_of_MakeDate (y mn dt h mi s ms : Z) :
  0 <= mn <= 11 -> 1 <= dt <= DaysInMonth y mn ->
  0 <= h <= 23 -> 0 <= mi <= 59 -> 0 <= s <= 59 -> 0 <= ms <= 999 ->
  let t := MakeDate (MakeDay y mn dt) (MakeTime h mi s ms) in
  YearFromTime t = y /\ MonthFromTime t = mn /\ DateFromTime t = dt /\
  HourFromTime t = h /\ MinFromTime t = mi /\ SecFromTime t = s /\
  msFromTime t = ms.
Proof.
  intros Hmn Hdt Hh Hmi Hs Hms t.
  assert (Htime : 0 <= MakeTime h mi s ms < msPerDay)
    by (unfold MakeTime, msPerHour, msPerMinute, msPerSecond, msPerDay; lia).
  assert (HD : Day t = MakeDay y mn dt) by (apply Day_MakeDate; exact Htime).
  rewrite MakeDay_in_month in HD by exact Hmn.
  set (leap := if isLeap y then 1 else 0) in *.
  assert (Hrange : 0 <= daysBeforeMonth leap mn + dt - 1 < DaysInYear y).
  { unfold DaysInYear, leap.
    pose proof (month_cases mn Hmn) as C.
    repeat (destruct C as [C | C]; [subst mn | ]); [.. | subst mn];
      cbn [DaysInMonth daysBeforeMonth] in *; destruct (isLeap y); lia. }
  assert (HY : YearFromTime t = y).
  { unfold YearFromTime. apply yearFromDay_unique.
    rewrite DayFromYear_succ, HD. lia. }
  assert (HL : InLeapYear t = leap) by (unfold InLeapYear; now rewrite HY).
  assert (HW : DayWithinYear t = daysBeforeMonth leap mn + dt - 1)
    by (unfold DayWithinYear; rewrite HY, HD; lia).
  assert (HM : MonthFromTime t = mn).
  { unfold MonthFromTime. rewrite HL, HW.
    assert (Hleap : leap = 0 \/ leap = 1) by (unfold leap; destruct (isLeap y); auto).
    assert (Hl : isLeap y = true -> leap = 1) by (unfold leap; now intros ->).
    assert (Hl' : isLeap y = false -> leap = 0) by (unfold leap; now intros ->).
    clearbody leap.
    pose proof (month_cases mn Hmn) as C.
    unfold monthOfDayWithinYear.
    repeat (destruct C as [C | C]; [subst mn | ]); [.. | subst mn];
      cbn [DaysInMonth daysBeforeMonth] in *;
      destruct (isLeap y);
      try specialize (Hl eq_refl); try specialize (Hl' eq_refl);
      repeat match goal with
             | |- context [?a <? ?b] => destruct (Z.ltb_spec a b); try lia
             end. }
  repeat split; auto.
  - unfold DateFromTime. rewrite HL, HM, HW. lia.
  - unfold HourFromTime, t, MakeDate, MakeTime, msPerDay, msPerHour,
      msPerMinute, msPerSecond. Z.to_euclidean_division_equations; lia.
  - unfold MinFromTime, t, MakeDate, MakeTime, msPerDay, msPerHour,
      msPerMinute, msPerSecond. Z.to_euclidean_division_equations; lia.
  - unfold SecFromTime, t, MakeDate, MakeTime, msPerDay, msPerHour,
      msPerMinute, msPerSecond. Z.to_euclidean_division_equations; lia.
  - unfold msFromTime, t, MakeDate, MakeTime, msPerDay, msPerHour,
      msPerMinute, msPerSecond. Z.to_euclidean_division_equations; lia.
Qed.

Lemma MakeDay_carry (y m dt : Z) :
  MakeDay y m dt = MakeDay (y + m / 12) (m mod 12) dt.
Proof.
  unfold MakeDay.
  rewrite Z.mod_mod by lia.
  rewrite (Z.div_small (m mod 12) 12) by (apply Z.mod_pos_bound; lia).
  now rewrite Z.add_0_r.
Qed.

Lemma MakeDay_bounds (y mn dt : Z) :
  0 <= mn <= 11 -> 1 <= dt <= DaysInMonth y mn ->
  DayFromYear y <= MakeDay y mn dt < DayFromYear (y + 1).
Proof.
  intros Hmn Hdt. rewrite MakeDay_in_month by exact Hmn.
  rewrite DayFromYear_succ. unfold DaysInYear.
  pose proof (month_cases mn Hmn) as C.
  repeat (destruct C as [C | C]; [subst mn | ]); [.. | subst mn];
    cbn [DaysInMonth daysBeforeMonth] in *; destruct (isLeap y); lia.
Qed.

Lemma TimeClip_in_range (env : Env) (tza y mn dt time : Z) :
  zonaFija env tza ->
  Z.abs tza <= msPerDay -> representable y ->
  0 <= mn <= 11 -> 1 <= dt <= DaysInMonth y mn -> 0 <= time < msPerDay ->
  TimeClip (UTC env (MakeDate (MakeDay y mn dt) time))
  = Some (MakeDate (MakeDay y mn dt) time - tza).
Proof.
  intros Hfija Htz [Hlo Hhi] Hmn Hdt Htime.
  unfold UTC. rewrite Hfija.
  pose proof (MakeDay_bounds y mn dt Hmn Hdt) as [Blo Bhi].
  pose proof (DayFromYear_mono (-271820) y Hlo) as Mlo.
  pose proof (DayFromYear_mono (y + 1) 275760 ltac:(lia)) as Mhi.
  change (DayFromYear (-271820)) with (-99999744) in Mlo.
  change (DayFromYear 275760) with 99999744 in Mhi.
  unfold TimeClip, MakeDate, maxTime, msPerDay in *.
  destruct (Z.gtb_spec
              (Z.abs (MakeDay y mn dt * 86400000 + time - tza))
              8640000000000000) as [Hgt | Hle]; [exfalso; lia | reflexivity].
Qed.

Lemma LocalTime_UTC (env : Env) (tza t : Z) :
  zonaFija env tza -> LocalTime env (t - tza) = t.
Proof. intros Hfija. unfold LocalTime. rewrite Hfija. lia. Qed.

End DateFacts.

(** ** The boundaries of a month and of a year *)

Section Limites.
Import JSDate DateFacts.

Variable env : Env.
Variable tza : Z.
Hypothesis fija : zonaFija env tza.
Hypothesis zona : Z.abs tza <= msPerDay.

Lemma inicioMes_value (y m : Z) :
  1 <= m <= 12 -> representable (añoLeido y) ->
  inicioMes env (Num y) (Num m)
  = Some (MakeDate (MakeDay (añoLeido y) (m - 1) 1) (MakeTime 0 0 0 0)
          - tza).
Proof.
  intros Hm Hy. unfold inicioMes, construct3, construct, num_sub.
  rewrite doble_exacto by lia.
  fold (añoLeido y).
  apply (TimeClip_in_range env tza); auto; try lia.
  - pose proof (month_cases (m - 1) ltac:(lia)) as C.
    repeat (destruct C as [C | C]; [rewrite C | ]); [.. | rewrite C];
      cbn [DaysInMonth]; destruct (isLeap (añoLeido y)); lia.
  - unfold MakeTime, msPerDay. lia.
Qed.

Lemma DaysInMonth_pos (y mn : Z) : 28 <= DaysInMonth y mn <= 31.
Proof.
  unfold DaysInMonth.
  repeat match goal with
         | |- context [match ?x with _ => _ end] => destruct x
         end; lia.
Qed.

Lemma finMes_value (y m : Z) :
  1 <= m <= 12 -> representable (añoLeido y) ->
  finMes env (Num y) (Num m)
  = Some (MakeDate (MakeDay (añoLeido y) (m - 1)
                            (DaysInMonth (añoLeido y) (m - 1)))
                   (MakeTime 23 59 59 999)
          - tza).
Proof.
  intros Hm Hy. unfold finMes, construct3, construct.
  fold (añoLeido y).
  rewrite MakeDay_day0 by exact Hm.
  pose proof (DaysInMonth_pos (añoLeido y) (m - 1)) as Hd.
  rewrite (TimeClip_in_range env tza); auto; try lia;
    [ | unfold MakeTime, msPerDay; lia ].
  unfold setHours. rewrite (LocalTime_UTC env tza) by exact fija.
  rewrite Day_MakeDate by (unfold MakeTime, msPerDay; lia).
  apply (TimeClip_in_range env tza); auto; try lia.
  unfold MakeTime, msPerDay, msPerHour, msPerMinute, msPerSecond. lia.
Qed.

Lemma localFields_UTC (y mn dt h mi s ms : Z) :
  0 <= mn <= 11 -> 1 <= dt <= DaysInMonth y mn ->
  0 <= h <= 23 -> 0 <= mi <= 59 -> 0 <= s <= 59 -> 0 <= ms <= 999 ->
  localFields env (MakeDate (MakeDay y mn dt) (MakeTime h mi s ms) - tza)
  = mkFields y mn dt h mi s ms.
Proof.
  intros Hmn Hdt Hh Hmi Hs Hms.
  unfold localFields. rewrite (LocalTime_UTC env tza) by exact fija.
  destruct (fields_of_MakeDate y mn dt h mi s ms Hmn Hdt Hh Hmi Hs Hms)
    as (-> & -> & -> & -> & -> & -> & ->).
  reflexivity.
Qed.




End Limites.



(** The year search reads the year argument 24 as 1924 as well, and the
    month search replaces the year argument 0 by the year of the clock. *)
Example anio_24_y_anio_0 :
  (exists ai, inicioAño Lima (Num 24) = Some ai /\
              JSDate.localFields Lima ai = JSDate.mkFields 1924 0 1 0 0 0 0) /\
  (exists ti, inicioMes Lima (añoConsulta Lima (Some (Num 0))) (Num 2) = Some ti /\
              JSDate.localFields Lima ti = JSDate.mkFields 2025 1 1 0 0 0 0).
Proof.
  split; eexists; (split; [vm_compute; reflexivity | vm_compute; reflexivity]).
Qed.

(* ================================================================= *)
(** ** The overlap filter and the conflict check *)

Section Traslape.

Variables rangeStart rangeEnd inicio conclusion : Z.
Variable doc : Raw.t.
Hypothesis doc_inicio : Raw.Fecha_Inicio doc = Some inicio.
Hypothesis doc_conclusion : Raw.Fecha_Conclusion doc = Some conclusion.

(** The three clauses of the filter, on a document with both dates. *)
Lemma matches_filtroTraslape :
  matches (filtroTraslape (Some rangeStart) (Some rangeEnd)) doc
  = ((rangeStart <=? inicio) && (inicio <=? rangeEnd))
    || ((rangeStart <=? conclusion) && (conclusion <=? rangeEnd))
    || ((inicio <=? rangeStart) && (rangeEnd <=? conclusion)).
Proof.
  cbn. rewrite doc_inicio, doc_conclusion. cbn.
  rewrite !andb_true_r, !orb_false_r, orb_assoc. reflexivity.
Qed.

Lemma matches_iff_clausulas :
  matches (filtroTraslape (Some rangeStart) (Some rangeEnd)) doc = true <->
  (rangeStart <= inicio <= rangeEnd) \/
  (rangeStart <= conclusion <= rangeEnd) \/
  (inicio <= rangeStart /\ rangeEnd <= conclusion).
Proof.
  rewrite matches_filtroTraslape.
  rewrite !orb_true_iff, !andb_true_iff, !Z.leb_le. tauto.
Qed.

Lemma dosClausulas_intersecan :
  inicio <= conclusion -> rangeStart <= rangeEnd ->
  (dosClausulas rangeStart rangeEnd inicio conclusion <->
   intersecan rangeStart rangeEnd inicio conclusion).
Proof.
  intros He Hr. unfold dosClausulas, intersecan. split.
  - intros [H1 H2]. exists (Z.max rangeStart inicio). lia.
  - intros (t & H1 & H2). lia.
Qed.

(** C1 (as amended).  For every range with [rangeStart <= rangeEnd] and
    every event with [Fecha_Inicio <= Fecha_Conclusion], the three-clause
    filter holds exactly when the two-clause test
    [Fecha_Inicio <= rangeEnd] and [Fecha_Conclusion >= rangeStart] holds,
    which is exactly when the event's interval and the range share an
    instant: an event entirely before or entirely after the range does not
    match, an event that touches a boundary instant matches, an event
    contained in the range matches, and the conflict check keeps the event
    exactly when the filter does. *)
Theorem filtro_de_tres_clausulas :
  inicio <= conclusion -> rangeStart <= rangeEnd ->
  let filtro := filtroTraslape (Some rangeStart) (Some rangeEnd) in
  (matches filtro doc = true <->
   dosClausulas rangeStart rangeEnd inicio conclusion) /\
  (matches filtro doc = true <->
   intersecan rangeStart rangeEnd inicio conclusion) /\
  (conclusion < rangeStart -> matches filtro doc = false) /\
  (rangeEnd < inicio -> matches filtro doc = false) /\
  (conclusion = rangeStart -> matches filtro doc = true) /\
  (inicio = rangeEnd -> matches filtro doc = true) /\
  (rangeStart <= inicio -> conclusion <= rangeEnd -> matches filtro doc = true) /\
  verificarConflictoConEventos (Some rangeStart) (Some rangeEnd) [aEvento doc]
  = (if matches filtro doc then [aEvento doc] else []).
Proof.
  intros He Hr filtro.
  assert (Hdos : matches filtro doc = true <->
                 dosClausulas rangeStart rangeEnd inicio conclusion).
  { unfold filtro. rewrite matches_iff_clausulas. unfold dosClausulas. lia. }
  assert (Hno : forall P : Prop, (P -> ~ dosClausulas rangeStart rangeEnd inicio conclusion) ->
                                 P -> matches filtro doc = false).
  { intros P HP p. apply not_true_is_false. rewrite Hdos. now apply HP. }
  split; [exact Hdos | ].
  split; [rewrite Hdos; now apply dosClausulas_intersecan | ].
  split; [apply Hno; unfold dosClausulas; lia | ].
  split; [apply Hno; unfold dosClausulas; lia | ].
  split; [intros; apply Hdos; unfold dosClausulas; lia | ].
  split; [intros; apply Hdos; unfold dosClausulas; lia | ].
  split; [intros; apply Hdos; unfold dosClausulas; lia | ].
  remember (matches filtro doc) as b eqn:Hb.
  unfold verificarConflictoConEventos, hayTraslape, aEvento, JSDate.copy. cbn.
  rewrite doc_inicio, doc_conclusion. cbn.
  destruct (Z.leb_spec inicio rangeEnd) as [H1 | H1],
           (Z.leb_spec rangeStart conclusion) as [H2 | H2]; cbn.
  - assert (Hc : b = true)
      by (apply Hdos; unfold dosClausulas; lia).
    now rewrite Hc.
  - rewrite (Hno (conclusion < rangeStart)); unfold dosClausulas; auto; lia.
  - rewrite (Hno (rangeEnd < inicio)); unfold dosClausulas; auto; lia.
  - rewrite (Hno (rangeEnd < inicio)); unfold dosClausulas; auto; lia.
Qed.

End Traslape.

(** The filter on the range from 0 to 10 and an event from 5 to 20. *)
Lemma filtro_de_tres_clausulas_witness :
  (5 <= 20 /\ 0 <= 10) /\
  matches (filtroTraslape (Some 0) (Some 10)) (documento_entre 1 5 20)
  = true /\
  dosClausulas 0 10 5 20 /\ intersecan 0 10 5 20.
Proof.
  pose (doc := documento_entre 1 5 20).
  assert (He : 5 <= 20) by lia. assert (Hr : 0 <= 10) by lia.
  destruct (filtro_de_tres_clausulas 0 10 5 20 doc eq_refl eq_refl He Hr)
    as (Hdos & Hint & _).
  assert (Hm : matches (filtroTraslape (Some 0) (Some 10)) doc = true)
    by reflexivity.
  split; [split; assumption | ].
  split; [exact Hm | ].
  split; [apply Hdos; exact Hm | apply Hint; exact Hm].
Defined.

(** C1 as stated fails for a range given in the wrong order, which the
    range search takes as it is: with rangeStart = 10 and rangeEnd = 0 an
    event from 5 to 5 lies entirely before rangeStart and shares no instant
    with the range, the two-clause test rejects it, and the three-clause
    filter selects it. *)
Lemma rango_invertido :
  5 <= 5 /\
  matches (filtroTraslape (Some 10) (Some 0)) (documento_entre 1 5 5)
  = true /\
  ~ dosClausulas 10 0 5 5 /\
  ~ intersecan 10 0 5 5 /\
  5 < 10 /\
  fst (buscarEventosPorRango Referencia.connector (Some 10) (Some 0) None
         (mkWorld [] [] [documento_entre 1 5 5]))
  = Returns [aEvento (documento_entre 1 5 5)].
Proof.
  split; [lia | ].
  split; [reflexivity | ].
  split; [unfold dosClausulas; lia | ].
  split; [intros (t & H1 & H2); lia | ].
  split; [lia | reflexivity].
Qed.

(** ** The conflict check *)

(** C3.  [verificarConflictoConEventos] keeps exactly the events whose
    start is at or before the candidate's end and whose end is at or after
    the candidate's start, each as often and in the order it occurs in the
    input; an event touching the candidate's boundary is kept, one strictly
    outside is dropped.  The function touches neither console nor
    database, and on array objects it writes to no existing array: the
    result is a new array and the input array holds what it held. *)
Theorem conflicto_es_el_traslape (fechaInicio fechaFin : Date) :
  (forall eventos evento,
     In evento (verificarConflictoConEventos fechaInicio fechaFin eventos) <->
     In evento eventos /\
     exists storedStart storedEnd candidateStart candidateEnd,
       Fecha_Inicio evento = Some storedStart /\
       Fecha_Conclusion evento = Some storedEnd /\
       fechaInicio = Some candidateStart /\ fechaFin = Some candidateEnd /\
       storedStart <= candidateEnd /\ storedEnd >= candidateStart) /\
  (forall xs ys,
     verificarConflictoConEventos fechaInicio fechaFin (xs ++ ys)
     = (verificarConflictoConEventos fechaInicio fechaFin xs
        ++ verificarConflictoConEventos fechaInicio fechaFin ys)%list) /\
  (forall evento,
     verificarConflictoConEventos fechaInicio fechaFin [evento] = [evento] \/
     verificarConflictoConEventos fechaInicio fechaFin [evento] = []) /\
  (forall (h : JSArray.Heap T_Eventos) (a : JSArray.Ref) eventos,
     nth_error h a = Some eventos ->
     exists r h',
       verificarConflictoConEventos_obj fechaInicio fechaFin a h = Some (r, h') /\
       nth_error h r = None /\
       nth_error h' r
       = Some (verificarConflictoConEventos fechaInicio fechaFin eventos) /\
       forall k xs, nth_error h k = Some xs -> nth_error h' k = Some xs).
Proof.
  split; [ | split; [ | split]].
  - intros eventos evento. split.
    + unfold verificarConflictoConEventos, hayTraslape, JSDate.copy,
        JSDate.ge, JSDate.le.
      intros H. apply filter_In in H. destruct H as [Hin Hb].
      split; [exact Hin | ].
      destruct (Fecha_Inicio evento) as [s|], (Fecha_Conclusion evento) as [e|],
        fechaInicio as [cs|], fechaFin as [ce|]; try discriminate;
        try (rewrite andb_false_r in Hb; discriminate).
      apply andb_true_iff in Hb. destruct Hb as [H1 H2].
      apply Z.leb_le in H1, H2.
      exists s, e, cs, ce. repeat split; auto; lia.
    + intros (Hin & s & e & cs & ce & Hs & He & -> & -> & H1 & H2).
      unfold verificarConflictoConEventos. apply filter_In. split; [exact Hin | ].
      unfold hayTraslape, JSDate.copy, JSDate.ge, JSDate.le. rewrite Hs, He.
      apply andb_true_iff. split; apply Z.leb_le; lia.
  - intros xs ys. unfold verificarConflictoConEventos. apply filter_app.
  - intros evento. unfold verificarConflictoConEventos. cbn.
    destruct (hayTraslape fechaInicio fechaFin evento); auto.
  - intros h a eventos Ha.
    unfold verificarConflictoConEventos_obj, JSArray.filter. rewrite Ha.
    eexists _, _. split; [reflexivity | ].
    split; [apply nth_error_None; lia | ].
    split.
    + rewrite nth_error_app2 by lia. rewrite Nat.sub_diag. reflexivity.
    + intros k xs Hk. rewrite nth_error_app1; [exact Hk | ].
      apply nth_error_Some. congruence.
Qed.

(** The candidate from 10:00 to 12:00 against three stored events: the
    one that touches its end is a conflict, the one after it is not. *)
Lemma conflicto_en_el_borde :
  In (evento_entre 2 (hora 12) (hora 13))
     (verificarConflictoConEventos (Some (hora 10)) (Some (hora 12))
        [evento_entre 1 (hora 11) (hora 13); evento_entre 2 (hora 12) (hora 13);
         evento_entre 3 (hora 13) (hora 14)]) /\
  ~ In (evento_entre 3 (hora 13) (hora 14))
       (verificarConflictoConEventos (Some (hora 10)) (Some (hora 12))
          [evento_entre 1 (hora 11) (hora 13); evento_entre 2 (hora 12) (hora 13);
           evento_entre 3 (hora 13) (hora 14)]).
Proof.
  destruct (conflicto_es_el_traslape (Some (hora 10)) (Some (hora 12))) as (H & _).
  split.
  - apply H. split; [cbn; auto | ].
    exists (hora 12), (hora 13), (hora 10), (hora 12).
    repeat split; vm_compute; discriminate.
  - intros Hin. apply H in Hin.
    destruct Hin as (_ & s & e & cs & ce & Hs & _ & _ & Hce & Hle & _).
    injection Hs as <-. injection Hce as <-. vm_compute in Hle. now apply Hle.
Defined.

(** The three cases of the spec, for the candidate from 10:00 to 12:00. *)
Example conflictos_de_10_a_12 :
  let candidato := verificarConflictoConEventos (Some (hora 10)) (Some (hora 12)) in
  candidato [evento_entre 1 (hora 11) (hora 13)] = [evento_entre 1 (hora 11) (hora 13)] /\
  candidato [evento_entre 2 (hora 12) (hora 13)] = [evento_entre 2 (hora 12) (hora 13)] /\
  candidato [evento_entre 3 (hora 13) (hora 14)] = [] /\
  candidato [evento_entre 1 (hora 11) (hora 13); evento_entre 2 (hora 12) (hora 13);
             evento_entre 3 (hora 13) (hora 14)]
  = [evento_entre 1 (hora 11) (hora 13); evento_entre 2 (hora 12) (hora 13)].
Proof. repeat split. Qed.

(* ================================================================= *)
(** ** Running the query helpers *)

Lemma try_catch_rethrow {DB A} (body : M DB A) (message : string) (w : World DB) :
  try_catch body
    (fun error => (console_error message error ;;; throw error)%js) w
  = match body w with
    | (Returns a, w') => (Returns a, w')
    | (Throws e, w') =>
        (Throws e, mkWorld (console w' ++ [console_error_entry message e])
                           (issued w') (db w'))
    end.
Proof.
  unfold try_catch. destruct (body w) as [[a | e] w']; reflexivity.
Qed.

Lemma mapM_cons {DB A B} (f : A -> M DB B) (x : A) (xs : list A) (w : World DB) :
  mapM f (x :: xs) w
  = match f x w with
    | (Returns y, w1) =>
        match mapM f xs w1 with
        | (Returns ys, w2) => (Returns (y :: ys), w2)
        | (Throws e, w2) => (Throws e, w2)
        end
    | (Throws e, w1) => (Throws e, w1)
    end.
Proof.
  cbn [mapM]. unfold bind.
  destruct (f x w) as [[y | e] w1]; [ | reflexivity].
  destruct (mapM f xs w1) as [[ys | e] w2]; reflexivity.
Qed.

Section Corridas.

Context {DB : Type}.
Variable connector : Connector DB.
Variable env : JSDate.Env.

Lemma transformar_run (raw : Raw.t) (w : World DB) :
  transformar raw w
  = match Raw._id raw with
    | Some oid =>
        (Returns (mkEvento (IdTexto (ObjectId_toString oid)) (Raw.Nombre raw)
                           (Raw.Fecha_Inicio raw) (Raw.Fecha_Conclusion raw)), w)
    | None =>
        (Throws (TypeError "Cannot read properties of undefined (reading 'toString')"),
         w)
    end.
Proof. unfold transformar. destruct (Raw._id raw); reflexivity. Qed.

Lemma mapM_transformar_ok (raws : list Raw.t) (w : World DB) :
  Forall tieneId raws ->
  exists evs, mapM (@transformar DB) raws w = (Returns evs, w) /\
              Forall2 esTransformado raws evs.
Proof.
  induction 1 as [| raw rest Hid _ IH].
  - exists []. split; [reflexivity | constructor].
  - destruct IH as (evs & E & F).
    unfold tieneId in Hid. destruct (Raw._id raw) as [oid |] eqn:Eid;
      [ | contradiction].
    eexists (_ :: evs). split.
    + rewrite mapM_cons, transformar_run, Eid, E. reflexivity.
    + constructor; [ | exact F]. exists oid. split; [exact Eid | reflexivity].
Qed.

Lemma mapM_transformar_inv (raws : list Raw.t) (w w' : World DB) evs :
  mapM (@transformar DB) raws w = (Returns evs, w') ->
  w' = w /\ Forall2 esTransformado raws evs /\ Forall tieneId raws.
Proof.
  revert evs. induction raws as [| raw rest IH]; intros evs H.
  - cbn in H. injection H as <- <-. repeat split; constructor.
  - rewrite mapM_cons, transformar_run in H.
    destruct (Raw._id raw) as [oid |] eqn:Eid; [ | discriminate].
    destruct (mapM transformar rest w) as [[evs' | e] w''] eqn:E;
      [ | discriminate].
    injection H as <- <-. destruct (IH _ eq_refl) as (W & F & T).
    repeat split; auto; constructor; auto.
    + exists oid. split; [exact Eid | reflexivity].
    + unfold tieneId. rewrite Eid. discriminate.
Qed.

Lemma mapM_transformar_throws (raws : list Raw.t) (w w' : World DB) e :
  mapM (@transformar DB) raws w = (Throws e, w') ->
  w' = w /\ ~ Forall tieneId raws.
Proof.
  induction raws as [| raw rest IH]; intros H.
  - discriminate.
  - rewrite mapM_cons, transformar_run in H.
    destruct (Raw._id raw) as [oid |] eqn:Eid.
    + destruct (mapM transformar rest w) as [[evs' | e'] w''] eqn:E;
        [discriminate | ].
      injection H as <- <-. destruct (IH eq_refl) as [W N].
      split; [exact W | ]. intros T. inversion T; auto.
    + injection H as <- <-. split; [reflexivity | ].
      intros T. inversion T as [| ? ? Hid _]; subst.
      unfold tieneId in Hid. congruence.
Qed.

Variable params : BuscarEventosParams.
Variable instancia : option RDP03.
Variable w : World DB.

Let F := filtroComun env (mes params) (año params).
Let contar := mkCall instancia (operacionContar F) Responsable.
Let buscar :=
  mkCall instancia (operacionBuscar F (p_offset params) (p_limit params)) Responsable.

Lemma buscarEventos_count_throws (e : JSError) (d1 : DB) :
  connector TNumber instancia (operacionContar F) Responsable (db w) = (Throws e, d1) ->
  buscarEventos connector env params instancia w
  = (Throws e, trasError w "Error buscando eventos:" e [contar] d1).
Proof.
  intros H. unfold buscarEventos. rewrite try_catch_rethrow.
  unfold bind, executeMongoOperation. fold F.
  change (mkOp countDocuments "T_Eventos" F None) with (operacionContar F).
  rewrite H. reflexivity.
Qed.

Lemma buscarEventos_find_throws (t : option Z) (e : JSError) (d1 d2 : DB) :
  connector TNumber instancia (operacionContar F) Responsable (db w) = (Returns t, d1) ->
  connector TAnyArray instancia
    (operacionBuscar F (p_offset params) (p_limit params)) Responsable d1
  = (Throws e, d2) ->
  buscarEventos connector env params instancia w
  = (Throws e, trasError w "Error buscando eventos:" e [contar; buscar] d2).
Proof.
  intros H1 H2. unfold buscarEventos. rewrite try_catch_rethrow.
  unfold bind, executeMongoOperation. fold F.
  change (mkOp countDocuments "T_Eventos" F None) with (operacionContar F).
  rewrite H1. cbn [db issued console].
  change (mkOp find "T_Eventos" F _)
    with (operacionBuscar F (p_offset params) (p_limit params)).
  rewrite H2. unfold trasError. cbn [db issued console].
  rewrite <- app_assoc. reflexivity.
Qed.

Lemma buscarEventos_returns (t : option Z) (raws : option (list Raw.t)) (d1 d2 : DB) :
  connector TNumber instancia (operacionContar F) Responsable (db w) = (Returns t, d1) ->
  connector TAnyArray instancia
    (operacionBuscar F (p_offset params) (p_limit params)) Responsable d1
  = (Returns raws, d2) ->
  Forall tieneId (or_empty raws) ->
  exists evs,
    buscarEventos connector env params instancia w
    = (Returns (mkResultado evs (count_or_0 t)),
       mkWorld (console w) (issued w ++ [contar; buscar]) d2) /\
    Forall2 esTransformado (or_empty raws) evs.
Proof.
  intros H1 H2 Hid. unfold buscarEventos. rewrite try_catch_rethrow.
  unfold bind, executeMongoOperation. fold F.
  change (mkOp countDocuments "T_Eventos" F None) with (operacionContar F).
  rewrite H1. cbn [db issued console].
  change (mkOp find "T_Eventos" F _)
    with (operacionBuscar F (p_offset params) (p_limit params)).
  rewrite H2.
  destruct (mapM_transformar_ok (or_empty raws)
              (mkWorld (console w)
                 ((issued w ++ [contar]) ++ [buscar]) d2) Hid) as (evs & E & R).
  exists evs. split; [ | exact R].
  fold contar buscar. rewrite E. unfold ret. rewrite <- app_assoc. reflexivity.
Qed.

Lemma buscarEventos_map_throws (t : option Z) (raws : option (list Raw.t)) (d1 d2 : DB) :
  connector TNumber instancia (operacionContar F) Responsable (db w) = (Returns t, d1) ->
  connector TAnyArray instancia
    (operacionBuscar F (p_offset params) (p_limit params)) Responsable d1
  = (Returns raws, d2) ->
  ~ Forall tieneId (or_empty raws) ->
  exists e,
    buscarEventos connector env params instancia w
    = (Throws e, trasError w "Error buscando eventos:" e [contar; buscar] d2).
Proof.
  intros H1 H2 Hid. unfold buscarEventos. rewrite try_catch_rethrow.
  unfold bind, executeMongoOperation. fold F.
  change (mkOp countDocuments "T_Eventos" F None) with (operacionContar F).
  rewrite H1. cbn [db issued console].
  change (mkOp find "T_Eventos" F _)
    with (operacionBuscar F (p_offset params) (p_limit params)).
  rewrite H2. fold contar buscar.
  destruct (mapM transformar (or_empty raws)
              (mkWorld (console w) ((issued w ++ [contar]) ++ [buscar]) d2))
    as [[evs | e] w4] eqn:E.
  - apply mapM_transformar_inv in E. destruct E as (_ & _ & T). contradiction.
  - apply mapM_transformar_throws in E. destruct E as [-> _].
    exists e. unfold trasError. cbn [db issued console].
    rewrite <- app_assoc. reflexivity.
Qed.

(** Every run of the unified search is one of four: the count throws; the
    count answers and the find throws; both answer and every document has
    its [_id]; both answer and a document lacks its [_id]. *)
Lemma buscarEventos_cases :
  (exists e d1,
     connector TNumber instancia (operacionContar F) Responsable (db w)
     = (Throws e, d1) /\
     buscarEventos connector env params instancia w
     = (Throws e, trasError w "Error buscando eventos:" e [contar] d1)) \/
  (exists t d1 e d2,
     connector TNumber instancia (operacionContar F) Responsable (db w)
     = (Returns t, d1) /\
     connector TAnyArray instancia
       (operacionBuscar F (p_offset params) (p_limit params)) Responsable d1
     = (Throws e, d2) /\
     buscarEventos connector env params instancia w
     = (Throws e, trasError w "Error buscando eventos:" e [contar; buscar] d2)) \/
  (exists t d1 raws d2 evs,
     connector TNumber instancia (operacionContar F) Responsable (db w)
     = (Returns t, d1) /\
     connector TAnyArray instancia
       (operacionBuscar F (p_offset params) (p_limit params)) Responsable d1
     = (Returns raws, d2) /\
     Forall2 esTransformado (or_empty raws) evs /\
     buscarEventos connector env params instancia w
     = (Returns (mkResultado evs (count_or_0 t)),
        mkWorld (console w) (issued w ++ [contar; buscar]) d2)) \/
  (exists t d1 raws d2 e,
     connector TNumber instancia (operacionContar F) Responsable (db w)
     = (Returns t, d1) /\
     connector TAnyArray instancia
       (operacionBuscar F (p_offset params) (p_limit params)) Responsable d1
     = (Returns raws, d2) /\
     ~ Forall tieneId (or_empty raws) /\
     buscarEventos connector env params instancia w
     = (Throws e, trasError w "Error buscando eventos:" e [contar; buscar] d2)).
Proof.
  destruct (connector TNumber instancia (operacionContar F) Responsable (db w))
    as [[t | e] d1] eqn:E1.
  - destruct (connector TAnyArray instancia
                (operacionBuscar F (p_offset params) (p_limit params))
                Responsable d1) as [[raws | e] d2] eqn:E2.
    + assert (D : Forall tieneId (or_empty raws) \/ ~ Forall tieneId (or_empty raws)).
      { destruct (Forall_dec tieneId) with (l := or_empty raws) as [T | T]; auto.
        intros raw. unfold tieneId. destruct (Raw._id raw); [left | right];
          congruence. }
      destruct D as [T | T].
      * destruct (buscarEventos_returns t raws d1 d2 E1 E2 T) as (evs & R & Fa).
        right. right. left. exists t, d1, raws, d2, evs. auto.
      * destruct (buscarEventos_map_throws t raws d1 d2 E1 E2 T) as (e & R).
        right. right. right. exists t, d1, raws, d2, e. auto.
    + right. left. exists t, d1, e, d2.
      split; [reflexivity | split; [exact E2 | ]].
      now apply buscarEventos_find_throws with (t := t) (d1 := d1).
  - left. exists e, d1. split; [reflexivity | ].
    now apply buscarEventos_count_throws.
Qed.

(** The count is always issued, and nothing but the count and the find. *)
Lemma buscarEventos_issued :
  issued (snd (buscarEventos connector env params instancia w))
  = (issued w ++ [contar])%list \/
  issued (snd (buscarEventos connector env params instancia w))
  = (issued w ++ [contar; buscar])%list.
Proof.
  destruct buscarEventos_cases
    as [(e & d1 & _ & ->) | [(t & d1 & e & d2 & _ & _ & ->)
       | [(t & d1 & raws & d2 & evs & _ & _ & _ & ->)
       | (t & d1 & raws & d2 & e & _ & _ & _ & ->)]]]; cbn; auto.
Qed.

End Corridas.

(* ================================================================= *)
(** ** The endpoint *)

Lemma limiteValido_dec (n : JSNumber) :
  (isNaN n || num_lt n (Num 1) || num_gt n (Num MAXIMA_CANTIDAD_EVENTOS)) = false
  <-> limiteValido n.
Proof.
  unfold limiteValido, MAXIMA_CANTIDAD_EVENTOS. destruct n as [| z]; cbn.
  - split; [discriminate | intros (z & H & _); discriminate].
  - rewrite orb_false_iff, Z.ltb_ge, Z.ltb_ge. split.
    + intros [H1 H2]. exists z. split; [reflexivity | lia].
    + intros (z' & [= <-] & H). lia.
Qed.

Lemma offsetValido_dec (n : JSNumber) :
  (isNaN n || num_lt n (Num 0)) = false <-> offsetValido n.
Proof.
  unfold offsetValido. destruct n as [| z]; cbn.
  - split; [discriminate | intros (z & H & _); discriminate].
  - rewrite Z.ltb_ge. split.
    + intros H. exists z. split; [reflexivity | lia].
    + intros (z' & [= <-] & H). lia.
Qed.

Lemma fueraDeRango_dec (x : option JSNumber) (lo hi : Z) :
  fueraDeRango x lo hi = false
  <-> (forall n, x = Some n -> exists z, n = Num z /\ lo <= z <= hi).
Proof.
  unfold fueraDeRango. destruct x as [[| z] |]; cbn.
  - split; [discriminate | ]. intros H.
    destruct (H NaN eq_refl) as (z & Hz & _). discriminate.
  - rewrite orb_false_iff, Z.ltb_ge, Z.ltb_ge. split.
    + intros [H1 H2] n [= <-]. exists z. split; [reflexivity | lia].
    + intros H. destruct (H (Num z) eq_refl) as (z' & [= <-] & Hz). lia.
  - split; [ | reflexivity]. intros _ n. discriminate.
Qed.

Section Manejador.

Context {DB : Type}.
Variable connector : Connector DB.
Variable env : JSDate.Env.
Variable Number : string -> JSNumber.
Variable req : Request.
Variable w : World DB.

Let limit := parse Number (Limit (query req)) (Num MAXIMA_CANTIDAD_EVENTOS).
Let offset := parse Number (Offset (query req)) (Num 0).
Let mes := parseOpt Number (Mes (query req)).
Let año := parseOpt Number (Año (query req)).

(** The handler, step by step. *)
Lemma handler_run :
  handler connector env Number req w
  = if isNaN limit || num_lt limit (Num 1)
       || num_gt limit (Num MAXIMA_CANTIDAD_EVENTOS)
    then (Returns (rechazo "El límite debe ser un número entre 1 y 100"),
          recibidos req w)
    else if isNaN offset || num_lt offset (Num 0)
    then (Returns (rechazo "El offset debe ser un número mayor o igual a 0"),
          recibidos req w)
    else if fueraDeRango mes 1 12
    then (Returns (rechazo "El mes debe ser un número entre 1 y 12"),
          recibidos req w)
    else if fueraDeRango año 1900 2100
    then (Returns (rechazo "El año debe ser un número válido entre 1900 y 2100"),
          recibidos req w)
    else
      match buscarEventos connector env (mkParams mes año limit offset)
              (RDP03_INSTANCE req) (recibidos req w) with
      | (Returns r, w2) =>
          (Returns
             (if Z.of_nat (List.length (eventos r)) =? 0
              then mkResponse 404
                     (GetEventosSuccessResponse true
                        match mes with
                        | Some m => "No se encontraron eventos para el mes "
                                    ++ num_toString m ++ delAño año
                        | None => "No se encontraron eventos en el sistema"
                        end [] 0)
              else mkResponse 200
                     (GetEventosSuccessResponse true
                        match mes with
                        | Some m =>
                            "Se encontraron "
                            ++ decimal (Z.of_nat (List.length (eventos r)))
                            ++ " evento(s) de " ++ decimal (total r)
                            ++ " totales para el mes " ++ num_toString m
                            ++ delAño año
                        | None =>
                            "Se encontraron "
                            ++ decimal (Z.of_nat (List.length (eventos r)))
                            ++ " evento(s) de " ++ decimal (total r)
                            ++ " totales (eventos más antiguos)"
                        end (eventos r) (total r))),
           w2)
      | (Throws e, w2) =>
          (Returns (mkResponse 500
                      (ErrorResponseAPIBase false
                         "Error interno del servidor al buscar eventos"
                         UNKNOWN_ERROR (Some e))),
           mkWorld (console w2 ++ [console_error_entry "Error al buscar eventos:" e])
                   (issued w2) (db w2))
      end.
Proof.
  unfold handler, try_catch, bind at 1, console_log.
  fold limit offset mes año.
  change (mkWorld (console w ++ [console_log_entry _ _]) (issued w) (db w))
    with (recibidos req w).
  destruct (isNaN limit || num_lt limit (Num 1)
            || num_gt limit (Num MAXIMA_CANTIDAD_EVENTOS)); [reflexivity | ].
  destruct (isNaN offset || num_lt offset (Num 0)); [reflexivity | ].
  destruct (fueraDeRango mes 1 12); [reflexivity | ].
  destruct (fueraDeRango año 1900 2100); [reflexivity | ].
  unfold bind.
  destruct (buscarEventos connector env (mkParams mes año limit offset)
              (RDP03_INSTANCE req) (recibidos req w)) as [[r | e] w2];
    [ | reflexivity].
  destruct (Z.of_nat (List.length (eventos r)) =? 0); reflexivity.
Qed.

End Manejador.

(* ================================================================= *)
(** ** The console and the search *)

Section Registro.

Context {DB : Type}.
Variable connector : Connector DB.
Variable env : JSDate.Env.

(** The conversion of the documents does not touch the world, and its
    outcome does not depend on it. *)
Lemma mapM_transformar_puro (raws : list Raw.t) :
  exists r : Outcome (list T_Eventos),
    forall w : World DB, mapM (@transformar DB) raws w = (r, w).
Proof.
  induction raws as [| raw rest IH].
  - exists (Returns []). reflexivity.
  - destruct IH as (r & Hr).
    destruct (Raw._id raw) as [oid |] eqn:Eid.
    + exists (match r with
              | Returns ys =>
                  Returns (mkEvento (IdTexto (ObjectId_toString oid))
                             (Raw.Nombre raw) (Raw.Fecha_Inicio raw)
                             (Raw.Fecha_Conclusion raw) :: ys)
              | Throws e => Throws e
              end).
      intros w. rewrite mapM_cons, transformar_run, Eid, Hr.
      destruct r; reflexivity.
    + exists (Throws (TypeError
                "Cannot read properties of undefined (reading 'toString')")).
      intros w. rewrite mapM_cons, transformar_run, Eid. reflexivity.
Qed.

(** The unified search reads nothing from the console: from a world with
    another console it ends with the same outcome, the same calls and the
    same database, and adds the same lines. *)
Lemma buscarEventos_otra_consola (params : BuscarEventosParams)
    (inst : option RDP03) (w : World DB) (c : list ConsoleEntry) :
  exists r nuevas calls d,
    buscarEventos connector env params inst w
    = (r, mkWorld (console w ++ nuevas) (issued w ++ calls) d) /\
    buscarEventos connector env params inst (mkWorld c (issued w) (db w))
    = (r, mkWorld (c ++ nuevas) (issued w ++ calls) d).
Proof.
  unfold buscarEventos. rewrite !try_catch_rethrow.
  unfold bind, executeMongoOperation. cbn [db issued console].
  destruct (connector TNumber inst _ Responsable (db w)) as [[t | e] d1].
  - cbn [db issued console].
    destruct (connector TAnyArray inst _ Responsable d1) as [[raws | e] d2].
    + destruct (mapM_transformar_puro (or_empty raws)) as (r & Hr).
      rewrite !Hr. destruct r as [evs | e]; unfold ret;
        cbn [db issued console]; rewrite <- !app_assoc.
      * eexists _, [], _, d2.
        rewrite (app_nil_r (console w)), (app_nil_r c). split; reflexivity.
      * eexists _, [_], _, d2. split; reflexivity.
    + eexists _, [_], _, d2. cbn [db issued console].
      rewrite <- !app_assoc. split; reflexivity.
  - eexists _, [_], _, d1. split; reflexivity.
Qed.

Variable Number : string -> JSNumber.

(** Two requests that convert to the same limit, offset and month, and
    to the same year or, without a month, to two years that both pass the
    check, are answered alike: only the logged parameters differ. *)
Lemma handler_otro_registro (req1 req2 : Request) (w : World DB) :
  parse Number (Limit (query req1)) (Num MAXIMA_CANTIDAD_EVENTOS)
  = parse Number (Limit (query req2)) (Num MAXIMA_CANTIDAD_EVENTOS) ->
  parse Number (Offset (query req1)) (Num 0)
  = parse Number (Offset (query req2)) (Num 0) ->
  parseOpt Number (Mes (query req1)) = parseOpt Number (Mes (query req2)) ->
  parseOpt Number (Año (query req1)) = parseOpt Number (Año (query req2)) \/
  (parseOpt Number (Mes (query req2)) = None /\
   fueraDeRango (parseOpt Number (Año (query req1))) 1900 2100 = false /\
   fueraDeRango (parseOpt Number (Año (query req2))) 1900 2100 = false) ->
  RDP03_INSTANCE req1 = RDP03_INSTANCE req2 ->
  soloDifiereElRegistro w req1 req2
    (handler connector env Number req1 w) (handler connector env Number req2 w).
Proof.
  intros HL HO HM HA HI.
  rewrite !handler_run. rewrite HL, HO, HM, HI.
  assert (Hrechazo : forall message,
            soloDifiereElRegistro w req1 req2
              (Returns (rechazo message), recibidos req1 w)
              (Returns (rechazo message), recibidos req2 w)).
  { intros message. unfold soloDifiereElRegistro, recibidos.
    cbn [fst snd console issued db].
    split; [reflexivity | split; [reflexivity | split; [reflexivity | ]]].
    exists []. split; reflexivity. }
  destruct (isNaN _ || num_lt _ (Num 1) || num_gt _ _); [apply Hrechazo | ].
  destruct (isNaN _ || num_lt _ (Num 0)); [apply Hrechazo | ].
  destruct (fueraDeRango (parseOpt Number (Mes (query req2))) 1 12);
    [apply Hrechazo | ].
  assert (Hcola : forall (params : BuscarEventosParams)
                         (k : ResultadoBusqueda -> Response),
            soloDifiereElRegistro w req1 req2
              (match buscarEventos connector env params (RDP03_INSTANCE req2)
                       (recibidos req1 w) with
               | (Returns r, w2) => (Returns (k r), w2)
               | (Throws e, w2) =>
                   (Returns (mkResponse 500
                               (ErrorResponseAPIBase false
                                  "Error interno del servidor al buscar eventos"
                                  UNKNOWN_ERROR (Some e))),
                    mkWorld (console w2
                             ++ [console_error_entry "Error al buscar eventos:" e])
                            (issued w2) (db w2))
               end)
              (match buscarEventos connector env params (RDP03_INSTANCE req2)
                       (recibidos req2 w) with
               | (Returns r, w2) => (Returns (k r), w2)
               | (Throws e, w2) =>
                   (Returns (mkResponse 500
                               (ErrorResponseAPIBase false
                                  "Error interno del servidor al buscar eventos"
                                  UNKNOWN_ERROR (Some e))),
                    mkWorld (console w2
                             ++ [console_error_entry "Error al buscar eventos:" e])
                            (issued w2) (db w2))
               end)).
  { intros params k.
    destruct (buscarEventos_otra_consola params (RDP03_INSTANCE req2)
                (recibidos req1 w) (console w ++ [parametrosRecibidos req2]))
      as (r & nuevas & calls & d & E1 & E2).
    change (mkWorld (console w ++ [parametrosRecibidos req2])
              (issued (recibidos req1 w)) (db (recibidos req1 w)))
      with (recibidos req2 w) in E2.
    rewrite E1, E2. unfold soloDifiereElRegistro, recibidos.
    destruct r as [res | e]; cbn [fst snd console issued db];
      (split; [reflexivity | split; [reflexivity | split; [reflexivity | ]]]).
    - exists nuevas. rewrite <- !app_assoc. split; reflexivity.
    - exists (nuevas ++ [console_error_entry "Error al buscar eventos:" e])%list.
      rewrite <- !app_assoc. split; reflexivity. }
  destruct HA as [HA | (HM0 & HA1 & HA2)].
  - rewrite HA.
    destruct (fueraDeRango (parseOpt Number (Año (query req2))) 1900 2100);
      [apply Hrechazo | ].
    apply (Hcola _ (fun r => if Z.of_nat (List.length (eventos r)) =? 0
                             then _ else _)).
  - rewrite HA1, HA2, HM0.
    change (buscarEventos connector env
              (mkParams None (parseOpt Number (Año (query req1)))
                 (parse Number (Limit (query req2)) (Num MAXIMA_CANTIDAD_EVENTOS))
                 (parse Number (Offset (query req2)) (Num 0))))
      with (buscarEventos connector env
              (mkParams None (parseOpt Number (Año (query req2)))
                 (parse Number (Limit (query req2)) (Num MAXIMA_CANTIDAD_EVENTOS))
                 (parse Number (Offset (query req2)) (Num 0)))).
    apply (Hcola _ (fun r => if Z.of_nat (List.length (eventos r)) =? 0
                             then _ else _)).
Qed.

End Registro.

Section Respuestas.

Context {DB : Type}.
Variable connector : Connector DB.
Variable env : JSDate.Env.
Variable Number : string -> JSNumber.
Variable req : Request.
Variable w : World DB.

Let limit := parse Number (Limit (query req)) (Num MAXIMA_CANTIDAD_EVENTOS).
Let offset := parse Number (Offset (query req)) (Num 0).
Let mes := parseOpt Number (Mes (query req)).
Let año := parseOpt Number (Año (query req)).

(** C4.  The handler checks limit in [1,100], offset >= 0, month in [1,12]
    and year in [1900,2100], in this order; the first check that fails
    answers 400 with [success: false] and [errorType: INVALID_PARAMETERS],
    and the world is then the one in which the parameters were logged: no
    database operation was issued.  When the four checks pass the answer is
    not a 400 and the count has been issued. *)
Theorem validacion_de_parametros :
  (~ limiteValido limit ->
   handler connector env Number req w
   = (Returns (rechazo "El límite debe ser un número entre 1 y 100"),
      recibidos req w)) /\
  (limiteValido limit -> ~ offsetValido offset ->
   handler connector env Number req w
   = (Returns (rechazo "El offset debe ser un número mayor o igual a 0"),
      recibidos req w)) /\
  (limiteValido limit -> offsetValido offset -> ~ mesValido mes ->
   handler connector env Number req w
   = (Returns (rechazo "El mes debe ser un número entre 1 y 12"),
      recibidos req w)) /\
  (limiteValido limit -> offsetValido offset -> mesValido mes ->
   ~ añoValido año ->
   handler connector env Number req w
   = (Returns (rechazo "El año debe ser un número válido entre 1900 y 2100"),
      recibidos req w)) /\
  (limiteValido limit -> offsetValido offset -> mesValido mes ->
   añoValido año ->
   exists resp w' calls,
     handler connector env Number req w = (Returns resp, w') /\
     status resp <> 400 /\
     issued w'
     = (issued w
        ++ mkCall (RDP03_INSTANCE req)
                  (operacionContar (filtroComun env mes año)) Responsable
           :: calls)%list).
Proof.
  pose proof (limiteValido_dec limit) as HL.
  pose proof (offsetValido_dec offset) as HO.
  pose proof (fueraDeRango_dec mes 1 12) as HM.
  pose proof (fueraDeRango_dec año 1900 2100) as HA.
  fold (mesValido mes) in HM. fold (añoValido año) in HA.
  rewrite handler_run. fold limit offset mes año.
  destruct (isNaN limit || num_lt limit (Num 1)
            || num_gt limit (Num MAXIMA_CANTIDAD_EVENTOS)).
  { assert (NL : ~ limiteValido limit) by (intros V; apply HL in V; discriminate).
    repeat split; intros; try reflexivity; contradiction. }
  assert (VL : limiteValido limit) by (now apply HL).
  destruct (isNaN offset || num_lt offset (Num 0)).
  { assert (NO : ~ offsetValido offset) by (intros V; apply HO in V; discriminate).
    repeat split; intros; try reflexivity; contradiction. }
  assert (VO : offsetValido offset) by (now apply HO).
  destruct (fueraDeRango mes 1 12).
  { assert (NM : ~ mesValido mes) by (intros V; apply HM in V; discriminate).
    repeat split; intros; try reflexivity; contradiction. }
  assert (VM : mesValido mes) by (now apply HM).
  destruct (fueraDeRango año 1900 2100).
  { assert (NA : ~ añoValido año) by (intros V; apply HA in V; discriminate).
    repeat split; intros; try reflexivity; contradiction. }
  assert (VA : añoValido año) by (now apply HA).
  split; [intros; contradiction | ].
  split; [intros; contradiction | ].
  split; [intros; contradiction | ].
  split; [intros; contradiction | ].
  intros _ _ _ _.
  assert (I : exists calls,
             issued (snd (buscarEventos connector env
                            (mkParams mes año limit offset)
                            (RDP03_INSTANCE req) (recibidos req w)))
             = (issued w
                ++ mkCall (RDP03_INSTANCE req)
                          (operacionContar (filtroComun env mes año)) Responsable
                   :: calls)%list).
  { destruct (buscarEventos_issued connector env (mkParams mes año limit offset)
                (RDP03_INSTANCE req) (recibidos req w)) as [I | I];
      rewrite I; eexists; reflexivity. }
  destruct I as (calls & I).
  destruct (buscarEventos connector env (mkParams mes año limit offset)
              (RDP03_INSTANCE req) (recibidos req w)) as [[r | e] w2];
    cbn [snd] in I.
  - eexists _, w2, calls. split; [reflexivity | ]. split; [ | exact I].
    destruct (Z.of_nat (List.length (eventos r)) =? 0); cbn; lia.
  - eexists _, _, calls. split; [reflexivity | ]. split; [cbn; lia | exact I].
Qed.

End Respuestas.

(* ================================================================= *)
(** ** The other query helpers, step by step *)

Ltac correr :=
  rewrite try_catch_rethrow; unfold bind, executeMongoOperation;
  repeat match goal with
         | H : _ = (_, _) |- _ => rewrite H; cbn [db issued console]; clear H
         end;
  unfold trasError, trasLlamadas, ret; cbn [db issued console];
  rewrite <- ?app_assoc; reflexivity.

Section OtrasCorridas.

Context {DB : Type}.
Variable connector : Connector DB.
Variable env : JSDate.Env.
Variable instancia : option RDP03.
Variable w : World DB.

Lemma buscarEventosPorMes_run (mes : JSNumber) (año : option JSNumber)
    (limit offset : option JSNumber) :
  let F := filtroDelMes env mes año in
  let op := operacionPorMes F (por_defecto offset (Num 0))
                            (por_defecto limit (Num 100)) in
  let contar := mkCall instancia (operacionContar F) Responsable in
  let buscar := mkCall instancia op Responsable in
  buscarEventosPorMes connector env mes año instancia limit offset w
  = match connector TNumber instancia (operacionContar F) Responsable (db w) with
    | (Throws e, d1) =>
        (Throws e, trasError w "Error buscando eventos por mes:" e [contar] d1)
    | (Returns total, d1) =>
        match connector TEventosArray instancia op Responsable d1 with
        | (Throws e, d2) =>
            (Throws e,
             trasError w "Error buscando eventos por mes:" e [contar; buscar] d2)
        | (Returns eventos, d2) =>
            (Returns (mkResultado (or_empty eventos) (count_or_0 total)),
             trasLlamadas w [contar; buscar] d2)
        end
    end.
Proof.
  intros F op contar buscar. unfold buscarEventosPorMes. cbv zeta.
  unfold contar, buscar, op, F, filtroDelMes, operacionContar, operacionPorMes.
  destruct (connector TNumber instancia _ Responsable (db w)) as [[t | e] d1] eqn:E1;
    [ | correr].
  destruct (connector TEventosArray instancia _ Responsable d1)
    as [[evs | e] d2] eqn:E2; correr.
Qed.

Lemma buscarEventosPorAño_run (año : JSNumber) :
  let llamada :=
    mkCall instancia (operacionSinPaginar (filtroDelAño env año)) Directivo in
  buscarEventosPorAño connector env año instancia w
  = match connector TEventosArray instancia
            (operacionSinPaginar (filtroDelAño env año)) Directivo (db w) with
    | (Throws e, d) =>
        (Throws e, trasError w "Error buscando eventos por año:" e [llamada] d)
    | (Returns eventos, d) =>
        (Returns (or_empty eventos), trasLlamadas w [llamada] d)
    end.
Proof.
  intros llamada. unfold buscarEventosPorAño.
  unfold llamada, filtroDelAño, operacionSinPaginar.
  destruct (connector TEventosArray instancia _ Directivo (db w))
    as [[evs | e] d] eqn:E; correr.
Qed.

Lemma buscarEventosPorRango_run (fechaInicio fechaFin : Date) :
  let llamada :=
    mkCall instancia (operacionSinPaginar (filtroTraslape fechaInicio fechaFin))
           Directivo in
  buscarEventosPorRango connector fechaInicio fechaFin instancia w
  = match connector TEventosArray instancia
            (operacionSinPaginar (filtroTraslape fechaInicio fechaFin))
            Directivo (db w) with
    | (Throws e, d) =>
        (Throws e, trasError w "Error buscando eventos por rango:" e [llamada] d)
    | (Returns eventos, d) =>
        (Returns (or_empty eventos), trasLlamadas w [llamada] d)
    end.
Proof.
  intros llamada. unfold buscarEventosPorRango.
  unfold llamada, operacionSinPaginar.
  destruct (connector TEventosArray instancia _ Directivo (db w))
    as [[evs | e] d] eqn:E; correr.
Qed.

Lemma buscarEventoPorId_run (idEvento : Z) :
  let llamada := mkCall instancia (operacionPorId idEvento) Responsable in
  buscarEventoPorId connector idEvento instancia w
  = match connector TEvento instancia (operacionPorId idEvento) Responsable (db w) with
    | (Throws e, d) =>
        (Throws e, trasError w "Error buscando evento por ID:" e [llamada] d)
    | (Returns evento, d) => (Returns evento, trasLlamadas w [llamada] d)
    end.
Proof.
  intros llamada. unfold buscarEventoPorId.
  unfold llamada, operacionPorId.
  destruct (connector TEvento instancia _ Responsable (db w))
    as [[ev | e] d] eqn:E; correr.
Qed.

Lemma contarEventosPorMes_run (mes : JSNumber) (año : option JSNumber) :
  let F := filtroDelMes env mes año in
  let llamada := mkCall instancia (operacionContarMes F) Responsable in
  contarEventosPorMes connector env mes año instancia w
  = match connector TNumber instancia (operacionContarMes F) Responsable (db w) with
    | (Throws e, d) =>
        (Throws e, trasError w "Error contando eventos por mes:" e [llamada] d)
    | (Returns count, d) => (Returns (count_or_0 count), trasLlamadas w [llamada] d)
    end.
Proof.
  intros F llamada. unfold contarEventosPorMes.
  unfold llamada, F, filtroDelMes, operacionContarMes.
  destruct (connector TNumber instancia _ Responsable (db w))
    as [[c | e] d] eqn:E; correr.
Qed.

End OtrasCorridas.

(* ================================================================= *)
(** ** The reference database *)

Module ReferenciaFacts.
Import Referencia.

Lemma fecha_leb_total (a b : Date) : fecha_leb a b = false -> fecha_leb b a = true.
Proof.
  destruct a as [x |], b as [y |]; cbn; try discriminate; auto.
  intros H. apply Z.leb_gt in H. apply Z.leb_le. lia.
Qed.

Lemma insertar_perm (campo : string) (x : Raw.t) (l : list Raw.t) :
  Permutation (x :: l) (insertar campo x l).
Proof.
  induction l as [| y rest IH]; cbn; [constructor; constructor | ].
  destruct (antes campo x y); [apply Permutation_refl | ].
  eapply perm_trans; [apply perm_swap | ]. now constructor.
Qed.

Lemma ordenar_perm (campo : string) (l : list Raw.t) :
  Permutation l (ordenar campo l).
Proof.
  induction l as [| x rest IH]; cbn; [constructor | ].
  eapply perm_trans; [ | apply insertar_perm]. now constructor.
Qed.

Lemma insertar_HdRel (campo : string) (y x : Raw.t) (l : list Raw.t) :
  antes campo y x = true ->
  HdRel (fun a b => antes campo a b = true) y l ->
  HdRel (fun a b => antes campo a b = true) y (insertar campo x l).
Proof.
  intros Hyx H. destruct l as [| z rest]; cbn; [now constructor | ].
  inversion H; subst. destruct (antes campo x z); now constructor.
Qed.

Lemma insertar_sorted (campo : string) (x : Raw.t) (l : list Raw.t) :
  Sorted (fun a b => antes campo a b = true) l ->
  Sorted (fun a b => antes campo a b = true) (insertar campo x l).
Proof.
  induction 1 as [| y rest S IH H]; cbn; [repeat constructor | ].
  destruct (antes campo x y) eqn:E.
  - constructor; [now constructor | now constructor].
  - constructor; [exact IH | ].
    apply insertar_HdRel; [ | exact H].
    unfold antes in *. now apply fecha_leb_total.
Qed.

Lemma ordenar_sorted (campo : string) (l : list Raw.t) :
  Sorted (fun a b => antes campo a b = true) (ordenar campo l).
Proof.
  induction l as [| x rest IH]; cbn; [constructor | now apply insertar_sorted].
Qed.

(** The matching events by start time: sorted, and a rearrangement of the
    matching events. *)
Lemma enOrden_sorted (F : Filter) (c : Coleccion) : Sorted noDespues (enOrden F c).
Proof. exact (ordenar_sorted "Fecha_Inicio" (coincidentes F c)). Qed.

Lemma enOrden_perm (F : Filter) (c : Coleccion) :
  Permutation (coincidentes F c) (enOrden F c).
Proof. apply ordenar_perm. Qed.

Lemma enOrden_length (F : Filter) (c : Coleccion) :
  List.length (enOrden F c) = List.length (coincidentes F c).
Proof. symmetry. apply Permutation_length, enOrden_perm. Qed.

Lemma enOrden_tieneId (F : Filter) (c : Coleccion) :
  Forall tieneId c -> Forall tieneId (enOrden F c).
Proof.
  intros H. rewrite Forall_forall in *. intros raw Hin. apply H.
  apply (Permutation_in _ (Permutation_sym (enOrden_perm F c))) in Hin.
  unfold coincidentes in Hin. now apply filter_In in Hin.
Qed.

Lemma ventana_tieneId (l : list Raw.t) (n k : nat) :
  Forall tieneId l -> Forall tieneId (firstn n (skipn k l)).
Proof.
  intros H.
  rewrite <- (firstn_skipn k l) in H. apply Forall_app in H. destruct H as [_ H].
  rewrite <- (firstn_skipn n (skipn k l)) in H. apply Forall_app in H.
  now destruct H.
Qed.

Lemma map_proyectar_conId (l : list Raw.t) :
  map (proyectar [("_id", 1); ("Nombre", 1); ("Fecha_Inicio", 1);
                  ("Fecha_Conclusion", 1)]) l = l.
Proof.
  induction l as [| x rest IH]; [reflexivity | ].
  cbn [map]. rewrite IH. reflexivity.
Qed.

(** What the reference database answers to the two operations of the
    unified search. *)
Lemma contar_referencia (inst : option RDP03) (F : Filter) (c : Coleccion) :
  connector TNumber inst (operacionContar F) Responsable c
  = (Returns (Some (Z.of_nat (List.length (coincidentes F c)))), c).
Proof. reflexivity. Qed.

Lemma buscar_referencia (inst : option RDP03) (F : Filter) (o l : Z) (c : Coleccion) :
  connector TAnyArray inst (operacionBuscar F (Num o) (Num l)) Responsable c
  = (Returns (Some (firstn (Z.to_nat l) (skipn (Z.to_nat o) (enOrden F c)))), c).
Proof.
  unfold connector, ejecutar, operacionBuscar, ejecutarFind. cbn [operation options
    projection limit skip sort filter aplicarLimit aplicarSkip aplicarSort].
  rewrite map_proyectar_conId. reflexivity.
Qed.

Lemma count_or_0_of_nat (n : nat) : count_or_0 (Some (Z.of_nat n)) = Z.of_nat n.
Proof. unfold count_or_0. destruct (Z.eqb_spec (Z.of_nat n) 0); lia. Qed.

End ReferenciaFacts.

Lemma Forall2_nth_error_l {A B} (R : A -> B -> Prop) (l : list A) (l' : list B) :
  Forall2 R l l' ->
  forall i a, nth_error l i = Some a ->
  exists b, nth_error l' i = Some b /\ R a b.
Proof.
  induction 1 as [| x y l l' Hxy _ IH]; intros i a Hi.
  - destruct i; discriminate.
  - destruct i as [| i]; cbn in *.
    + injection Hi as <-. eauto.
    + now apply IH.
Qed.

(* ================================================================= *)
(** ** Pagination of the unified search *)

Section Paginacion.
Import Referencia ReferenciaFacts.

(** On the reference database the unified search returns the window of
    the matching events in start order, and their full count. *)
Lemma buscarEventos_referencia (env : JSDate.Env) (mes año : option JSNumber)
    (o l : Z) (inst : option RDP03) (w : World Coleccion) :
  Forall tieneId (db w) ->
  let F := filtroComun env mes año in
  exists evs,
    buscarEventos connector env (mkParams mes año (Num l) (Num o)) inst w
    = (Returns (mkResultado evs (Z.of_nat (List.length (coincidentes F (db w))))),
       trasLlamadas w [mkCall inst (operacionContar F) Responsable;
                       mkCall inst (operacionBuscar F (Num o) (Num l)) Responsable]
                    (db w)) /\
    Forall2 esTransformado
      (firstn (Z.to_nat l) (skipn (Z.to_nat o) (enOrden F (db w)))) evs.
Proof.
  intros Hid F.
  destruct (buscarEventos_returns connector env (mkParams mes año (Num l) (Num o))
              inst w _ _ (db w) (db w)
              (contar_referencia inst F (db w))
              (buscar_referencia inst F o l (db w))) as (evs & E & R).
  { cbn [or_empty]. apply ventana_tieneId. now apply enOrden_tieneId. }
  exists evs. split; [ | exact R].
  rewrite E, count_or_0_of_nat. reflexivity.
Qed.

(** On the reference database the find of the unified search answers the
    window of the matching events in start order, whatever the offset. *)
Lemma buscar_referencia_saltados (inst : option RDP03) (F : Filter)
    (offset : JSNumber) (l : Z) (c : Coleccion) :
  connector TAnyArray inst (operacionBuscar F offset (Num l)) Responsable c
  = (Returns (Some (firstn (Z.to_nat l)
                      (skipn (registrosSaltados offset) (enOrden F c)))), c).
Proof.
  destruct offset as [| o]; [ | apply buscar_referencia].
  unfold connector, ejecutar, operacionBuscar, ejecutarFind. cbn [operation options
    projection limit skip sort filter aplicarLimit aplicarSkip aplicarSort].
  rewrite map_proyectar_conId. reflexivity.
Qed.

Lemma buscarEventos_referencia_saltados (env : JSDate.Env)
    (mes año : option JSNumber) (offset : JSNumber) (l : Z)
    (inst : option RDP03) (w : World Coleccion) :
  Forall tieneId (db w) ->
  let F := filtroComun env mes año in
  exists evs,
    buscarEventos connector env (mkParams mes año (Num l) offset) inst w
    = (Returns (mkResultado evs (Z.of_nat (List.length (coincidentes F (db w))))),
       trasLlamadas w [mkCall inst (operacionContar F) Responsable;
                       mkCall inst (operacionBuscar F offset (Num l)) Responsable]
                    (db w)) /\
    Forall2 esTransformado
      (firstn (Z.to_nat l) (skipn (registrosSaltados offset) (enOrden F (db w))))
      evs.
Proof.
  intros Hid F.
  destruct (buscarEventos_returns connector env (mkParams mes año (Num l) offset)
              inst w _ _ (db w) (db w)
              (contar_referencia inst F (db w))
              (buscar_referencia_saltados inst F offset l (db w)))
    as (evs & E & R).
  { cbn [or_empty]. apply ventana_tieneId. now apply enOrden_tieneId. }
  exists evs. split; [ | exact R].
  rewrite E, count_or_0_of_nat. reflexivity.
Qed.

(** C6 (as amended).  Whatever the database answers, the unified search
    issues the count on its filter without options and then, unless the
    count threw, the find on the same filter, sorted by [Fecha_Inicio]
    ascending, with [skip: offset] and [limit: limit].  On the reference
    database, when the limit is a number not below 0 and the stored
    documents carry their [_id], the events are those of the window of the
    matching events in start order: the first [offset] are skipped (none
    for an offset that is negative or not a number), at most [limit]
    follow, and the event at place [i] of the answer is the matching
    event at place [offset + i]; [total] is the number of all matching
    events, never less than the number returned.  So with 35 matching
    events, limit 10 and offset 20 the search returns the records 21 to 30
    in start order and total 35. *)
Theorem paginacion_de_la_busqueda :
  (forall (DB : Type) (conn : Connector DB) (env : JSDate.Env)
          (params : BuscarEventosParams) (inst : option RDP03) (w : World DB),
     let F := filtroComun env (mes params) (año params) in
     let contar := mkCall inst (operacionContar F) Responsable in
     let buscar :=
       mkCall inst (operacionBuscar F (p_offset params) (p_limit params))
              Responsable in
     let w' := snd (buscarEventos conn env params inst w) in
     (issued w' = (issued w ++ [contar])%list \/
      issued w' = (issued w ++ [contar; buscar])%list) /\
     (forall t d1,
        conn TNumber inst (operacionContar F) Responsable (db w) = (Returns t, d1) ->
        issued w' = (issued w ++ [contar; buscar])%list) /\
     filter (call_operacion buscar) = filter (call_operacion contar) /\
     options (call_operacion contar) = None /\
     exists proyeccion,
       options (call_operacion buscar)
       = Some (mkOptions (Some ("Fecha_Inicio", 1)) (Some (p_offset params))
                         (Some (p_limit params)) proyeccion)) /\
  (forall (env : JSDate.Env) (mes año : option JSNumber) (offset : JSNumber)
          (limit : Z) (inst : option RDP03) (w : World Coleccion),
     Forall tieneId (db w) -> 0 <= limit ->
     let F := filtroComun env mes año in
     let saltados := registrosSaltados offset in
     exists evs,
       fst (buscarEventos connector env
              (mkParams mes año (Num limit) offset) inst w)
       = Returns (mkResultado evs (Z.of_nat (List.length (coincidentes F (db w)))))
       /\
       Forall2 esTransformado
         (firstn (Z.to_nat limit) (skipn saltados (enOrden F (db w)))) evs /\
       Sorted noDespues (enOrden F (db w)) /\
       Permutation (coincidentes F (db w)) (enOrden F (db w)) /\
       Z.of_nat (List.length evs) <= limit /\
       List.length evs
       = Nat.min (Z.to_nat limit)
                 (List.length (coincidentes F (db w)) - saltados) /\
       (List.length evs <= List.length (coincidentes F (db w)))%nat /\
       (forall i ev,
          nth_error evs i = Some ev ->
          exists raw,
            nth_error (enOrden F (db w)) (saltados + i) = Some raw /\
            esTransformado raw ev) /\
       (List.length (coincidentes F (db w)) = 35%nat -> limit = 10 ->
        offset = Num 20 ->
        List.length evs = 10%nat /\
        forall i, (i < 10)%nat ->
          exists raw ev,
            nth_error (enOrden F (db w)) (20 + i) = Some raw /\
            nth_error evs i = Some ev /\
            esTransformado raw ev)).
Proof.
  split.
  - intros DB conn env params inst w F contar buscar w'.
    split; [apply buscarEventos_issued | ].
    split; [ | split; [reflexivity | split; [reflexivity | eexists; reflexivity]]].
    intros t d1 Ht. unfold w'.
    destruct (buscarEventos_cases conn env params inst w)
      as [(e & d1' & C & _) | [(t' & d1' & e & d2 & _ & _ & ->)
         | [(t' & d1' & raws & d2 & evs & _ & _ & _ & ->)
         | (t' & d1' & raws & d2 & e & _ & _ & _ & ->)]]];
      try reflexivity.
    fold F in C. rewrite Ht in C. discriminate.
  - intros env mes año offset limit inst w Hid Hl F saltados.
    destruct (buscarEventos_referencia_saltados env mes año offset limit inst w Hid)
      as (evs & E & R).
    fold F saltados in E, R.
    pose proof (Forall2_length R) as Len.
    rewrite length_firstn, length_skipn, enOrden_length in Len.
    assert (Hnth : forall i ev,
               nth_error evs i = Some ev ->
               exists raw,
                 nth_error (enOrden F (db w)) (saltados + i) = Some raw /\
                 esTransformado raw ev).
    { intros i ev Hev.
      assert (Hi : (i < List.length evs)%nat)
        by (apply nth_error_Some; congruence).
      destruct (nth_error (firstn (Z.to_nat limit)
                             (skipn saltados (enOrden F (db w)))) i)
        as [raw |] eqn:N.
      - destruct (Forall2_nth_error_l _ _ _ R i raw N) as (ev' & Hev' & Rev).
        rewrite Hev in Hev'. injection Hev' as <-.
        exists raw. split; [ | exact Rev].
        rewrite nth_error_firstn, nth_error_skipn in N.
        destruct (Nat.ltb_spec i (Z.to_nat limit)); [exact N | discriminate].
      - apply nth_error_None in N.
        rewrite length_firstn, length_skipn, enOrden_length in N. lia. }
    exists evs.
    split; [now rewrite E | ].
    split; [exact R | ].
    split; [apply enOrden_sorted | ].
    split; [apply enOrden_perm | ].
    split; [lia | ].
    split; [lia | ].
    split; [lia | ].
    split; [exact Hnth | ].
    intros H35 -> Ho. unfold saltados in *. rewrite Ho in *.
    change (registrosSaltados (Num 20)) with 20%nat in *.
    rewrite H35 in Len.
    split; [rewrite <- Len; reflexivity | ].
    intros i Hi.
    assert (Hev : exists ev, nth_error evs i = Some ev).
    { destruct (nth_error evs i) as [ev |] eqn:N; eauto.
      apply nth_error_None in N. rewrite <- Len in N.
      change (Nat.min (Z.to_nat 10) (35 - 20)) with 10%nat in N. lia. }
    destruct Hev as (ev & Hev).
    destruct (Hnth i ev Hev) as (raw & Hraw & Rev).
    exists raw, ev. auto.
Qed.

End Paginacion.

(* ================================================================= *)
(** ** Search without a month *)

(** C7.  Without a month the filter of the unified search is the empty
    document, whatever the year; the empty document matches every stored
    event, so on the reference database the total is the size of the
    collection and the events are the window of the whole collection in
    start order. *)
Theorem sin_mes_no_hay_filtro :
  (forall (env : JSDate.Env) (año : option JSNumber),
     filtroComun env None año = F_vacio) /\
  (forall doc : Raw.t, matches F_vacio doc = true) /\
  (forall c : Referencia.Coleccion, Referencia.coincidentes F_vacio c = c) /\
  (forall (DB : Type) (conn : Connector DB) (env : JSDate.Env)
          (año : option JSNumber) (limit offset : JSNumber)
          (inst : option RDP03) (w : World DB),
     exists calls,
       issued (snd (buscarEventos conn env (mkParams None año limit offset) inst w))
       = (issued w ++ mkCall inst (operacionContar F_vacio) Responsable :: calls)%list
       /\
       (calls = [] \/
        calls = [mkCall inst (operacionBuscar F_vacio offset limit) Responsable])) /\
  (forall (env : JSDate.Env) (año : option JSNumber) (offset limit : Z)
          (inst : option RDP03) (w : World Referencia.Coleccion),
     Forall tieneId (db w) -> 0 <= offset -> 1 <= limit ->
     exists evs,
       fst (buscarEventos Referencia.connector env
              (mkParams None año (Num limit) (Num offset)) inst w)
       = Returns (mkResultado evs (Z.of_nat (List.length (db w)))) /\
       Forall2 esTransformado
         (firstn (Z.to_nat limit)
            (skipn (Z.to_nat offset) (Referencia.ordenar "Fecha_Inicio" (db w))))
         evs /\
       Permutation (db w) (Referencia.ordenar "Fecha_Inicio" (db w))).
Proof.
  assert (Hall : forall c : Referencia.Coleccion, Referencia.coincidentes F_vacio c = c).
  { intros c. unfold Referencia.coincidentes.
    induction c as [| x rest IH]; [reflexivity | ].
    change (x :: List.filter (matches F_vacio) rest = x :: rest).
    now rewrite IH. }
  split; [reflexivity | ].
  split; [reflexivity | ].
  split; [exact Hall | ].
  split.
  - intros DB conn env año limit offset inst w.
    destruct (buscarEventos_issued conn env (mkParams None año limit offset) inst w)
      as [I | I]; rewrite I; eexists; (split; [reflexivity | auto]).
  - intros env año offset limit inst w Hid Ho Hl.
    destruct (buscarEventos_referencia env None año offset limit inst w Hid)
      as (evs & E & R).
    cbn [filtroComun] in E, R. unfold enOrden in R. rewrite Hall in E, R.
    exists evs. split; [now rewrite E | ]. split; [exact R | ].
    apply ReferenciaFacts.ordenar_perm.
Qed.

(* ================================================================= *)
(** ** A year without a month *)

(** C9.  In the unified search a year given without a month changes
    nothing: the filter, the operations issued, the events and the total are
    those of a search with neither; and once the year has passed the
    endpoint's check, the response, the database calls and the database are
    those of the request without the year, the console differing only in
    the line that logs the parameters as received, where the year shows. *)
Theorem anio_sin_mes_no_tiene_efecto :
  (forall (env : JSDate.Env) (a : JSNumber),
     filtroComun env None (Some a) = filtroComun env None None) /\
  (forall (DB : Type) (conn : Connector DB) (env : JSDate.Env) (a : JSNumber)
          (limit offset : JSNumber) (inst : option RDP03) (w : World DB),
     buscarEventos conn env (mkParams None (Some a) limit offset) inst w
     = buscarEventos conn env (mkParams None None limit offset) inst w) /\
  (forall (DB : Type) (conn : Connector DB) (env : JSDate.Env)
          (Number : string -> JSNumber) (M : option string) (y : string)
          (L O : option string) (inst : option RDP03) (w : World DB),
     parseOpt Number M = None ->
     añoValido (parseOpt Number (Some y)) ->
     let conAño := mkRequest (mkQuery M (Some y) L O) inst in
     let sinAño := mkRequest (mkQuery M None L O) inst in
     fst (handler conn env Number conAño w)
     = fst (handler conn env Number sinAño w) /\
     issued (snd (handler conn env Number conAño w))
     = issued (snd (handler conn env Number sinAño w)) /\
     db (snd (handler conn env Number conAño w))
     = db (snd (handler conn env Number sinAño w)) /\
     exists resto,
       console (snd (handler conn env Number conAño w))
       = (console w ++ parametrosRecibidos conAño :: resto)%list /\
       console (snd (handler conn env Number sinAño w))
       = (console w ++ parametrosRecibidos sinAño :: resto)%list).
Proof.
  split; [reflexivity | ].
  split; [reflexivity | ].
  intros DB conn env Number M y L O inst w HM HA conAño sinAño.
  apply (handler_otro_registro conn env Number conAño sinAño w);
    cbn [conAño sinAño query Mes Año Limit Offset RDP03_INSTANCE];
    try reflexivity.
  right. split; [exact HM | ].
  split; [apply fueraDeRango_dec; exact HA | reflexivity].
Qed.

(* ================================================================= *)
(** ** Empty results and failures at the endpoint *)

Section SinResultados.

Context {DB : Type}.
Variable connector : Connector DB.
Variable env : JSDate.Env.
Variable Number : string -> JSNumber.
Variable req : Request.
Variable w : World DB.

Let limit := parse Number (Limit (query req)) (Num MAXIMA_CANTIDAD_EVENTOS).
Let offset := parse Number (Offset (query req)) (Num 0).
Let mes := parseOpt Number (Mes (query req)).
Let año := parseOpt Number (Año (query req)).

Lemma handler_validos :
  limiteValido limit -> offsetValido offset -> mesValido mes -> añoValido año ->
  handler connector env Number req w
  = match buscarEventos connector env (mkParams mes año limit offset)
            (RDP03_INSTANCE req) (recibidos req w) with
    | (Returns r, w2) =>
        (Returns
           (if Z.of_nat (List.length (eventos r)) =? 0
            then mkResponse 404
                   (GetEventosSuccessResponse true
                      match mes with
                      | Some m => "No se encontraron eventos para el mes "
                                  ++ num_toString m ++ delAño año
                      | None => "No se encontraron eventos en el sistema"
                      end [] 0)
            else mkResponse 200
                   (GetEventosSuccessResponse true
                      match mes with
                      | Some m =>
                          "Se encontraron "
                          ++ decimal (Z.of_nat (List.length (eventos r)))
                          ++ " evento(s) de " ++ decimal (total r)
                          ++ " totales para el mes " ++ num_toString m
                          ++ delAño año
                      | None =>
                          "Se encontraron "
                          ++ decimal (Z.of_nat (List.length (eventos r)))
                          ++ " evento(s) de " ++ decimal (total r)
                          ++ " totales (eventos más antiguos)"
                      end (eventos r) (total r))),
         w2)
    | (Throws e, w2) =>
        (Returns (mkResponse 500
                    (ErrorResponseAPIBase false
                       "Error interno del servidor al buscar eventos"
                       UNKNOWN_ERROR (Some e))),
         mkWorld (console w2 ++ [console_error_entry "Error al buscar eventos:" e])
                 (issued w2) (db w2))
    end.
Proof.
  intros VL VO VM VA. rewrite handler_run. fold limit offset mes año.
  apply limiteValido_dec in VL. apply offsetValido_dec in VO.
  apply fueraDeRango_dec in VM. apply fueraDeRango_dec in VA.
  rewrite VL, VO, VM, VA. reflexivity.
Qed.

(** C5.  When the parameters pass validation and the search returns no
    events, the endpoint answers with status 404 and a body with
    [success: true], a message that says no events were found, [data: []]
    and [total: 0], whatever total the search had counted; in particular
    when the database answers the find with an empty list or with [null].
    With events the answer is a 200 that carries them and the total. *)
Theorem sin_eventos_responde_404 :
  limiteValido limit -> offsetValido offset -> mesValido mes -> añoValido año ->
  let mensaje :=
    match mes with
    | Some m => "No se encontraron eventos para el mes "
                ++ num_toString m ++ delAño año
    | None => "No se encontraron eventos en el sistema"
    end in
  let F := filtroComun env mes año in
  (forall r w2,
     buscarEventos connector env (mkParams mes año limit offset)
       (RDP03_INSTANCE req) (recibidos req w) = (Returns r, w2) ->
     eventos r = [] ->
     handler connector env Number req w
     = (Returns (mkResponse 404 (GetEventosSuccessResponse true mensaje [] 0)),
        w2)) /\
  (forall t d1 raws d2,
     connector TNumber (RDP03_INSTANCE req) (operacionContar F) Responsable (db w)
     = (Returns t, d1) ->
     connector TAnyArray (RDP03_INSTANCE req) (operacionBuscar F offset limit)
       Responsable d1 = (Returns raws, d2) ->
     or_empty raws = [] ->
     fst (handler connector env Number req w)
     = Returns (mkResponse 404 (GetEventosSuccessResponse true mensaje [] 0))) /\
  mensaje <> "" /\
  (forall r w2,
     buscarEventos connector env (mkParams mes año limit offset)
       (RDP03_INSTANCE req) (recibidos req w) = (Returns r, w2) ->
     eventos r <> [] ->
     exists message,
       handler connector env Number req w
       = (Returns (mkResponse 200
                     (GetEventosSuccessResponse true message (eventos r) (total r))),
          w2)).
Proof.
  intros VL VO VM VA mensaje F.
  split; [ | split; [ | split]].
  - intros r w2 E Hr.
    rewrite handler_validos by assumption. rewrite E, Hr. reflexivity.
  - intros t d1 raws d2 E1 E2 Hr.
    rewrite handler_validos by assumption.
    destruct (buscarEventos_returns connector env (mkParams mes año limit offset)
                (RDP03_INSTANCE req) (recibidos req w) t raws d1 d2 E1 E2)
      as (evs & E & R).
    { rewrite Hr. constructor. }
    rewrite Hr in R. inversion R; subst. rewrite E. reflexivity.
  - unfold mensaje. destruct mes; discriminate.
  - intros r w2 E Hr.
    rewrite handler_validos by assumption. rewrite E.
    destruct (eventos r) as [| ev rest] eqn:Er; [contradiction | ].
    eexists. reflexivity.
Qed.

End SinResultados.

(* ================================================================= *)
(** ** Errors of the database *)

Section Errores.

Context {DB : Type}.
Variable connector : Connector DB.
Variable env : JSDate.Env.
Variable instancia : option RDP03.
Variable w : World DB.
Variable e : JSError.

(** C8.  When a database operation throws [e], the query helper that
    issued it throws the same [e], after one [console.error] with [e], and
    issues nothing further: no retry and no partial result.  This holds
    for the count and for the find of the two paginated searches and for
    the single operation of the other four helpers.  When the unified
    search throws [e] under the endpoint, the response is a 500 with
    [success: false], [errorType: UNKNOWN_ERROR] and [details: e]. *)
Theorem errores_registrados_y_relanzados :
  (forall params d1,
     let F := filtroComun env (mes params) (año params) in
     connector TNumber instancia (operacionContar F) Responsable (db w)
     = (Throws e, d1) ->
     buscarEventos connector env params instancia w
     = (Throws e,
        trasError w "Error buscando eventos:" e
          [mkCall instancia (operacionContar F) Responsable] d1)) /\
  (forall params t d1 d2,
     let F := filtroComun env (mes params) (año params) in
     connector TNumber instancia (operacionContar F) Responsable (db w)
     = (Returns t, d1) ->
     connector TAnyArray instancia
       (operacionBuscar F (p_offset params) (p_limit params)) Responsable d1
     = (Throws e, d2) ->
     buscarEventos connector env params instancia w
     = (Throws e,
        trasError w "Error buscando eventos:" e
          [mkCall instancia (operacionContar F) Responsable;
           mkCall instancia
             (operacionBuscar F (p_offset params) (p_limit params)) Responsable]
          d2)) /\
  (forall mes año limit offset d1,
     let F := filtroDelMes env mes año in
     connector TNumber instancia (operacionContar F) Responsable (db w)
     = (Throws e, d1) ->
     buscarEventosPorMes connector env mes año instancia limit offset w
     = (Throws e,
        trasError w "Error buscando eventos por mes:" e
          [mkCall instancia (operacionContar F) Responsable] d1)) /\
  (forall mes año limit offset t d1 d2,
     let F := filtroDelMes env mes año in
     let op := operacionPorMes F (por_defecto offset (Num 0))
                               (por_defecto limit (Num 100)) in
     connector TNumber instancia (operacionContar F) Responsable (db w)
     = (Returns t, d1) ->
     connector TEventosArray instancia op Responsable d1 = (Throws e, d2) ->
     buscarEventosPorMes connector env mes año instancia limit offset w
     = (Throws e,
        trasError w "Error buscando eventos por mes:" e
          [mkCall instancia (operacionContar F) Responsable;
           mkCall instancia op Responsable] d2)) /\
  (forall año d,
     connector TEventosArray instancia
       (operacionSinPaginar (filtroDelAño env año)) Directivo (db w)
     = (Throws e, d) ->
     buscarEventosPorAño connector env año instancia w
     = (Throws e,
        trasError w "Error buscando eventos por año:" e
          [mkCall instancia (operacionSinPaginar (filtroDelAño env año))
                  Directivo] d)) /\
  (forall fechaInicio fechaFin d,
     connector TEventosArray instancia
       (operacionSinPaginar (filtroTraslape fechaInicio fechaFin)) Directivo (db w)
     = (Throws e, d) ->
     buscarEventosPorRango connector fechaInicio fechaFin instancia w
     = (Throws e,
        trasError w "Error buscando eventos por rango:" e
          [mkCall instancia
                  (operacionSinPaginar (filtroTraslape fechaInicio fechaFin))
                  Directivo] d)) /\
  (forall idEvento d,
     connector TEvento instancia (operacionPorId idEvento) Responsable (db w)
     = (Throws e, d) ->
     buscarEventoPorId connector idEvento instancia w
     = (Throws e,
        trasError w "Error buscando evento por ID:" e
          [mkCall instancia (operacionPorId idEvento) Responsable] d)) /\
  (forall mes año d,
     let F := filtroDelMes env mes año in
     connector TNumber instancia (operacionContarMes F) Responsable (db w)
     = (Throws e, d) ->
     contarEventosPorMes connector env mes año instancia w
     = (Throws e,
        trasError w "Error contando eventos por mes:" e
          [mkCall instancia (operacionContarMes F) Responsable] d)) /\
  (forall (Number : string -> JSNumber) (req : Request) w2,
     let limit := parse Number (Limit (query req)) (Num MAXIMA_CANTIDAD_EVENTOS) in
     let offset := parse Number (Offset (query req)) (Num 0) in
     let mes := parseOpt Number (Mes (query req)) in
     let año := parseOpt Number (Año (query req)) in
     limiteValido limit -> offsetValido offset -> mesValido mes -> añoValido año ->
     buscarEventos connector env (mkParams mes año limit offset)
       (RDP03_INSTANCE req) (recibidos req w) = (Throws e, w2) ->
     handler connector env Number req w
     = (Returns (mkResponse 500
                   (ErrorResponseAPIBase false
                      "Error interno del servidor al buscar eventos"
                      UNKNOWN_ERROR (Some e))),
        mkWorld (console w2 ++ [console_error_entry "Error al buscar eventos:" e])
                (issued w2) (db w2))).
Proof.
  split; [intros params d1 F H; now apply buscarEventos_count_throws | ].
  split; [intros params t d1 d2 F H1 H2;
          now apply buscarEventos_find_throws with (t := t) (d1 := d1) | ].
  split; [intros mes año limit offset d1 F H;
          rewrite buscarEventosPorMes_run; fold F; now rewrite H | ].
  split; [intros mes año limit offset t d1 d2 F op H1 H2;
          rewrite buscarEventosPorMes_run; fold F op; now rewrite H1, H2 | ].
  split; [intros año d H; rewrite buscarEventosPorAño_run; now rewrite H | ].
  split; [intros fi ff d H; rewrite buscarEventosPorRango_run; now rewrite H | ].
  split; [intros idEvento d H; rewrite buscarEventoPorId_run; now rewrite H | ].
  split; [intros mes año d F H; rewrite contarEventosPorMes_run; fold F;
          now rewrite H | ].
  intros Number req w2 limit offset mes año VL VO VM VA H.
  rewrite handler_validos by assumption.
  fold limit offset mes año. now rewrite H.
Qed.

(** C10 (as amended).  When the database answers [null], the helpers that
    return events return the empty list and those that return a count
    return 0; when it answers a list or a number, they return that list
    and that number.  Every event of the unified search is made of a
    document: the string form of its [_id] as [Id_Evento], and its name
    and two dates.  The lookup by identifier has no default: it returns
    what the database answered, [null] included. *)
Theorem valores_por_defecto :
  (forall params t raws d1 d2,
     let F := filtroComun env (mes params) (año params) in
     connector TNumber instancia (operacionContar F) Responsable (db w)
     = (Returns t, d1) ->
     connector TAnyArray instancia
       (operacionBuscar F (p_offset params) (p_limit params)) Responsable d1
     = (Returns raws, d2) ->
     Forall tieneId (match raws with Some l => l | None => [] end) ->
     exists r,
       fst (buscarEventos connector env params instancia w) = Returns r /\
       Forall2 esTransformado (match raws with Some l => l | None => [] end)
               (eventos r) /\
       total r = match t with Some n => n | None => 0 end /\
       (raws = None -> eventos r = []) /\
       (t = None -> total r = 0)) /\
  (forall mes año limit offset t evs d1 d2,
     let F := filtroDelMes env mes año in
     connector TNumber instancia (operacionContar F) Responsable (db w)
     = (Returns t, d1) ->
     connector TEventosArray instancia
       (operacionPorMes F (por_defecto offset (Num 0)) (por_defecto limit (Num 100)))
       Responsable d1 = (Returns evs, d2) ->
     fst (buscarEventosPorMes connector env mes año instancia limit offset w)
     = Returns (mkResultado (match evs with Some l => l | None => [] end)
                            (match t with Some n => n | None => 0 end))) /\
  (forall año evs d,
     connector TEventosArray instancia
       (operacionSinPaginar (filtroDelAño env año)) Directivo (db w)
     = (Returns evs, d) ->
     fst (buscarEventosPorAño connector env año instancia w)
     = Returns (match evs with Some l => l | None => [] end)) /\
  (forall fechaInicio fechaFin evs d,
     connector TEventosArray instancia
       (operacionSinPaginar (filtroTraslape fechaInicio fechaFin)) Directivo (db w)
     = (Returns evs, d) ->
     fst (buscarEventosPorRango connector fechaInicio fechaFin instancia w)
     = Returns (match evs with Some l => l | None => [] end)) /\
  (forall mes año count d,
     connector TNumber instancia
       (operacionContarMes (filtroDelMes env mes año)) Responsable (db w)
     = (Returns count, d) ->
     fst (contarEventosPorMes connector env mes año instancia w)
     = Returns (match count with Some n => n | None => 0 end)) /\
  (forall idEvento evento d,
     connector TEvento instancia (operacionPorId idEvento) Responsable (db w)
     = (Returns evento, d) ->
     fst (buscarEventoPorId connector idEvento instancia w) = Returns evento).
Proof.
  assert (C : forall t, count_or_0 t = match t with Some n => n | None => 0 end).
  { intros [n |]; [ | reflexivity]. unfold count_or_0.
    destruct (Z.eqb_spec n 0); congruence. }
  split.
  { intros params t raws d1 d2 F H1 H2 Hid.
    destruct (buscarEventos_returns connector env params instancia w t raws d1 d2
                H1 H2 Hid) as (evs & E & R).
    exists (mkResultado evs (count_or_0 t)). rewrite E.
    split; [reflexivity | ]. split; [exact R | ]. split; [apply C | ].
    split.
    - intros ->. cbn in R. now inversion R.
    - intros ->. reflexivity. }
  split; [intros mes año limit offset t evs d1 d2 F H1 H2;
          rewrite buscarEventosPorMes_run; fold F; rewrite H1, H2; cbn [fst];
          rewrite C; reflexivity | ].
  split; [intros año evs d H; rewrite buscarEventosPorAño_run; now rewrite H | ].
  split; [intros fi ff evs d H; rewrite buscarEventosPorRango_run; now rewrite H | ].
  split; [intros mes año count d H; rewrite contarEventosPorMes_run; rewrite H;
          cbn [fst]; now rewrite C | ].
  intros idEvento evento d H. rewrite buscarEventoPorId_run. now rewrite H.
Qed.

End Errores.

(* ================================================================= *)
(** ** The statements on concrete requests *)

Lemma coleccion35_tieneId : Forall tieneId coleccion35.
Proof.
  apply Forall_forall. intros raw Hin. unfold coleccion35 in Hin.
  apply in_map_iff in Hin. destruct Hin as (n & <- & _).
  unfold tieneId. discriminate.
Qed.

Lemma limite_por_defecto_valido (Number : string -> JSNumber) :
  limiteValido (parse Number None (Num MAXIMA_CANTIDAD_EVENTOS)).
Proof. exists 100. split; [reflexivity | lia]. Qed.

Lemma offset_por_defecto_valido (Number : string -> JSNumber) :
  offsetValido (parse Number None (Num 0)).
Proof. exists 0. split; [reflexivity | lia]. Qed.

Lemma sin_mes_valido (Number : string -> JSNumber) : mesValido (parseOpt Number None).
Proof. intros n H. discriminate. Qed.

Lemma sin_año_valido (Number : string -> JSNumber) : añoValido (parseOpt Number None).
Proof. intros n H. discriminate. Qed.

(** [Limit=0] is rejected before the database is reached. *)
Lemma limite_cero_rechazado :
  ~ limiteValido (parse NumberDecimal (Some "0") (Num MAXIMA_CANTIDAD_EVENTOS)) /\
  handler Referencia.connector Lima NumberDecimal
    (peticion None None (Some "0") None) (mundoVacio coleccion35)
  = (Returns (rechazo "El límite debe ser un número entre 1 y 100"),
     recibidos (peticion None None (Some "0") None) (mundoVacio coleccion35)).
Proof.
  pose (req := peticion None None (Some "0") None).
  assert (H : ~ limiteValido
                (parse NumberDecimal (Limit (query req)) (Num MAXIMA_CANTIDAD_EVENTOS))).
  { intros (z & Hz & Hr). vm_compute in Hz. injection Hz as <-. lia. }
  split; [exact H | ].
  exact (proj1 (validacion_de_parametros Referencia.connector Lima NumberDecimal
                  req (mundoVacio coleccion35)) H).
Defined.

(** The five rejections of the spec: each is a 400 with
    [INVALID_PARAMETERS] and [success: false], and the trace of database
    operations stays empty. *)
Example cinco_rechazos :
  let correr req :=
    handler Referencia.connector Lima NumberDecimal req (mundoVacio coleccion35) in
  let rechazada (r : Outcome Response * World Referencia.Coleccion) :=
    match fst r with
    | Returns resp =>
        status resp = 400 /\ body_success (json resp) = false /\
        body_errorType (json resp) = Some INVALID_PARAMETERS /\
        issued (snd r) = []
    | Throws _ => False
    end in
  rechazada (correr (peticion None None (Some "0") None)) /\
  rechazada (correr (peticion None None (Some "101") None)) /\
  rechazada (correr (peticion None None None (Some "-1"))) /\
  rechazada (correr (peticion (Some "13") None None None)) /\
  rechazada (correr (peticion None (Some "1800") None None)) /\
  rechazada (correr (peticion None None (Some "abc") None)).
Proof. vm_compute. repeat split. Qed.

(** A request for February 2024 on a collection without events in that
    month is answered 404 with [success: true]. *)
Lemma febrero_sin_eventos :
  handler Referencia.connector Lima NumberDecimal
    (peticion (Some "2") (Some "2024") None None) (mundoVacio coleccion35)
  = (Returns (mkResponse 404
                (GetEventosSuccessResponse true
                   "No se encontraron eventos para el mes 2 del año 2024" [] 0)),
     snd (buscarEventos Referencia.connector Lima
            (mkParams (Some (Num 2)) (Some (Num 2024)) (Num 100) (Num 0))
            (Some "RDP03_INS1")
            (recibidos (peticion (Some "2") (Some "2024") None None)
                       (mundoVacio coleccion35)))).
Proof.
  pose (req := peticion (Some "2") (Some "2024") None None).
  assert (VL : limiteValido
                 (parse NumberDecimal (Limit (query req)) (Num MAXIMA_CANTIDAD_EVENTOS)))
    by apply limite_por_defecto_valido.
  assert (VO : offsetValido (parse NumberDecimal (Offset (query req)) (Num 0)))
    by apply offset_por_defecto_valido.
  assert (VM : mesValido (parseOpt NumberDecimal (Mes (query req)))).
  { intros n H. vm_compute in H. injection H as <-. exists 2. split; [reflexivity | lia]. }
  assert (VA : añoValido (parseOpt NumberDecimal (Año (query req)))).
  { intros n H. vm_compute in H. injection H as <-.
    exists 2024. split; [reflexivity | lia]. }
  destruct (sin_eventos_responde_404 Referencia.connector Lima NumberDecimal req
              (mundoVacio coleccion35) VL VO VM VA) as (H & _).
  refine (H (mkResultado [] 0) _ _ _); vm_compute; reflexivity.
Defined.

(** Thirty-five events, limit 10, offset 20: the records 21 to 30 in start
    order (they start at 21000, ..., 30000) and total 35. *)
Lemma pagina_tres_de_35 :
  (Forall tieneId coleccion35 /\ 0 <= 10) /\
  exists evs,
    fst (buscarEventos Referencia.connector Lima
           (mkParams None None (Num 10) (Num 20)) None (mundoVacio coleccion35))
    = Returns (mkResultado evs 35) /\
    List.length evs = 10%nat /\
    map Fecha_Inicio evs
    = map Some [21000; 22000; 23000; 24000; 25000;
                26000; 27000; 28000; 29000; 30000] /\
    forall i, (i < 10)%nat ->
      exists raw ev,
        nth_error (enOrden F_vacio coleccion35) (20 + i) = Some raw /\
        nth_error evs i = Some ev /\ esTransformado raw ev.
Proof.
  assert (H1 : 0 <= 10) by lia.
  split; [split; [apply coleccion35_tieneId | exact H1] | ].
  destruct (proj2 paginacion_de_la_busqueda Lima None None (Num 20) 10 None
              (mundoVacio coleccion35) coleccion35_tieneId H1)
    as (evs & E & _ & _ & _ & _ & _ & _ & _ & H35).
  destruct (H35 eq_refl eq_refl eq_refl) as (Hlen & Hnth).
  exists evs.
  split; [exact E | ]. split; [exact Hlen | ]. split; [ | exact Hnth].
  vm_compute in E. injection E as <-. reflexivity.
Defined.

(** C6 as stated fails for a unified search whose limit is negative or
    not a number, and for one that meets a document without its [_id].
    With limit -1 on the thirty-five events the search returns a list, so
    more than [limit] events; with a limit that is not a number it returns
    all thirty-five; and when the second of two stored documents has no
    [_id] it returns no events and no total: it throws. *)
Lemma pagina_con_limite_negativo :
  (exists evs,
     fst (buscarEventos Referencia.connector Lima
            (mkParams None None (Num (-1)) (Num 0)) None (mundoVacio coleccion35))
     = Returns (mkResultado evs 35) /\
     ~ Z.of_nat (List.length evs) <= -1) /\
  (exists evs,
     fst (buscarEventos Referencia.connector Lima
            (mkParams None None NaN (Num 0)) None (mundoVacio coleccion35))
     = Returns (mkResultado evs 35) /\
     List.length evs = 35%nat) /\
  (exists message,
     fst (buscarEventos Referencia.connector Lima
            (mkParams None None (Num 10) (Num 0)) None
            (mundoVacio [documento_entre 1 1000 1500;
                         documento_sin_id 2 2000 2500]))
     = Throws (TypeError message)).
Proof.
  split; [ | split].
  - eexists. split; [vm_compute; reflexivity | ]. cbn. lia.
  - eexists. split; [vm_compute; reflexivity | reflexivity].
  - eexists. vm_compute. reflexivity.
Qed.

(** Without a month, all thirty-five events count, whatever the year. *)
Lemma todos_los_eventos_sin_mes :
  exists evs,
    fst (buscarEventos Referencia.connector Lima
           (mkParams None (Some (Num 2024)) (Num 100) (Num 0)) None
           (mundoVacio coleccion35))
    = Returns (mkResultado evs 35) /\
    List.length evs = 35%nat.
Proof.
  assert (H0 : 0 <= 0) by lia. assert (H1 : 1 <= 100) by lia.
  destruct sin_mes_no_hay_filtro as (_ & _ & _ & _ & H).
  destruct (H Lima (Some (Num 2024)) 0 100 None (mundoVacio coleccion35)
              coleccion35_tieneId H0 H1) as (evs & E & _ & _).
  exists evs. split; [exact E | ].
  vm_compute in E. injection E as <-. reflexivity.
Defined.

(** With the database down, the unified search throws the connector's
    error after logging it, and the endpoint answers 500 with that error
    in [details]. *)
Lemma base_de_datos_caida :
  buscarEventos connectorCaido Lima (mkParams None None (Num 100) (Num 0)) None
    (mundoVacio tt)
  = (Throws (MongoError "connection refused"),
     mkWorld [console_error_entry "Error buscando eventos:"
                (MongoError "connection refused")]
             [mkCall None (operacionContar F_vacio) Responsable] tt) /\
  fst (handler connectorCaido Lima NumberDecimal (peticion None None None None)
         (mundoVacio tt))
  = Returns (mkResponse 500
               (ErrorResponseAPIBase false
                  "Error interno del servidor al buscar eventos"
                  UNKNOWN_ERROR (Some (MongoError "connection refused")))).
Proof.
  pose (e := MongoError "connection refused").
  destruct (errores_registrados_y_relanzados connectorCaido Lima
              (Some "RDP03_INS1") (mundoVacio tt) e) as (_ & _ & _ & _ & _ & _ & _ & _ & H).
  destruct (errores_registrados_y_relanzados connectorCaido Lima
              None (mundoVacio tt) e) as (H1 & _).
  split.
  - exact (H1 (mkParams None None (Num 100) (Num 0)) tt eq_refl).
  - rewrite (H NumberDecimal (peticion None None None None)
               (snd (buscarEventos connectorCaido Lima
                       (mkParams None None (Num 100) (Num 0)) (Some "RDP03_INS1")
                       (recibidos (peticion None None None None)
                                  (mundoVacio tt))))
               (limite_por_defecto_valido _) (offset_por_defecto_valido _)
               (sin_mes_valido _) (sin_año_valido _) eq_refl).
    reflexivity.
Defined.

(** A valid year without a month: the response and the database calls
    are those of the request without the year; the two consoles differ,
    in the line that logs the received parameters. *)
Lemma anio_2024_sin_mes :
  añoValido (parseOpt NumberDecimal (Some "2024")) /\
  fst (handler Referencia.connector Lima NumberDecimal
         (mkRequest (mkQuery None (Some "2024") None None) None)
         (mundoVacio coleccion35))
  = fst (handler Referencia.connector Lima NumberDecimal
           (mkRequest (mkQuery None None None None) None)
           (mundoVacio coleccion35)) /\
  issued (snd (handler Referencia.connector Lima NumberDecimal
                 (mkRequest (mkQuery None (Some "2024") None None) None)
                 (mundoVacio coleccion35)))
  = issued (snd (handler Referencia.connector Lima NumberDecimal
                   (mkRequest (mkQuery None None None None) None)
                   (mundoVacio coleccion35))) /\
  console (snd (handler Referencia.connector Lima NumberDecimal
                  (mkRequest (mkQuery None (Some "2024") None None) None)
                  (mundoVacio coleccion35)))
  <> console (snd (handler Referencia.connector Lima NumberDecimal
                     (mkRequest (mkQuery None None None None) None)
                     (mundoVacio coleccion35))).
Proof.
  assert (VA : añoValido (parseOpt NumberDecimal (Some "2024"))).
  { intros n H. vm_compute in H. injection H as <-.
    exists 2024. split; [reflexivity | lia]. }
  split; [exact VA | ].
  destruct anio_sin_mes_no_tiene_efecto as (_ & _ & H).
  destruct (H _ Referencia.connector Lima NumberDecimal None "2024" None None None
              (mundoVacio coleccion35) eq_refl VA)
    as (E1 & E2 & _ & resto & C1 & C2).
  split; [exact E1 | ]. split; [exact E2 | ].
  rewrite C1, C2. cbn [mundoVacio console app].
  intros Heq. injection Heq as Heq. discriminate Heq.
Defined.

(** When the database answers [null] to the count and to the find, the
    month search returns no events and total 0. *)
Lemma busqueda_por_mes_con_null :
  fst (buscarEventosPorMes connectorNulo Lima (Num 2) (Some (Num 2024)) None
         (Some (Num 100)) (Some (Num 0)) (mundoVacio tt))
  = Returns (mkResultado [] 0).
Proof.
  destruct (valores_por_defecto connectorNulo Lima None (mundoVacio tt))
    as (_ & H & _).
  exact (H (Num 2) (Some (Num 2024)) (Some (Num 100)) (Some (Num 0)) None None
           tt tt eq_refl eq_refl).
Defined.

(** C10 as stated fails for the lookup by identifier: when the database
    answers [null], [buscarEventoPorId] returns [null], while the searches
    and the count on the same database return their defaults. *)
Lemma buscarEventoPorId_devuelve_null :
  fst (buscarEventoPorId connectorNulo 7 None (mundoVacio tt)) = Returns None /\
  fst (buscarEventos connectorNulo Lima (mkParams None None (Num 100) (Num 0))
         None (mundoVacio tt))
  = Returns (mkResultado [] 0) /\
  fst (contarEventosPorMes connectorNulo Lima (Num 2) None None (mundoVacio tt))
  = Returns 0.
Proof. repeat split. Qed.

(** The conversions on sample values. *)
Example conversiones :
  decimal 100 = "100" /\
  ObjectId_toString 255%N = "0000000000000000000000ff" /\
  NumberDecimal "101" = Num 101 /\
  NumberDecimal "-1" = Num (-1) /\
  NumberDecimal "abc" = NaN /\
  JSDate.isLeap 2024 = true /\ JSDate.isLeap 1900 = false /\
  JSDate.isLeap 2000 = true.
Proof. repeat split. Qed.

(** A request for the third page of thirty-five events is answered 200
    with ten events and total 35. *)
Example tercera_pagina :
  match fst (handler Referencia.connector Lima NumberDecimal
               (peticion None None (Some "10") (Some "20"))
               (mundoVacio coleccion35)) with
  | Returns (mkResponse 200 (GetEventosSuccessResponse true message data 35)) =>
      message = "Se encontraron 10 evento(s) de 35 totales (eventos más antiguos)"
      /\ List.length data = 10%nat
  | _ => False
  end.
Proof. vm_compute. split; reflexivity. Qed.

(* ================================================================= *)
(** * Further properties *)

(** ** Every run of the handler *)

Section CasosDelManejador.

Context {DB : Type}.
Variable connector : Connector DB.
Variable env : JSDate.Env.
Variable Number : string -> JSNumber.
Variable req : Request.
Variable w : World DB.

Let limit := parse Number (Limit (query req)) (Num MAXIMA_CANTIDAD_EVENTOS).
Let offset := parse Number (Offset (query req)) (Num 0).
Let mes := parseOpt Number (Mes (query req)).
Let año := parseOpt Number (Año (query req)).
Let F := filtroComun env mes año.
Let contar := llamadaContar (RDP03_INSTANCE req) F.
Let buscar := llamadaBuscar (RDP03_INSTANCE req) F offset limit.

(** The handler ends in one of four ways: a rejection, with nothing but
    the log of the parameters; an answer without events; an answer with
    events; a failure, with the error logged by the search and by the
    handler. *)
Lemma handler_casos :
  (exists message,
     handler connector env Number req w
     = (Returns (rechazo message), recibidos req w)) \/
  (exists message d,
     handler connector env Number req w
     = (Returns (mkResponse 404 (GetEventosSuccessResponse true message [] 0)),
        mkWorld (console w ++ [parametrosRecibidos req])
                (issued w ++ [contar; buscar]) d)) \/
  (exists message ev evs total d,
     handler connector env Number req w
     = (Returns (mkResponse 200
                   (GetEventosSuccessResponse true message (ev :: evs) total)),
        mkWorld (console w ++ [parametrosRecibidos req])
                (issued w ++ [contar; buscar]) d)) \/
  (exists e calls d,
     (calls = [contar] \/ calls = [contar; buscar]) /\
     handler connector env Number req w
     = (Returns (mkResponse 500
                   (ErrorResponseAPIBase false
                      "Error interno del servidor al buscar eventos"
                      UNKNOWN_ERROR (Some e))),
        mkWorld (console w ++ consolaDeFallo req e) (issued w ++ calls) d)).
Proof.
  rewrite handler_run. fold limit offset mes año.
  destruct (isNaN limit || num_lt limit (Num 1)
            || num_gt limit (Num MAXIMA_CANTIDAD_EVENTOS)); [left; eauto | ].
  destruct (isNaN offset || num_lt offset (Num 0)); [left; eauto | ].
  destruct (fueraDeRango mes 1 12); [left; eauto | ].
  destruct (fueraDeRango año 1900 2100); [left; eauto | ].
  right.
  assert (Hfail : forall e calls d,
            (mkWorld
               (console (trasError (recibidos req w) "Error buscando eventos:" e calls d)
                ++ [console_error_entry "Error al buscar eventos:" e])
               (issued (trasError (recibidos req w) "Error buscando eventos:" e calls d))
               (db (trasError (recibidos req w) "Error buscando eventos:" e calls d)))
            = mkWorld (console w ++ consolaDeFallo req e) (issued w ++ calls) d).
  { intros e calls d. unfold trasError, recibidos, consolaDeFallo.
    cbn [console issued db]. rewrite <- !app_assoc. reflexivity. }
  destruct (buscarEventos_cases connector env (mkParams mes año limit offset)
              (RDP03_INSTANCE req) (recibidos req w))
    as [(e & d1 & _ & E) | [(t & d1 & e & d2 & _ & _ & E)
       | [(t & d1 & raws & d2 & evs & _ & _ & _ & E)
       | (t & d1 & raws & d2 & e & _ & _ & _ & E)]]];
    rewrite E; clear E.
  - right. right. exists e, [contar], d1. split; [auto | ].
    rewrite Hfail. reflexivity.
  - right. right. exists e, [contar; buscar], d2. split; [auto | ].
    rewrite Hfail. reflexivity.
  - cbn [eventos total]. destruct evs as [| ev evs].
    + left. eexists _, d2. reflexivity.
    + right. left. eexists _, ev, evs, _, d2. reflexivity.
  - right. right. exists e, [contar; buscar], d2. split; [auto | ].
    rewrite Hfail. reflexivity.
Qed.

End CasosDelManejador.

Section RespuestasDelManejador.

Context {DB : Type}.
Variable connector : Connector DB.
Variable env : JSDate.Env.
Variable Number : string -> JSNumber.
Variable req : Request.
Variable w : World DB.

(** X1.  Whatever the request and whatever the database does, the handler
    returns a response and throws nothing.  The status is 200, 400, 404 or
    500; [success] is true exactly for 200 and 404; the error type is
    [INVALID_PARAMETERS] exactly for 400 and [UNKNOWN_ERROR] exactly for
    500, and only a 500 carries [details]; a 200 carries at least one
    event, a 404 carries none and total 0. *)
Theorem handler_siempre_responde :
  exists resp w',
    handler connector env Number req w = (Returns resp, w') /\
    (status resp = 200 \/ status resp = 400 \/ status resp = 404 \/
     status resp = 500) /\
    (body_success (json resp) = true <-> status resp = 200 \/ status resp = 404) /\
    (body_errorType (json resp) = Some INVALID_PARAMETERS <-> status resp = 400) /\
    (body_errorType (json resp) = Some UNKNOWN_ERROR <-> status resp = 500) /\
    match json resp with
    | GetEventosSuccessResponse _ _ data total =>
        (status resp = 200 -> data <> []) /\
        (status resp = 404 -> data = [] /\ total = 0)
    | ErrorResponseAPIBase _ _ _ details =>
        details <> None <-> status resp = 500
    end.
Proof.
  destruct (handler_casos connector env Number req w)
    as [(m & E) | [(m & d & E) | [(m & ev & evs & t & d & E)
       | (e & calls & d & _ & E)]]];
    rewrite E; eexists _, _; (split; [reflexivity | ]); cbn;
    repeat split; intros; try lia; try discriminate; try congruence;
    try tauto;
    repeat match goal with
           | H : _ \/ _ |- _ => destruct H
           end; try lia; try discriminate; auto.
Qed.

(** X2.  What a request leaves behind.  The console gains the log of the
    parameters and, only when the answer is a 500, the error twice: once
    from the search and once from the handler, the same error that the
    response carries in [details].  The database sees no call for a 400;
    for a 200 or a 404 the count and then the find; for a 500 the count, or
    the count and then the find.  The count is the [countDocuments] on the
    filter of the converted month and year, the find the [find] on the same
    filter with the converted offset and limit; every call is on the
    collection [T_Eventos], for the instance of the request, with the role
    [Responsable]. *)
Theorem handler_consola_y_llamadas :
  let limit := parse Number (Limit (query req)) (Num MAXIMA_CANTIDAD_EVENTOS) in
  let offset := parse Number (Offset (query req)) (Num 0) in
  let mes := parseOpt Number (Mes (query req)) in
  let año := parseOpt Number (Año (query req)) in
  let contar :=
    mkCall (RDP03_INSTANCE req)
      (mkOp countDocuments "T_Eventos" (filtroComun env mes año) None)
      Responsable in
  let buscar :=
    mkCall (RDP03_INSTANCE req)
      (mkOp find "T_Eventos" (filtroComun env mes año)
         (Some (mkOptions (Some ("Fecha_Inicio", 1)) (Some offset) (Some limit)
                          proyeccionConId)))
      Responsable in
  exists resp w' calls entradas,
    handler connector env Number req w = (Returns resp, w') /\
    issued w' = (issued w ++ calls)%list /\
    console w'
    = (console w ++ parametrosRecibidos req :: entradas)%list /\
    (List.length calls <= 2)%nat /\
    Forall (fun c => call_instancia c = RDP03_INSTANCE req /\
                     call_rol c = Responsable /\
                     collection (call_operacion c) = "T_Eventos") calls /\
    (status resp = 400 -> calls = [] /\ entradas = [] /\ db w' = db w) /\
    (status resp = 200 \/ status resp = 404 ->
     entradas = [] /\ calls = [contar; buscar]) /\
    (status resp = 500 ->
     exists e,
       json resp = ErrorResponseAPIBase false
                     "Error interno del servidor al buscar eventos"
                     UNKNOWN_ERROR (Some e) /\
       entradas = [console_error_entry "Error buscando eventos:" e;
                   console_error_entry "Error al buscar eventos:" e] /\
       (calls = [contar] \/ calls = [contar; buscar])).
Proof.
  intros limit offset mes año contar buscar.
  destruct (handler_casos connector env Number req w)
    as [(m & E) | [(m & d & E) | [(m & ev & evs & t & d & E)
       | (e & calls & d & Hc & E)]]]; rewrite E.
  - exists (rechazo m), (recibidos req w), [], [].
    split; [reflexivity | ]. split; [cbn; now rewrite app_nil_r | ].
    split; [reflexivity | ]. split; [cbn; lia | ]. split; [constructor | ].
    cbn. repeat split; intros; try lia; try discriminate; auto.
  - eexists _, _, _, []. split; [reflexivity | ].
    split; [reflexivity | ]. split; [reflexivity | ]. split; [cbn; lia | ].
    split; [repeat constructor | ].
    cbn. repeat split; intros; try lia; try discriminate; eauto.
  - eexists _, _, _, []. split; [reflexivity | ].
    split; [reflexivity | ]. split; [reflexivity | ]. split; [cbn; lia | ].
    split; [repeat constructor | ].
    cbn. repeat split; intros; try lia; try discriminate; eauto.
  - eexists _, _, calls, _. split; [reflexivity | ].
    split; [reflexivity | ]. split; [reflexivity | ].
    split; [destruct Hc; subst; cbn; lia | ].
    split; [destruct Hc; subst; repeat constructor | ].
    cbn. split; [intros; lia | ]. split; [intros [H | H]; lia | ].
    intros _. exists e. split; [reflexivity | ]. split; [reflexivity | ].
    exact Hc.
Qed.

End RespuestasDelManejador.

(* ================================================================= *)
(** ** A document without its [_id] *)

Lemma mapM_transformar_error {DB} (raws : list Raw.t) (w w' : World DB) (e : JSError) :
  mapM (@transformar DB) raws w = (Throws e, w') ->
  exists message, e = TypeError message.
Proof.
  induction raws as [| raw rest IH]; intros H; [discriminate | ].
  rewrite mapM_cons, transformar_run in H.
  destruct (Raw._id raw) as [oid |].
  - destruct (mapM transformar rest w) as [[evs | e'] w''] eqn:E;
      [discriminate | ].
    injection H as <- <-. now apply IH.
  - injection H as <- <-. eauto.
Qed.

Section SinId.

Context {DB : Type}.
Variable connector : Connector DB.
Variable env : JSDate.Env.

(** X3.  If the find answers with a list in which one document has no
    [_id], the unified search returns no event at all: it throws a
    TypeError after having issued the count and the find, and logs it
    once; under the endpoint, with valid parameters, the answer is a 500
    with that TypeError in [details]. *)
Theorem documento_sin_id_es_error :
  (forall (params : BuscarEventosParams) (inst : option RDP03) (w : World DB)
          t raws d1 d2,
     let F := filtroComun env (mes params) (año params) in
     connector TNumber inst (operacionContar F) Responsable (db w)
     = (Returns t, d1) ->
     connector TAnyArray inst
       (operacionBuscar F (p_offset params) (p_limit params)) Responsable d1
     = (Returns (Some raws), d2) ->
     Exists (fun raw => Raw._id raw = None) raws ->
     exists message,
       buscarEventos connector env params inst w
       = (Throws (TypeError message),
          trasError w "Error buscando eventos:" (TypeError message)
            [llamadaContar inst F;
             llamadaBuscar inst F (p_offset params) (p_limit params)] d2)) /\
  (forall (Number : string -> JSNumber) (req : Request) (w : World DB)
          t raws d1 d2,
     let limit := parse Number (Limit (query req)) (Num MAXIMA_CANTIDAD_EVENTOS) in
     let offset := parse Number (Offset (query req)) (Num 0) in
     let mes := parseOpt Number (Mes (query req)) in
     let año := parseOpt Number (Año (query req)) in
     let F := filtroComun env mes año in
     limiteValido limit -> offsetValido offset -> mesValido mes -> añoValido año ->
     connector TNumber (RDP03_INSTANCE req) (operacionContar F) Responsable (db w)
     = (Returns t, d1) ->
     connector TAnyArray (RDP03_INSTANCE req) (operacionBuscar F offset limit)
       Responsable d1 = (Returns (Some raws), d2) ->
     Exists (fun raw => Raw._id raw = None) raws ->
     exists message,
       fst (handler connector env Number req w)
       = Returns (mkResponse 500
                    (ErrorResponseAPIBase false
                       "Error interno del servidor al buscar eventos"
                       UNKNOWN_ERROR (Some (TypeError message))))).
Proof.
  assert (Hbusca : forall (params : BuscarEventosParams) (inst : option RDP03)
            (w : World DB) t raws d1 d2,
     connector TNumber inst
       (operacionContar (filtroComun env (mes params) (año params)))
       Responsable (db w) = (Returns t, d1) ->
     connector TAnyArray inst
       (operacionBuscar (filtroComun env (mes params) (año params))
          (p_offset params) (p_limit params)) Responsable d1
     = (Returns (Some raws), d2) ->
     Exists (fun raw => Raw._id raw = None) raws ->
     exists message,
       buscarEventos connector env params inst w
       = (Throws (TypeError message),
          trasError w "Error buscando eventos:" (TypeError message)
            [llamadaContar inst (filtroComun env (mes params) (año params));
             llamadaBuscar inst (filtroComun env (mes params) (año params))
               (p_offset params) (p_limit params)] d2)).
  { intros params inst w t raws d1 d2 H1 H2 Hex.
    unfold buscarEventos. rewrite try_catch_rethrow.
    unfold bind, executeMongoOperation.
    change (mkOp countDocuments "T_Eventos"
              (filtroComun env (mes params) (año params)) None)
      with (operacionContar (filtroComun env (mes params) (año params))).
    rewrite H1. cbn [db issued console].
    change (mkOp find "T_Eventos" (filtroComun env (mes params) (año params)) _)
      with (operacionBuscar (filtroComun env (mes params) (año params))
              (p_offset params) (p_limit params)).
    rewrite H2. cbn [or_empty].
    match goal with
    | |- context [mapM transformar raws ?w0] =>
        destruct (mapM transformar raws w0) as [[evs | e] w4] eqn:E
    end.
    - apply mapM_transformar_inv in E. destruct E as (_ & _ & T).
      exfalso. apply Exists_exists in Hex. destruct Hex as (raw & Hin & Hid).
      rewrite Forall_forall in T. now apply (T raw Hin).
    - destruct (mapM_transformar_error _ _ _ _ E) as (message & ->).
      apply mapM_transformar_throws in E. destruct E as [-> _].
      exists message. unfold trasError, llamadaContar, llamadaBuscar.
      cbn [db issued console]. rewrite <- app_assoc. reflexivity. }
  split; [exact Hbusca | ].
  intros Number req w t raws d1 d2 limit offset mes año F VL VO VM VA H1 H2 Hex.
  destruct (Hbusca (mkParams mes año limit offset) (RDP03_INSTANCE req)
              (recibidos req w) t raws d1 d2 H1 H2 Hex) as (message & E).
  exists message. rewrite handler_validos by assumption.
  fold limit offset mes año. rewrite E. reflexivity.
Qed.

End SinId.

(** A page of two documents of which the second lacks its [_id]: no event
    is returned, the search throws. *)
Lemma pagina_con_documento_sin_id :
  Exists (fun raw => Raw._id raw = None)
         [documento_entre 1 0 10; documento_sin_id 2 5 15] /\
  exists message,
    fst (buscarEventos
           (connectorFijo 2 [documento_entre 1 0 10; documento_sin_id 2 5 15])
           Lima (mkParams None None (Num 100) (Num 0)) None (mundoVacio tt))
    = Throws (TypeError message).
Proof.
  assert (Hex : Exists (fun raw => Raw._id raw = None)
                       [documento_entre 1 0 10; documento_sin_id 2 5 15])
    by (apply Exists_cons_tl, Exists_cons_hd; reflexivity).
  split; [exact Hex | ].
  destruct (proj1 (documento_sin_id_es_error
                     (connectorFijo 2 [documento_entre 1 0 10; documento_sin_id 2 5 15])
                     Lima)
              (mkParams None None (Num 100) (Num 0)) None (mundoVacio tt)
              (Some 2) [documento_entre 1 0 10; documento_sin_id 2 5 15] tt tt
              eq_refl eq_refl Hex) as (message & E).
  exists message. now rewrite E.
Defined.

(* ================================================================= *)
(** ** Empty parameters and defaults *)

Lemma parse_sinVacio (Number : string -> JSNumber) (P : option string) (d : JSNumber) :
  parse Number (sinVacio P) d = parse Number P d.
Proof. destruct P as [[| c s] |]; reflexivity. Qed.

Lemma parseOpt_sinVacio (Number : string -> JSNumber) (P : option string) :
  parseOpt Number (sinVacio P) = parseOpt Number P.
Proof. destruct P as [[| c s] |]; reflexivity. Qed.

Lemma parse_vacio (Number : string -> JSNumber) (P : option string) (d : JSNumber) :
  vacio P -> parse Number P d = d.
Proof. intros [-> | ->]; reflexivity. Qed.

(** X4.  A query parameter given as the empty string counts as absent: it
    is not converted (the conversion of the empty string would be a
    number), and the response, the database calls and the database are
    those of the request without it; the console differs only in the line
    that logs the parameters as received, where the empty string shows.
    With [Limit] and [Offset] absent or empty and the month and year
    valid, the request is never rejected for its window: the count is
    issued, and the find that follows it asks for [skip: 0] and
    [limit: 100]. *)
Theorem parametro_vacio_es_ausente :
  (forall (DB : Type) (connector : Connector DB) (env : JSDate.Env)
          (Number : string -> JSNumber) (M A L O : option string)
          (inst : option RDP03) (w : World DB),
     let dada := mkRequest (mkQuery M A L O) inst in
     let limpia :=
       mkRequest (mkQuery (sinVacio M) (sinVacio A) (sinVacio L) (sinVacio O))
                 inst in
     fst (handler connector env Number dada w)
     = fst (handler connector env Number limpia w) /\
     issued (snd (handler connector env Number dada w))
     = issued (snd (handler connector env Number limpia w)) /\
     db (snd (handler connector env Number dada w))
     = db (snd (handler connector env Number limpia w)) /\
     exists resto,
       console (snd (handler connector env Number dada w))
       = (console w ++ parametrosRecibidos dada :: resto)%list /\
       console (snd (handler connector env Number limpia w))
       = (console w ++ parametrosRecibidos limpia :: resto)%list) /\
  (forall (DB : Type) (connector : Connector DB) (env : JSDate.Env)
          (Number : string -> JSNumber) (M A L O : option string)
          (inst : option RDP03) (w : World DB),
     vacio L -> vacio O ->
     mesValido (parseOpt Number M) -> añoValido (parseOpt Number A) ->
     let F := filtroComun env (parseOpt Number M) (parseOpt Number A) in
     let w' := snd (handler connector env Number
                      (mkRequest (mkQuery M A L O) inst) w) in
     issued w' = (issued w ++ [llamadaContar inst F])%list \/
     issued w'
     = (issued w ++ [llamadaContar inst F;
                     llamadaBuscar inst F (Num 0) (Num 100)])%list).
Proof.
  split.
  - intros DB connector env Number M A L O inst w dada limpia.
    apply (handler_otro_registro connector env Number dada limpia w);
      cbn [dada limpia query Mes Año Limit Offset RDP03_INSTANCE];
      rewrite ?parse_sinVacio, ?parseOpt_sinVacio; auto.
  - intros DB connector env Number M A L O inst w HL HO VM VA F w'.
    unfold w'. rewrite handler_run.
    cbn [query Mes Año Limit Offset RDP03_INSTANCE].
    rewrite (parse_vacio Number L _ HL), (parse_vacio Number O _ HO).
    apply fueraDeRango_dec in VM. apply fueraDeRango_dec in VA.
    rewrite VM, VA. cbn [isNaN num_lt num_gt orb Z.ltb Z.compare
                         MAXIMA_CANTIDAD_EVENTOS Pos.compare Pos.compare_cont].
    pose proof (buscarEventos_issued connector env
                  (mkParams (parseOpt Number M) (parseOpt Number A)
                            (Num MAXIMA_CANTIDAD_EVENTOS) (Num 0))
                  inst (recibidos (mkRequest (mkQuery M A L O) inst) w)) as I.
    cbn [p_offset p_limit mes año] in I. fold F in I.
    destruct (buscarEventos connector env
                (mkParams (parseOpt Number M) (parseOpt Number A)
                          (Num MAXIMA_CANTIDAD_EVENTOS) (Num 0))
                inst (recibidos (mkRequest (mkQuery M A L O) inst) w))
      as [[r | e] w2]; cbn [snd issued] in *;
      exact I.
Qed.

(** [Limit=] (empty) on the thirty-five events: the first hundred are
    asked for, as without [Limit]; the response is the same, and the
    console shows the empty string where the other shows [undefined]. *)
Lemma limite_vacio_pide_cien :
  (vacio (Some "") /\ vacio None) /\
  issued (snd (handler Referencia.connector Lima NumberDecimal
                 (mkRequest (mkQuery None None (Some "") None) None)
                 (mundoVacio coleccion35)))
  = [llamadaContar None F_vacio; llamadaBuscar None F_vacio (Num 0) (Num 100)] /\
  fst (handler Referencia.connector Lima NumberDecimal
         (mkRequest (mkQuery None None (Some "") None) None)
         (mundoVacio coleccion35))
  = fst (handler Referencia.connector Lima NumberDecimal
           (mkRequest (mkQuery None None None None) None)
           (mundoVacio coleccion35)) /\
  console (snd (handler Referencia.connector Lima NumberDecimal
                  (mkRequest (mkQuery None None (Some "") None) None)
                  (mundoVacio coleccion35)))
  <> console (snd (handler Referencia.connector Lima NumberDecimal
                     (mkRequest (mkQuery None None None None) None)
                     (mundoVacio coleccion35))).
Proof.
  assert (HL : vacio (Some "")) by (right; reflexivity).
  assert (HO : vacio None) by (left; reflexivity).
  split; [split; assumption | ].
  split.
  - destruct (proj2 parametro_vacio_es_ausente _ Referencia.connector Lima
                NumberDecimal None None (Some "") None None
                (mundoVacio coleccion35) HL HO (sin_mes_valido _) (sin_año_valido _))
      as [H | H].
    + vm_compute in H. discriminate.
    + exact H.
  - destruct (proj1 parametro_vacio_es_ausente _ Referencia.connector Lima
                NumberDecimal None None (Some "") None None
                (mundoVacio coleccion35))
      as (E1 & _ & _ & resto & C1 & C2).
    split; [exact E1 | ].
    cbn [sinVacio] in C2. rewrite C1, C2. cbn [mundoVacio console app].
    intros Heq. injection Heq as Heq. discriminate Heq.
Defined.

(* ================================================================= *)
(** ** Calls and roles of the query helpers *)

Section Roles.

Context {DB : Type}.
Variable connector : Connector DB.
Variable env : JSDate.Env.
Variable instancia : option RDP03.
Variable w : World DB.

(** X5.  Whatever the database does, each helper issues its operations on
    the collection [T_Eventos], for the instance it was given, and with
    one role: the year search and the range search issue one [find] as
    [Directivo]; the lookup issues one [findOne] and the count of a month
    one [countDocuments], as [Responsable]; the two paginated searches
    issue a [countDocuments] and then at most one [find], as
    [Responsable].  A helper that returns leaves the console as it was; a
    helper that throws has logged the error it throws, once. *)
Theorem llamadas_y_roles_de_las_consultas :
  (forall params,
     let r := buscarEventos connector env params instancia w in
     consolaTras w r /\
     exists c resto,
       issued (snd r) = (issued w ++ c :: resto)%list /\
       llamadaCon instancia Responsable countDocuments c /\
       (resto = [] \/
        exists b, resto = [b] /\ llamadaCon instancia Responsable find b)) /\
  (forall mes año limit offset,
     let r := buscarEventosPorMes connector env mes año instancia limit offset w in
     consolaTras w r /\
     exists c resto,
       issued (snd r) = (issued w ++ c :: resto)%list /\
       llamadaCon instancia Responsable countDocuments c /\
       (resto = [] \/
        exists b, resto = [b] /\ llamadaCon instancia Responsable find b)) /\
  (forall año,
     let r := buscarEventosPorAño connector env año instancia w in
     consolaTras w r /\
     exists c, issued (snd r) = (issued w ++ [c])%list /\
               llamadaCon instancia Directivo find c) /\
  (forall fechaInicio fechaFin,
     let r := buscarEventosPorRango connector fechaInicio fechaFin instancia w in
     consolaTras w r /\
     exists c, issued (snd r) = (issued w ++ [c])%list /\
               llamadaCon instancia Directivo find c) /\
  (forall idEvento,
     let r := buscarEventoPorId connector idEvento instancia w in
     consolaTras w r /\
     exists c, issued (snd r) = (issued w ++ [c])%list /\
               llamadaCon instancia Responsable findOne c) /\
  (forall mes año,
     let r := contarEventosPorMes connector env mes año instancia w in
     consolaTras w r /\
     exists c, issued (snd r) = (issued w ++ [c])%list /\
               llamadaCon instancia Responsable countDocuments c).
Proof.
  assert (L : forall rol o op,
            collection op = "T_Eventos" -> operation op = o ->
            llamadaCon instancia rol o (mkCall instancia op rol))
    by (intros; repeat split; assumption).
  split; [ | split; [ | split; [ | split; [ | split]]]].
  - intros params r. unfold r.
    destruct (buscarEventos_cases connector env params instancia w)
      as [(e & d1 & _ & E) | [(t & d1 & e & d2 & _ & _ & E)
         | [(t & d1 & raws & d2 & evs & _ & _ & _ & E)
         | (t & d1 & raws & d2 & e & _ & _ & _ & E)]]];
      rewrite E; unfold consolaTras; cbn [fst snd trasError console issued];
      (split; [eauto | ]);
      eexists _, _; (split; [reflexivity | ]);
      (split; [apply L; reflexivity | ]); eauto 6.
  - intros mes año limit offset r. unfold r.
    rewrite buscarEventosPorMes_run.
    destruct (connector TNumber instancia _ Responsable (db w)) as [[t | e] d1].
    + destruct (connector TEventosArray instancia _ Responsable d1)
        as [[evs | e] d2];
        unfold consolaTras;
        cbn [fst snd trasError trasLlamadas console issued];
        (split; [eauto | ]);
        eexists _, _; (split; [reflexivity | ]);
        (split; [apply L; reflexivity | ]); eauto 6.
    + unfold consolaTras; cbn [fst snd trasError console issued].
      split; [eauto | ].
      eexists _, _. split; [reflexivity | ].
      split; [apply L; reflexivity | auto].
  - intros año r. unfold r. rewrite buscarEventosPorAño_run.
    destruct (connector TEventosArray instancia _ Directivo (db w))
      as [[evs | e] d];
      unfold consolaTras; cbn [fst snd trasError trasLlamadas console issued];
      (split; [eauto | ]); eexists; (split; [reflexivity | ]);
      apply L; reflexivity.
  - intros fi ff r. unfold r. rewrite buscarEventosPorRango_run.
    destruct (connector TEventosArray instancia _ Directivo (db w))
      as [[evs | e] d];
      unfold consolaTras; cbn [fst snd trasError trasLlamadas console issued];
      (split; [eauto | ]); eexists; (split; [reflexivity | ]);
      apply L; reflexivity.
  - intros idEvento r. unfold r. rewrite buscarEventoPorId_run.
    destruct (connector TEvento instancia _ Responsable (db w))
      as [[ev | e] d];
      unfold consolaTras; cbn [fst snd trasError trasLlamadas console issued];
      (split; [eauto | ]); eexists; (split; [reflexivity | ]);
      apply L; reflexivity.
  - intros mes año r. unfold r. rewrite contarEventosPorMes_run.
    destruct (connector TNumber instancia _ Responsable (db w))
      as [[c | e] d];
      unfold consolaTras; cbn [fst snd trasError trasLlamadas console issued];
      (split; [eauto | ]); eexists; (split; [reflexivity | ]);
      apply L; reflexivity.
Qed.

End Roles.

(* ================================================================= *)
(** ** The month search and the unified search with a month *)

Section DosBusquedas.

Context {DB : Type}.
Variable connector : Connector DB.
Variable env : JSDate.Env.
Variable instancia : option RDP03.
Variable w : World DB.
Variables (elMes : JSNumber) (elAño : option JSNumber) (limit offset : JSNumber).

(** X6.  For the same month, year, limit and offset, the month search and
    the unified search put the same questions to the database: the same
    count, and after it a find with the same filter, sort, skip and limit;
    only the projection differs.  Whenever both return, they return the
    same total, and when the count throws both throw its error. *)
Theorem busqueda_por_mes_y_busqueda_unificada :
  let porMes :=
    buscarEventosPorMes connector env elMes elAño instancia (Some limit) (Some offset) w in
  let unificada :=
    buscarEventos connector env (mkParams (Some elMes) elAño limit offset) instancia w in
  map sinProyeccion (issued (snd porMes))
  = map sinProyeccion (issued (snd unificada)) /\
  (forall a b, fst porMes = Returns a -> fst unificada = Returns b ->
               total a = total b) /\
  (forall e d,
     connector TNumber instancia (operacionContar (filtroDelMes env elMes elAño))
       Responsable (db w) = (Throws e, d) ->
     fst porMes = Throws e /\ fst unificada = Throws e).
Proof.
  intros porMes unificada.
  pose proof (buscarEventos_cases connector env
                (mkParams (Some elMes) elAño limit offset) instancia w) as C.
  cbn [mes año p_offset p_limit] in C.
  change (filtroComun env (Some elMes) elAño) with (filtroDelMes env elMes elAño) in C.
  unfold porMes. rewrite buscarEventosPorMes_run. cbn [por_defecto].
  fold unificada in C.
  destruct (connector TNumber instancia (operacionContar (filtroDelMes env elMes elAño))
              Responsable (db w)) as [[t | e] d1] eqn:E1.
  - assert (U : issued (snd unificada)
                = (issued w
                   ++ [mkCall instancia (operacionContar (filtroDelMes env elMes elAño))
                              Responsable;
                       mkCall instancia
                              (operacionBuscar (filtroDelMes env elMes elAño) offset limit)
                              Responsable])%list
                /\ forall b, fst unificada = Returns b -> total b = count_or_0 t).
    { destruct C as [(e & d1' & C1 & _) | [(t' & d1' & e & d2 & C1 & _ & E)
         | [(t' & d1' & raws & d2 & evs & C1 & _ & _ & E)
         | (t' & d1' & raws & d2 & e & C1 & _ & _ & E)]]];
        try discriminate; injection C1 as <- <-; rewrite E;
        cbn [fst snd trasError issued];
        (split; [reflexivity | ]); intros b Hb;
        try discriminate.
      injection Hb as <-. reflexivity. }
    destruct U as [U1 U2].
    destruct (connector TEventosArray instancia
                (operacionPorMes (filtroDelMes env elMes elAño) offset limit)
                Responsable d1) as [[evs | e] d2];
      cbn [fst snd trasError trasLlamadas issued]; rewrite U1, !map_app;
      (split; [reflexivity | ]);
      (split; [ | intros; discriminate]); intros a b Ha Hb;
      try discriminate.
    injection Ha as <-. cbn [total]. symmetry. now apply U2.
  - cbn [fst snd trasError issued].
    destruct C as [(e' & d1' & C1 & E) | [(t' & d1' & e' & d2 & C1 & _ & E)
         | [(t' & d1' & raws & d2 & evs & C1 & _ & _ & E)
         | (t' & d1' & raws & d2 & e' & C1 & _ & _ & E)]]];
      try discriminate.
    injection C1 as <- <-. rewrite E. cbn [fst snd trasError issued].
    rewrite !map_app. split; [reflexivity | ].
    split; [intros; discriminate | ].
    intros e0 d0 [= <- <-]. auto.
Qed.

End DosBusquedas.

(* ================================================================= *)
(** ** The instants of a month and of a year *)

Module InstantFacts.
Import JSDate DateFacts.

Lemma monthOfDayWithinYear_range (leap d : Z) :
  0 <= monthOfDayWithinYear leap d <= 11.
Proof.
  unfold monthOfDayWithinYear.
  repeat match goal with
         | |- context [?a <? ?b] => destruct (Z.ltb_spec a b)
         end; lia.
Qed.

Lemma MonthFromTime_range (t : Z) : 0 <= MonthFromTime t <= 11.
Proof. apply monthOfDayWithinYear_range. Qed.

Lemma DaysInMonth_bounds (y mn : Z) : 28 <= DaysInMonth y mn <= 31.
Proof.
  unfold DaysInMonth.
  repeat match goal with
         | |- context [match ?x with _ => _ end] => destruct x
         end; lia.
Qed.

(** The days of the year that fall in month [mn]. *)
Lemma monthOfDayWithinYear_iff (y mn d : Z) :
  0 <= mn <= 11 -> 0 <= d < DaysInYear y ->
  let leap := if isLeap y then 1 else 0 in
  monthOfDayWithinYear leap d = mn <->
  daysBeforeMonth leap mn <= d < daysBeforeMonth leap mn + DaysInMonth y mn.
Proof.
  intros Hmn Hd leap. unfold DaysInYear in Hd.
  pose proof (month_cases mn Hmn) as C.
  unfold monthOfDayWithinYear, leap.
  repeat (destruct C as [C | C]; [subst mn | ]); [.. | subst mn];
    cbn [daysBeforeMonth DaysInMonth]; destruct (isLeap y);
    repeat match goal with
           | |- context [?a <? ?b] => destruct (Z.ltb_spec a b)
           end; lia.
Qed.

Lemma YearFromTime_iff (y t : Z) :
  YearFromTime t = y <->
  DayFromYear y * msPerDay <= t <= DayFromYear (y + 1) * msPerDay - 1.
Proof.
  unfold YearFromTime, Day, msPerDay. split.
  - intros <-. pose proof (yearFromDay_spec (t / 86400000)) as [Slo Shi].
    Z.to_euclidean_division_equations; lia.
  - intros H. apply yearFromDay_unique.
    Z.to_euclidean_division_equations; lia.
Qed.

(** The instants whose year and month are [y] and [mn] are those from
    the first millisecond of day 1 to the last millisecond of the month's
    last day. *)
Lemma instantes_del_mes (y mn t : Z) :
  0 <= mn <= 11 ->
  (YearFromTime t = y /\ MonthFromTime t = mn) <->
  MakeDate (MakeDay y mn 1) (MakeTime 0 0 0 0) <= t
  <= MakeDate (MakeDay y mn (DaysInMonth y mn)) (MakeTime 23 59 59 999).
Proof.
  intros Hmn.
  rewrite !MakeDay_in_month by exact Hmn.
  set (leap := if isLeap y then 1 else 0).
  assert (Hsum : 0 <= daysBeforeMonth leap mn /\
                 daysBeforeMonth leap mn + DaysInMonth y mn <= DaysInYear y).
  { unfold DaysInYear, leap. pose proof (month_cases mn Hmn) as C.
    repeat (destruct C as [C | C]; [subst mn | ]); [.. | subst mn];
      cbn [daysBeforeMonth DaysInMonth]; destruct (isLeap y); lia. }
  pose proof (DaysInMonth_bounds y mn) as Hdim.
  pose proof (DayFromYear_succ y) as Hsucc.
  split.
  - intros [HY HM].
    assert (HYb := proj1 (YearFromTime_iff y t) HY).
    unfold MonthFromTime, InLeapYear, DayWithinYear in HM. rewrite HY in HM.
    fold leap in HM.
    assert (Hd : 0 <= Day t - DayFromYear y < DaysInYear y).
    { unfold Day, msPerDay in *. Z.to_euclidean_division_equations; lia. }
    apply (monthOfDayWithinYear_iff y mn _ Hmn Hd) in HM. fold leap in HM.
    unfold MakeDate, MakeTime, Day, msPerDay, msPerHour, msPerMinute,
      msPerSecond in *.
    Z.to_euclidean_division_equations; lia.
  - intros H.
    assert (HDay : daysBeforeMonth leap mn <= Day t - DayFromYear y
                   < daysBeforeMonth leap mn + DaysInMonth y mn).
    { unfold MakeDate, MakeTime, Day, msPerDay, msPerHour, msPerMinute,
        msPerSecond in *.
      Z.to_euclidean_division_equations; lia. }
    assert (HY : YearFromTime t = y).
    { unfold YearFromTime. apply yearFromDay_unique. rewrite Hsucc. lia. }
    split; [exact HY | ].
    unfold MonthFromTime, InLeapYear, DayWithinYear. rewrite HY. fold leap.
    apply (monthOfDayWithinYear_iff y mn); [exact Hmn | lia | exact HDay].
Qed.

End InstantFacts.

(* ================================================================= *)
(** ** Months, years and the events in them *)

Section MesesYAños.
Import JSDate DateFacts InstantFacts.

Variable env : Env.
Variable tza : Z.
Hypothesis fija : zonaFija env tza.
Hypothesis zona : Z.abs tza <= msPerDay.

Lemma MakeDay_day0_any (y m : Z) :
  MakeDay y m 0
  = MakeDay (y + (m - 1) / 12) ((m - 1) mod 12)
            (DaysInMonth (y + (m - 1) / 12) ((m - 1) mod 12)).
Proof.
  pose proof (Z.mod_pos_bound (m - 1) 12 ltac:(lia)) as Hr.
  rewrite <- (Z.add_simpl_r ((m - 1) mod 12) 1) at 1 2.
  rewrite <- MakeDay_day0 by lia.
  unfold MakeDay.
  assert (Hq : m / 12 = (m - 1) / 12 + ((m - 1) mod 12 + 1) / 12)
    by (Z.to_euclidean_division_equations; lia).
  assert (Hm : m mod 12 = ((m - 1) mod 12 + 1) mod 12)
    by (Z.to_euclidean_division_equations; lia).
  rewrite Hq, Hm, Z.add_assoc. reflexivity.
Qed.

Lemma inicioMes_cualquiera (y m : Z) :
  enteroSeguro m ->
  representable (añoLeido y + (m - 1) / 12) ->
  inicioMes env (Num y) (Num m)
  = Some (MakeDate (MakeDay (añoLeido y + (m - 1) / 12) ((m - 1) mod 12) 1)
                   (MakeTime 0 0 0 0) - tza).
Proof.
  intros Hs Hy. unfold inicioMes, construct3, construct, num_sub.
  rewrite doble_exacto by (unfold enteroSeguro in Hs; lia).
  fold (añoLeido y). rewrite MakeDay_carry.
  pose proof (Z.mod_pos_bound (m - 1) 12 ltac:(lia)) as Hr.
  pose proof (DaysInMonth_bounds (añoLeido y + (m - 1) / 12) ((m - 1) mod 12)).
  apply (TimeClip_in_range env tza); auto; try lia.
  unfold MakeTime, msPerDay. lia.
Qed.

Lemma finMes_cualquiera (y m : Z) :
  representable (añoLeido y + (m - 1) / 12) ->
  finMes env (Num y) (Num m)
  = Some (MakeDate (MakeDay (añoLeido y + (m - 1) / 12) ((m - 1) mod 12)
                      (DaysInMonth (añoLeido y + (m - 1) / 12) ((m - 1) mod 12)))
                   (MakeTime 23 59 59 999) - tza).
Proof.
  intros Hy. unfold finMes, construct3, construct. fold (añoLeido y).
  rewrite MakeDay_day0_any.
  pose proof (Z.mod_pos_bound (m - 1) 12 ltac:(lia)) as Hr.
  pose proof (DaysInMonth_bounds (añoLeido y + (m - 1) / 12) ((m - 1) mod 12)).
  rewrite (TimeClip_in_range env tza); auto; try lia;
    [ | unfold MakeTime, msPerDay; lia ].
  unfold setHours. rewrite (LocalTime_UTC env tza) by exact fija.
  rewrite Day_MakeDate by (unfold MakeTime, msPerDay; lia).
  apply (TimeClip_in_range env tza); auto; try lia.
  unfold MakeTime, msPerDay, msPerHour, msPerMinute, msPerSecond. lia.
Qed.

(** X7.  The helpers that take a month do not check it.  On a host whose
    time zone keeps one fixed offset from UTC, a month outside 1..12 is
    carried into the year: for every safe integer [m], month [m] of year
    [y] is searched as month [(m - 1) mod 12] (0 for January) of the year
    [(m - 1) / 12] years later, from its day 1, 00:00:00.000 to its last
    day, 23:59:59.999; so month 13 is January of the next year and month 0
    is December of the year before. *)
Theorem mes_fuera_de_rango_pasa_al_anio (m y : Z) :
  enteroSeguro m ->
  representable (añoLeido y + (m - 1) / 12) ->
  exists ti tf,
    inicioMes env (Num y) (Num m) = Some ti /\
    finMes env (Num y) (Num m) = Some tf /\
    (y <> 0 ->
     filtroDelMes env (Num m) (Some (Num y)) = filtroTraslape (Some ti) (Some tf) /\
     filtroComun env (Some (Num m)) (Some (Num y))
     = filtroTraslape (Some ti) (Some tf)) /\
    localFields env ti
    = mkFields (añoLeido y + (m - 1) / 12) ((m - 1) mod 12) 1 0 0 0 0 /\
    localFields env tf
    = mkFields (añoLeido y + (m - 1) / 12) ((m - 1) mod 12)
               (DaysInMonth (añoLeido y + (m - 1) / 12) ((m - 1) mod 12))
               23 59 59 999.
Proof.
  intros Hs Hy.
  pose proof (Z.mod_pos_bound (m - 1) 12 ltac:(lia)) as Hr.
  pose proof (DaysInMonth_bounds (añoLeido y + (m - 1) / 12) ((m - 1) mod 12)).
  eexists _, _.
  split; [now apply inicioMes_cualquiera | ].
  split; [now apply finMes_cualquiera | ].
  split.
  { intros Hy0.
    assert (Ha : añoConsulta env (Some (Num y)) = Num y).
    { unfold añoConsulta, num_or, num_truthy.
      destruct (Z.eqb_spec y 0); [contradiction | reflexivity]. }
    unfold filtroDelMes, filtroComun. rewrite Ha.
    rewrite inicioMes_cualquiera, finMes_cualquiera by assumption. auto. }
  split; apply (localFields_UTC env tza fija); lia.
Qed.

End MesesYAños.

(** Month 13 of 2024 in Lima is January 2025. *)
Lemma mes_13_de_2024 :
  (zonaFija Lima (-18000000) /\ Z.abs (-18000000) <= JSDate.msPerDay /\
   enteroSeguro 13 /\ representable (añoLeido 2024 + (13 - 1) / 12)) /\
  (exists ti tf,
     inicioMes Lima (Num 2024) (Num 13) = Some ti /\
     finMes Lima (Num 2024) (Num 13) = Some tf /\
     JSDate.localFields Lima ti = JSDate.mkFields 2025 0 1 0 0 0 0 /\
     JSDate.localFields Lima tf = JSDate.mkFields 2025 0 31 23 59 59 999).
Proof.
  assert (Hf : zonaFija Lima (-18000000)) by (intros t isUTC; reflexivity).
  assert (Hz : Z.abs (-18000000) <= JSDate.msPerDay)
    by (vm_compute; discriminate).
  assert (Hs : enteroSeguro 13) by (vm_compute; discriminate).
  assert (Hr : representable (añoLeido 2024 + (13 - 1) / 12))
    by (unfold representable; vm_compute; split; discriminate).
  split; [repeat split; try assumption; apply Hr | ].
  destruct (mes_fuera_de_rango_pasa_al_anio Lima (-18000000) Hf Hz 13 2024 Hs Hr)
    as (ti & tf & Hi & Hfin & _ & Fi & Ff).
  exists ti, tf. repeat split; assumption.
Defined.

Section AñoEnCurso.
Import JSDate DateFacts InstantFacts.

Variable env : Env.
Variable tza : Z.
Hypothesis fija : zonaFija env tza.
Hypothesis zona : Z.abs tza <= msPerDay.
Hypothesis reloj : Z.abs (currentTime env) <= maxTime.

Lemma añoConsulta_sin_año (a : option JSNumber) :
  añoEnCurso env <> 0 ->
  a = None \/ a = Some (Num 0) \/ a = Some NaN ->
  añoConsulta env a = Num (añoEnCurso env) /\
  añoConsulta env (Some (Num (añoEnCurso env))) = Num (añoEnCurso env).
Proof.
  intros H0 Ha.
  assert (Hnow : getFullYear env (now env) = Num (añoEnCurso env)).
  { unfold now, TimeClip.
    destruct (Z.gtb_spec (Z.abs (currentTime env)) maxTime); [lia | reflexivity]. }
  split.
  - unfold añoConsulta. rewrite Hnow.
    destruct Ha as [-> | [-> | ->]]; reflexivity.
  - unfold añoConsulta, num_or, num_truthy.
    destruct (Z.eqb_spec (añoEnCurso env) 0); [contradiction | reflexivity].
Qed.

(** X8.  A month search without a year, or with the year 0 or a year
    that is not a number, is the search of that month in the year the
    clock shows in local time: on a host whose time zone keeps one fixed
    offset from UTC, for a month from 1 to 12 and a current year from 100
    on, the filter is the one built for that year given explicitly, and
    runs from day 1, 00:00:00.000 to the last day, 23:59:59.999 of that
    month of the current year. *)
Theorem mes_sin_anio_es_del_anio_en_curso (m : Z) (a : option JSNumber) :
  1 <= m <= 12 -> 100 <= añoEnCurso env <= 275759 ->
  a = None \/ a = Some (Num 0) \/ a = Some NaN ->
  filtroComun env (Some (Num m)) a
  = filtroComun env (Some (Num m)) (Some (Num (añoEnCurso env))) /\
  filtroDelMes env (Num m) a
  = filtroDelMes env (Num m) (Some (Num (añoEnCurso env))) /\
  exists ti tf,
    filtroComun env (Some (Num m)) a = filtroTraslape (Some ti) (Some tf) /\
    localFields env ti = mkFields (añoEnCurso env) (m - 1) 1 0 0 0 0 /\
    localFields env tf
    = mkFields (añoEnCurso env) (m - 1) (DaysInMonth (añoEnCurso env) (m - 1))
               23 59 59 999.
Proof.
  intros Hm HY Ha.
  destruct (añoConsulta_sin_año a ltac:(lia) Ha) as [E1 E2].
  assert (HL : añoLeido (añoEnCurso env) = añoEnCurso env).
  { unfold añoLeido. destruct (Z.leb_spec (añoEnCurso env) 99); [lia | ].
    now rewrite andb_false_r. }
  assert (HR : representable (añoLeido (añoEnCurso env)))
    by (rewrite HL; unfold representable; lia).
  pose proof (DaysInMonth_bounds (añoEnCurso env) (m - 1)).
  split; [unfold filtroComun; now rewrite E1, E2 | ].
  split; [unfold filtroDelMes; now rewrite E1, E2 | ].
  eexists _, _. split.
  - unfold filtroComun. rewrite E1.
    rewrite (inicioMes_value env tza fija zona),
      (finMes_value env tza fija zona) by assumption.
    rewrite HL. reflexivity.
  - split; apply (localFields_UTC env tza fija); cbn [DaysInMonth]; lia.
Qed.

End AñoEnCurso.

(** With the clock of the examples (November 2025), February without a
    year is February 2025. *)
Lemma febrero_sin_anio :
  (zonaFija Lima (-18000000) /\ Z.abs (-18000000) <= JSDate.msPerDay /\
   Z.abs (JSDate.currentTime Lima) <= JSDate.maxTime /\
   1 <= 2 <= 12 /\ 100 <= añoEnCurso Lima <= 275759) /\
  exists ti tf,
    filtroComun Lima (Some (Num 2)) None = filtroTraslape (Some ti) (Some tf) /\
    JSDate.localFields Lima ti = JSDate.mkFields 2025 1 1 0 0 0 0 /\
    JSDate.localFields Lima tf = JSDate.mkFields 2025 1 28 23 59 59 999.
Proof.
  assert (Hf : zonaFija Lima (-18000000)) by (intros t isUTC; reflexivity).
  assert (Hz : Z.abs (-18000000) <= JSDate.msPerDay)
    by (vm_compute; discriminate).
  assert (Hc : Z.abs (JSDate.currentTime Lima) <= JSDate.maxTime)
    by (vm_compute; discriminate).
  assert (Hm : 1 <= 2 <= 12) by lia.
  assert (Hy : 100 <= añoEnCurso Lima <= 275759)
    by (vm_compute; split; discriminate).
  split; [repeat split; try assumption; apply Hm || apply Hy | ].
  destruct (mes_sin_anio_es_del_anio_en_curso Lima (-18000000) Hf Hz Hc 2 None
              Hm Hy
              (or_introl eq_refl)) as (_ & _ & ti & tf & E & Fi & Ff).
  exists ti, tf. repeat split; assumption.
Defined.

Section EventosDelMes.
Import JSDate DateFacts InstantFacts.

Variable env : Env.
Variable tza : Z.
Hypothesis fija : zonaFija env tza.
Hypothesis zona : Z.abs tza <= msPerDay.

(** The instants between the two boundaries of a month are the instants
    of that month in local time. *)
Lemma entre_limites_del_mes (y mn t : Z) :
  0 <= mn <= 11 ->
  MakeDate (MakeDay y mn 1) (MakeTime 0 0 0 0) - tza <= t
  <= MakeDate (MakeDay y mn (DaysInMonth y mn)) (MakeTime 23 59 59 999)
     - tza
  <-> f_year (localFields env t) = y /\ f_month (localFields env t) = mn.
Proof.
  intros Hmn. unfold localFields. cbn [f_year f_month].
  rewrite (instantes_del_mes y mn (LocalTime env t) Hmn).
  unfold LocalTime. rewrite (fija t true). lia.
Qed.

Lemma entre_limites_del_año (y t : Z) :
  MakeDate (MakeDay y 0 1) (MakeTime 0 0 0 0) - tza <= t
  <= MakeDate (MakeDay y 11 31) (MakeTime 23 59 59 999) - tza
  <-> f_year (localFields env t) = y.
Proof.
  unfold localFields. cbn [f_year].
  rewrite (YearFromTime_iff y (LocalTime env t)).
  rewrite !MakeDay_in_month by lia. rewrite DayFromYear_succ.
  unfold LocalTime. rewrite (fija t true).
  unfold MakeDate, MakeTime, DaysInYear, msPerDay, msPerHour,
    msPerMinute, msPerSecond.
  cbn [daysBeforeMonth]. destruct (isLeap y); lia.
Qed.

Lemma traslape_con_rango (rs re s e : Z) (doc : Raw.t) :
  Raw.Fecha_Inicio doc = Some s -> Raw.Fecha_Conclusion doc = Some e ->
  s <= e -> rs <= re ->
  matches (filtroTraslape (Some rs) (Some re)) doc = true <->
  exists t, s <= t <= e /\ rs <= t <= re.
Proof.
  intros Hs He Hse Hr. rewrite (matches_iff_clausulas rs re s e doc Hs He).
  split.
  - intros H. exists (Z.max rs s). lia.
  - intros (t & H1 & H2). lia.
Qed.

Lemma filtro_del_mes_toca_el_mes
    (m y inicio conclusion : Z) (doc : Raw.t) :
  1 <= m <= 12 -> representable (añoLeido y) -> y <> 0 ->
  Raw.Fecha_Inicio doc = Some inicio ->
  Raw.Fecha_Conclusion doc = Some conclusion ->
  inicio <= conclusion ->
  matches (filtroDelMes env (Num m) (Some (Num y))) doc = true <->
  tocaElMes env (añoLeido y) (m - 1) inicio conclusion.
Proof.
  intros Hm Hy Hy0 Hs He Hse.
  assert (Ha : añoConsulta env (Some (Num y)) = Num y).
  { unfold añoConsulta, num_or, num_truthy.
    destruct (Z.eqb_spec y 0); [contradiction | reflexivity]. }
  unfold filtroDelMes. rewrite Ha.
  rewrite (inicioMes_value env tza fija zona),
    (finMes_value env tza fija zona) by assumption.
  pose proof (DaysInMonth_bounds (añoLeido y) (m - 1)) as Hd.
  rewrite (traslape_con_rango _ _ inicio conclusion doc Hs He Hse).
  - unfold tocaElMes. split; intros (t & H1 & H2); exists t;
      (split; [exact H1 | ]);
      now apply (entre_limites_del_mes (añoLeido y) (m - 1) t ltac:(lia)).
  - rewrite !MakeDay_in_month by lia.
    unfold MakeDate, MakeTime, msPerDay, msPerHour, msPerMinute, msPerSecond.
    lia.
Qed.

(** X9.  On a host whose time zone keeps one fixed offset from UTC, for
    a month from 1 to 12 and a year read as a representable year [Y], the
    month searches and the count of a month select a stored
    event with [Fecha_Inicio <= Fecha_Conclusion] exactly when the event
    has an instant in that month of [Y] in local time; no event that lies
    wholly in other months is selected, and none that touches the month
    is missed. *)
Theorem busqueda_del_mes_son_los_eventos_del_mes
    (m y inicio conclusion : Z) (doc : Raw.t) :
  1 <= m <= 12 -> representable (añoLeido y) -> y <> 0 ->
  Raw.Fecha_Inicio doc = Some inicio ->
  Raw.Fecha_Conclusion doc = Some conclusion ->
  inicio <= conclusion ->
  (matches (filtroComun env (Some (Num m)) (Some (Num y))) doc = true <->
   tocaElMes env (añoLeido y) (m - 1) inicio conclusion) /\
  (matches (filtroDelMes env (Num m) (Some (Num y))) doc = true <->
   tocaElMes env (añoLeido y) (m - 1) inicio conclusion).
Proof.
  intros Hm Hy Hy0 Hs He Hse.
  assert (HF : filtroComun env (Some (Num m)) (Some (Num y))
               = filtroDelMes env (Num m) (Some (Num y))) by reflexivity.
  rewrite HF.
  split; now apply filtro_del_mes_toca_el_mes.
Qed.

(** X10.  On a host whose time zone keeps one fixed offset from UTC, the
    year search selects a stored event with
    [Fecha_Inicio <= Fecha_Conclusion] exactly when the event has an
    instant in that year in local time; and that is exactly when one of
    the twelve month searches of that year selects it. *)
Theorem busqueda_del_anio_son_sus_doce_meses
    (y inicio conclusion : Z) (doc : Raw.t) :
  representable (añoLeido y) -> y <> 0 ->
  Raw.Fecha_Inicio doc = Some inicio ->
  Raw.Fecha_Conclusion doc = Some conclusion ->
  inicio <= conclusion ->
  (matches (filtroDelAño env (Num y)) doc = true <->
   tocaElAño env (añoLeido y) inicio conclusion) /\
  (matches (filtroDelAño env (Num y)) doc = true <->
   exists m, 1 <= m <= 12 /\
             matches (filtroDelMes env (Num m) (Some (Num y))) doc = true).
Proof.
  intros Hy Hy0 Hs He Hse.
  assert (HA : matches (filtroDelAño env (Num y)) doc = true <->
               tocaElAño env (añoLeido y) inicio conclusion).
  { unfold filtroDelAño, inicioAño, finAño, construct3, construct.
    fold (añoLeido y).
    rewrite !(TimeClip_in_range env tza); auto; cbn [DaysInMonth]; try lia;
      try (unfold MakeTime, msPerDay, msPerHour, msPerMinute, msPerSecond; lia).
    rewrite (traslape_con_rango _ _ inicio conclusion doc Hs He Hse).
    - unfold tocaElAño. split; intros (t & H1 & H2); exists t;
        (split; [exact H1 | ]);
        now apply (entre_limites_del_año (añoLeido y) t).
    - rewrite !MakeDay_in_month by lia.
      unfold MakeDate, MakeTime, msPerDay, msPerHour, msPerMinute, msPerSecond.
      cbn [daysBeforeMonth]. destruct (isLeap (añoLeido y)); lia. }
  split; [exact HA | ].
  rewrite HA. unfold tocaElAño. split.
  - intros (t & H1 & H2).
    pose proof (MonthFromTime_range (LocalTime env t)) as Hr.
    exists (MonthFromTime (LocalTime env t) + 1). split; [lia | ].
    apply (proj2 (filtro_del_mes_toca_el_mes
                    (MonthFromTime (LocalTime env t) + 1) y inicio conclusion doc
                    ltac:(lia) Hy Hy0 Hs He Hse)).
    exists t. split; [exact H1 | split; [exact H2 | ]].
    unfold localFields. cbn [f_month]. lia.
  - intros (m & Hm & H).
    apply (proj1 (filtro_del_mes_toca_el_mes
                    m y inicio conclusion doc Hm Hy Hy0 Hs He Hse)) in H.
    destruct H as (t & H1 & H2 & _). exists t. auto.
Qed.

End EventosDelMes.

(** The event across midnight of January 31, 2024 is an event of
    February, and of the year 2024. *)
Lemma evento_de_medianoche_en_febrero :
  (zonaFija Lima (-18000000) /\ Z.abs (-18000000) <= JSDate.msPerDay /\
   1 <= 2 <= 12 /\
   representable (añoLeido 2024) /\ 2024 <> 0 /\
   1706760000000 <= 1706767200000) /\
  matches (filtroComun Lima (Some (Num 2)) (Some (Num 2024))) eventoDeMedianoche
  = true /\
  tocaElMes Lima 2024 1 1706760000000 1706767200000.
Proof.
  assert (Hf : zonaFija Lima (-18000000)) by (intros t isUTC; reflexivity).
  assert (Hz : Z.abs (-18000000) <= JSDate.msPerDay)
    by (vm_compute; discriminate).
  assert (Hm : 1 <= 2 <= 12) by lia.
  assert (Hr : representable (añoLeido 2024))
    by (unfold representable; vm_compute; split; discriminate).
  assert (Hy : 2024 <> 0) by lia.
  assert (Hse : 1706760000000 <= 1706767200000) by lia.
  split; [repeat split; try assumption; apply Hm || apply Hr | ].
  assert (M : matches (filtroComun Lima (Some (Num 2)) (Some (Num 2024)))
                eventoDeMedianoche = true) by (vm_compute; reflexivity).
  split; [exact M | ].
  exact (proj1 (proj1 (busqueda_del_mes_son_los_eventos_del_mes Lima (-18000000)
                         Hf Hz 2 2024
                         1706760000000 1706767200000 eventoDeMedianoche
                         Hm Hr Hy eq_refl eq_refl Hse)) M).
Defined.

Lemma evento_de_medianoche_en_2024 :
  (zonaFija Lima (-18000000) /\ Z.abs (-18000000) <= JSDate.msPerDay /\
   representable (añoLeido 2024) /\ 2024 <> 0 /\
   1706760000000 <= 1706767200000) /\
  matches (filtroDelAño Lima (Num 2024)) eventoDeMedianoche = true /\
  exists m, 1 <= m <= 12 /\
            matches (filtroDelMes Lima (Num m) (Some (Num 2024)))
                    eventoDeMedianoche = true.
Proof.
  assert (Hf : zonaFija Lima (-18000000)) by (intros t isUTC; reflexivity).
  assert (Hz : Z.abs (-18000000) <= JSDate.msPerDay)
    by (vm_compute; discriminate).
  assert (Hr : representable (añoLeido 2024))
    by (unfold representable; vm_compute; split; discriminate).
  assert (Hy : 2024 <> 0) by lia.
  assert (Hse : 1706760000000 <= 1706767200000) by lia.
  split; [repeat split; try assumption; apply Hr | ].
  assert (M : matches (filtroDelAño Lima (Num 2024)) eventoDeMedianoche = true)
    by (vm_compute; reflexivity).
  split; [exact M | ].
  exact (proj1 (proj2 (busqueda_del_anio_son_sus_doce_meses Lima (-18000000)
                         Hf Hz 2024
                         1706760000000 1706767200000 eventoDeMedianoche
                         Hr Hy eq_refl eq_refl Hse)) M).
Defined.

(** Where the zone changes its offset the year is not its twelve months.
    In Lima the hour from 23:00 to 24:00 of March 31, 1986 came twice; an
    event in its second passage (04:10 to 04:20 UTC of April 1) is selected
    by the year search of 1986 and by none of its month searches: March
    ends at 03:59:59.999 UTC and April starts at 05:00 UTC. *)
Example evento_en_la_hora_repetida :
  matches (filtroDelAño LimaEn1986 (Num 1986))
          (documento_entre 1 512712600000 512713200000) = true /\
  forallb (fun m =>
             negb (matches (filtroDelMes LimaEn1986 (Num m) (Some (Num 1986)))
                           (documento_entre 1 512712600000 512713200000)))
          [1; 2; 3; 4; 5; 6; 7; 8; 9; 10; 11; 12] = true /\
  finMes LimaEn1986 (Num 1986) (Num 3) = Some 512711999999 /\
  inicioMes LimaEn1986 (Num 1986) (Num 4) = Some 512715600000.
Proof. repeat split; vm_compute; reflexivity. Qed.

(* ================================================================= *)
(** ** More on the conflict check *)

Lemma In_si_se_conserva {A} (c : bool) (x : A) :
  In x (if c then [x] else []) <-> c = true.
Proof. destruct c; cbn; intuition congruence. Qed.

(** X11.  Conflict is symmetric: an event [b] is a conflict for the
    interval of an event [a] exactly when [a] is one for the interval of
    [b].  It is reflexive only for well-formed events: an event is a
    conflict for its own interval exactly when both its dates are valid
    and its start is not after its end. *)
Theorem conflicto_simetrico (a b : T_Eventos) :
  (In b (verificarConflictoConEventos (Fecha_Inicio a) (Fecha_Conclusion a) [b])
   <->
   In a (verificarConflictoConEventos (Fecha_Inicio b) (Fecha_Conclusion b) [a]))
  /\
  (In a (verificarConflictoConEventos (Fecha_Inicio a) (Fecha_Conclusion a) [a])
   <->
   exists inicio conclusion,
     Fecha_Inicio a = Some inicio /\ Fecha_Conclusion a = Some conclusion /\
     inicio <= conclusion).
Proof.
  unfold verificarConflictoConEventos. cbn [List.filter].
  rewrite !In_si_se_conserva.
  unfold hayTraslape, JSDate.copy, JSDate.ge, JSDate.le.
  split.
  - destruct (Fecha_Inicio a) as [sa |], (Fecha_Conclusion a) as [ea |],
      (Fecha_Inicio b) as [sb |], (Fecha_Conclusion b) as [eb |];
      rewrite ?andb_false_r; cbn; try tauto.
    rewrite andb_comm. tauto.
  - destruct (Fecha_Inicio a) as [sa |], (Fecha_Conclusion a) as [ea |];
      rewrite ?andb_false_r; cbn.
    + rewrite andb_diag, Z.leb_le. split.
      * intros H. exists sa, ea. auto.
      * intros (i & c & [= <-] & [= <-] & H). exact H.
    + split; [discriminate | intros (i & c & _ & H & _); discriminate].
    + split; [discriminate | intros (i & c & H & _); discriminate].
    + split; [discriminate | intros (i & c & H & _); discriminate].
Qed.

(** X12.  A wider candidate has every conflict of a narrower one, and a
    candidate with an Invalid Date has none: moving the start back or the
    end forward never loses a conflict, and no event conflicts with an
    interval whose start or end is not a date. *)
Theorem conflicto_monotono (eventos : list T_Eventos) :
  (forall inicio fin inicio' fin' evento,
     inicio' <= inicio -> fin <= fin' ->
     In evento (verificarConflictoConEventos (Some inicio) (Some fin) eventos) ->
     In evento (verificarConflictoConEventos (Some inicio') (Some fin') eventos))
  /\
  (forall fecha, verificarConflictoConEventos None fecha eventos = []) /\
  (forall fecha, verificarConflictoConEventos fecha None eventos = []).
Proof.
  unfold verificarConflictoConEventos, hayTraslape, JSDate.copy, JSDate.ge,
    JSDate.le.
  split; [ | split].
  - intros inicio fin inicio' fin' evento Hi Hf H.
    apply filter_In in H. destruct H as [Hin Hb].
    apply filter_In. split; [exact Hin | ].
    destruct (Fecha_Inicio evento) as [s |], (Fecha_Conclusion evento) as [e |];
      rewrite ?andb_false_r in Hb; try discriminate.
    apply andb_true_iff in Hb. destruct Hb as [H1 H2].
    apply Z.leb_le in H1, H2. apply andb_true_iff. split; apply Z.leb_le; lia.
  - intros fecha. induction eventos as [| ev rest IH]; [reflexivity | ].
    cbn [List.filter]. rewrite IH.
    destruct (Fecha_Inicio ev), fecha, (Fecha_Conclusion ev); cbn;
      rewrite ?andb_false_r; reflexivity.
  - intros fecha. induction eventos as [| ev rest IH]; [reflexivity | ].
    cbn [List.filter]. rewrite IH.
    destruct (Fecha_Inicio ev), fecha, (Fecha_Conclusion ev); cbn;
      rewrite ?andb_false_r; reflexivity.
Qed.

(** Widening the candidate from 10:00-11:00 to 10:00-12:00 keeps the
    conflict with the event from 11:00 to 13:00. *)
Lemma conflicto_al_ampliar :
  In (evento_entre 1 (hora 11) (hora 13))
     (verificarConflictoConEventos (Some (hora 10)) (Some (hora 12))
        [evento_entre 1 (hora 11) (hora 13); evento_entre 2 (hora 12) (hora 13)]).
Proof.
  refine (proj1 (conflicto_monotono
                   [evento_entre 1 (hora 11) (hora 13);
                    evento_entre 2 (hora 12) (hora 13)])
            (hora 10) (hora 11) (hora 10) (hora 12) _ _ _ _).
  - vm_compute. discriminate.
  - vm_compute. discriminate.
  - left. reflexivity.
Defined.

(* ================================================================= *)
(** ** The year search and the range search *)

Section AñoYRango.

Context {DB : Type}.
Variable connector : Connector DB.
Variable env : JSDate.Env.
Variable instancia : option RDP03.
Variable w : World DB.
Variable elAño : JSNumber.

(** X13.  The year search is the range search from January 1,
    00:00:00.000 to December 31, 23:59:59.999 of that year: both put the
    same [find] to the database, so they end alike, with the same events
    or the same error, the same calls and the same database; when they
    return they leave the same world, and when they throw they differ only
    in the label under which the error is logged. *)
Theorem busqueda_del_anio_es_busqueda_por_rango :
  let porAño := buscarEventosPorAño connector env elAño instancia w in
  let porRango :=
    buscarEventosPorRango connector (inicioAño env elAño) (finAño env elAño)
      instancia w in
  fst porAño = fst porRango /\
  issued (snd porAño) = issued (snd porRango) /\
  db (snd porAño) = db (snd porRango) /\
  (forall eventos, fst porAño = Returns eventos -> snd porAño = snd porRango) /\
  (forall e, fst porAño = Throws e ->
     console (snd porAño)
     = (console w ++ [console_error_entry "Error buscando eventos por año:" e])%list /\
     console (snd porRango)
     = (console w ++ [console_error_entry "Error buscando eventos por rango:" e])%list).
Proof.
  intros porAño porRango. subst porAño porRango.
  rewrite buscarEventosPorAño_run, buscarEventosPorRango_run.
  change (filtroDelAño env elAño)
    with (filtroTraslape (inicioAño env elAño) (finAño env elAño)).
  destruct (connector TEventosArray instancia _ Directivo (db w)) as [[evs | e] d];
    cbn [fst snd issued db console trasError trasLlamadas];
    repeat split; intros; try discriminate; congruence.
Qed.

End AñoYRango.
